(** * Jira -> GitLab issue relay ([app2.py]): a shallow embedding of the
    synchronisation core and the properties its specification states.

    The relay receives a Jira webhook, decides whether the delivery was already
    handled, whether the issue is in scope, and creates or updates the mirrored
    GitLab issue, keeping two SQLite tables: [links] and [processed].

    Modelling choices.
    - A JSON document (the result of [request.json()], of [json.loads]) is a
      [pyval]; Python's dynamic checks are written out: [x.get(k)] on a value
      that is not a dict raises [AttributeError], hashing a list or a dict
      raises [TypeError], and so on.
    - A Python [str] is a [string] whose characters are the code points below
      256; whitespace is Python's [str.isspace] on that range.
    - The two SQLite tables are lists of rows; the statements of the source
      ([INSERT OR IGNORE], [INSERT ... ON CONFLICT DO UPDATE], [SELECT ...
      WHERE key = ?]) are functions on these lists. The storage layer itself
      is assumed available (no [sqlite3.OperationalError]).
    - The handler is a function in a state-and-exception monad over a [world]:
      the database and the trace of the effects performed so far (HTTP requests
      sent to GitLab, committed writes). What GitLab answers and what the clock
      shows are functions of that trace, and every theorem quantifies over them.
    - A handful of library behaviours on values that are not strings (how
      [str()] prints them, how [sqlite3] binds them, what [int()] makes of
      them, whether pydantic accepts them for a [str] field) are fields of
      the [env] the model takes; on strings they are written out. *)

From Stdlib Require Import String Ascii List ZArith Bool Lia PrimFloat DecimalString.
From Stdlib Require DecimalPos DecimalZ.
Import ListNotations.

Set Warnings "-register-all".

Local Open Scope string_scope.
Local Open Scope list_scope.
Local Open Scope Z_scope.

(** ** Python values *)

(** JSON documents as Python sees them after parsing. A [PDict] lists the
    members in document order. *)
Inductive pyval : Type :=
| PNone
| PBool (b : bool)
| PInt (n : Z)
| PFloat (x : float)
| PStr (s : string)
| PList (items : list pyval)
| PDict (entries : list (string * pyval)).

Definition is_nil {A : Type} (l : list A) : bool :=
  match l with [] => true | _ :: _ => false end.

(** [bool(v)]: what [if v], [not v] and [v or w] test. *)
Definition truthy (v : pyval) : bool :=
  match v with
  | PNone => false
  | PBool b => b
  | PInt n => negb (n =? 0)
  | PFloat x => negb (PrimFloat.eqb x PrimFloat.zero)
  | PStr s => negb (s =? "")%string
  | PList items => negb (is_nil items)
  | PDict entries => negb (is_nil entries)
  end.

(** [a or b] *)
Definition py_or (a b : pyval) : pyval := if truthy a then a else b.

(** The exceptions a request can end with. [HTTPException] is raised by the
    handler itself; the others escape it and FastAPI answers 500. *)
Inductive exn : Type :=
| HTTPException (status_code : Z)
| AttributeError
| TypeError
| JSONDecodeError
| SqliteBindError
| OverflowError
| TransportError
| ResponseBodyError
| ValidationError.

Inductive result (A : Type) : Type :=
| Ok (a : A)
| Raise (e : exn).
Arguments Ok {A} a.
Arguments Raise {A} e.

Definition rbind {A B : Type} (c : result A) (k : A -> result B) : result B :=
  match c with Ok a => k a | Raise e => Raise e end.

Notation "x <-? c ;; k" := (rbind c (fun x => k))
  (at level 61, c at next level, right associativity).

(** A key of a dict built by [json.loads]: a later member with the same name
    replaces an earlier one. *)
Fixpoint lookup (k : string) (entries : list (string * pyval)) : option pyval :=
  match entries with
  | [] => None
  | (k', v) :: rest =>
      match lookup k rest with
      | Some v' => Some v'
      | None => if (k' =? k)%string then Some v else None
      end
  end.

(** [obj.get(k)]: [None] for a missing key, [AttributeError] when [obj] is
    not a dict. *)
Definition py_get (obj : pyval) (k : string) : result pyval :=
  match obj with
  | PDict entries => Ok (match lookup k entries with Some v => v | None => PNone end)
  | _ => Raise AttributeError
  end.

(** ** Strings *)

Definition nl : string := String "010" EmptyString.

(** [str.isspace] on the code points below 256. *)
Definition is_space (c : ascii) : bool :=
  let n := nat_of_ascii c in
  (((9 <=? n) && (n <=? 13)) || ((28 <=? n) && (n <=? 32))
   || (n =? 133) || (n =? 160))%nat.

Fixpoint lstrip (s : string) : string :=
  match s with
  | EmptyString => EmptyString
  | String c t => if is_space c then lstrip t else s
  end.

Fixpoint rstrip (s : string) : string :=
  match s with
  | EmptyString => EmptyString
  | String c t =>
      match rstrip t with
      | EmptyString => if is_space c then EmptyString else String c EmptyString
      | t' => String c t'
      end
  end.

(** [s.strip()] *)
Definition strip (s : string) : string := rstrip (lstrip s).

(** [needle in hay] for two strings. *)
Fixpoint str_contains (needle hay : string) : bool :=
  String.prefix needle hay
  || match hay with
     | EmptyString => false
     | String _ t => str_contains needle t
     end.

(** [str(n)] for an int. *)
Definition str_of_int (n : Z) : string := NilZero.string_of_int (Z.to_int n).

(** ** Configuration: the module globals read from the environment *)

Record config : Type := {
  GITLAB_BASE_URL : string;
  GITLAB_PROJECT_ID : string;
  GITLAB_TOKEN : string;
  JIRA_SHARED_SECRET : string;
  ALLOWED_ASSIGNEES : list string;
  JIRA_TO_GITLAB_USER_ID : pyval;
  DONE_STATUSES : list string;
  LABEL_PREFIX_STATUS : string;
  LABEL_OUT_OF_SCOPE : string;
  LABEL_IN_SCOPE : string;
  SYNC_MARKER_PREFIX : string
}.

(** The values the globals take when the optional variables are unset; the
    three GitLab settings have no usable default and are filled in. *)
Definition default_config : config := {|
  GITLAB_BASE_URL := "https://gitlab.example";
  GITLAB_PROJECT_ID := "42";
  GITLAB_TOKEN := "glpat";
  JIRA_SHARED_SECRET := "";
  ALLOWED_ASSIGNEES := [];
  JIRA_TO_GITLAB_USER_ID := PDict [];
  DONE_STATUSES := ["Done"; "Closed"; "Resolved"];
  LABEL_PREFIX_STATUS := "jira:status:";
  LABEL_OUT_OF_SCOPE := "sync:out-of-scope";
  LABEL_IN_SCOPE := "sync:in-scope";
  SYNC_MARKER_PREFIX := "JIRA_KEY:"
|}.

(** ** The database *)

(** A row of [links]. *)
Record link_row : Type := {
  jira_key : string;
  gitlab_project_id : string;
  gitlab_issue_iid : Z;
  last_synced_at : string;
  sync_state : string
}.

(** A row of [processed]. *)
Record processed_row : Type := {
  event_fingerprint : string;
  created_at : string
}.

Record database : Type := {
  links : list link_row;
  processed : list processed_row
}.

Definition empty_database : database := {| links := []; processed := [] |}.

(** The 64-bit range of an SQLite [INTEGER]; [sqlite3] raises [OverflowError]
    when asked to bind a Python int outside it. *)
Definition sqlite_int_ok (n : Z) : bool :=
  (- 2 ^ 63 <=? n) && (n <? 2 ^ 63).

(** [SELECT ... FROM links WHERE jira_key = ?] followed by [fetchone()]. *)
Definition select_link (k : string) (db : database) : option link_row :=
  find (fun r => (jira_key r =? k)%string) (links db).

(** [INSERT INTO links ... ON CONFLICT(jira_key) DO UPDATE SET ...]: the row
    that holds the key takes the new values, and the row is added when no row
    holds the key. *)
Fixpoint upsert_row (r : link_row) (rows : list link_row) : list link_row :=
  match rows with
  | [] => [r]
  | x :: rest =>
      if (jira_key x =? jira_key r)%string
      then {| jira_key := jira_key x;
              gitlab_project_id := gitlab_project_id r;
              gitlab_issue_iid := gitlab_issue_iid r;
              last_synced_at := last_synced_at r;
              sync_state := sync_state r |} :: rest
      else x :: upsert_row r rest
  end.

(** [SELECT 1 FROM processed WHERE event_fingerprint = ?] finds a row. *)
Definition has_fingerprint (fp : string) (db : database) : bool :=
  existsb (fun r => (event_fingerprint r =? fp)%string) (processed db).

(** [INSERT OR IGNORE INTO processed ...] *)
Definition insert_or_ignore (r : processed_row) (rows : list processed_row)
  : list processed_row :=
  if existsb (fun x => (event_fingerprint x =? event_fingerprint r)%string) rows
  then rows
  else rows ++ [r].

(** ** The world of a running relay *)

(** What the relay does to the outside: the form it posts or puts to GitLab,
    and the writes it commits. *)
Inductive effect : Type :=
| HttpPost (url : string) (data : list (string * pyval))
| HttpPut (url : string) (data : list (string * pyval))
| LinkUpsert (row : link_row)
| ProcessedInsert (row : processed_row).

(** What an HTTP request to GitLab comes back with: no response at all (httpx
    raises), or a response, of which the source reads the status code and,
    after a create, [int(r.json()["iid"])] ([None] when that expression
    raises). *)
Inductive reply : Type :=
| NoResponse
| Response (status_code : Z) (iid : option Z).

Record world : Type := {
  db : database;
  trace : list effect
}.

Definition M (A : Type) : Type := world -> result A * world.

Definition ret {A : Type} (a : A) : M A := fun w => (Ok a, w).
Definition raise {A : Type} (e : exn) : M A := fun w => (Raise e, w).
Definition bind {A B : Type} (c : M A) (k : A -> M B) : M B :=
  fun w => match c w with
           | (Ok a, w') => k a w'
           | (Raise e, w') => (Raise e, w')
           end.
Definition lift {A : Type} (c : result A) : M A := fun w => (c, w).

Notation "x <- c ;; k" := (bind c (fun x => k))
  (at level 61, c at next level, right associativity).
Notation "c ;; k" := (bind c (fun _ => k))
  (at level 61, right associativity).

(** The acknowledgment the endpoint returns. *)
Record WebhookResponse : Type := {
  ok : bool;
  action : string;
  resp_jira_key : option string;
  gitlab_iid : option Z
}.

(** The parts of a request the handler reads: the [X-Sync-Token] header, the
    [token] query parameter, and the body as [request.json()] parses it
    ([None]: the body is not JSON). *)
Record request : Type := {
  x_sync_token : option string;
  query_token : option string;
  json_body : option pyval
}.

(** The dict [_jira_extract] returns. *)
Record extracted : Type := {
  data_key : pyval;
  data_summary : pyval;
  data_description : pyval;
  data_status : pyval;
  data_assignee : pyval;
  data_labels : list pyval
}.

Definition mem (s : string) (l : list string) : bool :=
  existsb (fun x => (x =? s)%string) l.

Definition opt_eqb (o : option string) (s : string) : bool :=
  match o with Some x => (x =? s)%string | None => false end.

(** ** What lies outside the repository

    The behaviour of the libraries on values that are not strings, GitLab and
    the clock. Every theorem holds for every [env]. *)
Record env : Type := {
  (** [str(v)] for a value that is not a string. *)
  py_repr : pyval -> string;
  (** [int(v)] for a string or a float; [None] when it raises. *)
  int_parse : pyval -> option Z;
  (** The text SQLite compares and stores when a value that is not a string is
      bound to the [TEXT] key column of [links] (the column's affinity converts
      numbers); [None] when [sqlite3] refuses to bind the value. *)
  sqlite_text_of : pyval -> option string;
  (** What pydantic makes of a value that is not a string given for a field
      declared [Optional[str]]; [None] when validation fails. *)
  pydantic_str : pyval -> option string;
  (** GitLab's answer to the request that ends the trace. *)
  gitlab_api : list effect -> reply;
  (** [datetime.now(timezone.utc).isoformat()] at a point of the run. *)
  utc_now : list effect -> string
}.

(** ** The relay *)

Section Relay.

(** The module globals. *)
Variable cfg : config.
(** The libraries and the outside world. *)
Variable E : env.

(** [f"{v}"] *)
Definition py_str (v : pyval) : string :=
  match v with PStr s => s | _ => py_repr E v end.

(** [int(v)], [None] when it raises. *)
Definition py_int (v : pyval) : option Z :=
  match v with
  | PInt n => Some n
  | PBool b => Some (if b then 1 else 0)
  | PStr _ | PFloat _ => int_parse E v
  | PNone | PList _ | PDict _ => None
  end.

Definition bind_text (v : pyval) : option string :=
  match v with PStr s => Some s | _ => sqlite_text_of E v end.

Definition validate_str (v : pyval) : option string :=
  match v with PStr s => Some s | _ => pydantic_str E v end.

(** *** Event normaliser *)

Definition _fingerprint (payload : pyval) : result string :=
  i <-? py_get payload "issue" ;;
  let issue := py_or i (PDict []) in
  k <-? py_get issue "key" ;;
  let key := py_or k (PStr "") in
  f <-? py_get issue "fields" ;;
  u <-? py_get (py_or f (PDict [])) "updated" ;;
  let updated := py_or u (PStr "") in
  e <-? py_get payload "webhookEvent" ;;
  event_type <-? (if truthy e then Ok e
                  else e' <-? py_get payload "issue_event_type_name" ;;
                       Ok (py_or e' (PStr ""))) ;;
  Ok (py_str event_type ++ "|" ++ py_str key ++ "|" ++ py_str updated)%string.

Definition _jira_extract (payload : pyval) : result extracted :=
  i <-? py_get payload "issue" ;;
  let issue := py_or i (PDict []) in
  f <-? py_get issue "fields" ;;
  let fields := py_or f (PDict []) in
  key <-? py_get issue "key" ;;
  s <-? py_get fields "summary" ;;
  let summary := py_or s (PStr "") in
  d <-? py_get fields "description" ;;
  let desc := match d with PNone => PStr "" | _ => d end in
  st <-? py_get fields "status" ;;
  n <-? py_get (py_or st (PDict [])) "name" ;;
  let status := py_or n (PStr "") in
  assignee_obj <-? py_get fields "assignee" ;;
  assignee <-? (if truthy assignee_obj then
                  a1 <-? py_get assignee_obj "name" ;;
                  if truthy a1 then Ok a1 else
                  a2 <-? py_get assignee_obj "key" ;;
                  if truthy a2 then Ok a2 else
                  py_get assignee_obj "accountId"
                else Ok PNone) ;;
  l <-? py_get fields "labels" ;;
  let labels := match py_or l (PList []) with
                | PList items => items
                | _ => []
                end in
  Ok {| data_key := key;
        data_summary := summary;
        data_description := desc;
        data_status := status;
        data_assignee := assignee;
        data_labels := labels |}.

(** *** Scope and transform engine *)

(** [marker in jira_desc] *)
Definition py_contains (marker : string) (v : pyval) : result bool :=
  match v with
  | PStr s => Ok (str_contains marker s)
  | PList items =>
      Ok (existsb (fun x => match x with PStr s => (s =? marker)%string | _ => false end) items)
  | PDict entries => Ok (existsb (fun e => (fst e =? marker)%string) entries)
  | _ => Raise TypeError
  end.

(** [v.strip()] *)
Definition py_strip (v : pyval) : result string :=
  match v with PStr s => Ok (strip s) | _ => Raise AttributeError end.

Definition _build_description (jira_key jira_desc : pyval) : result pyval :=
  let marker := (SYNC_MARKER_PREFIX cfg ++ " " ++ py_str jira_key)%string in
  found <-? py_contains marker jira_desc ;;
  if found then Ok jira_desc else
  stripped <-? py_strip jira_desc ;;
  if negb (stripped =? "")%string
  then Ok (PStr (py_str jira_desc ++ nl ++ nl ++ "---" ++ nl ++ marker))
  else Ok (PStr marker).

Definition _labels_merge (jira_labels : list pyval) (status : pyval) (in_scope : bool)
  : list string :=
  let out :=
    fold_left
      (fun out l =>
         match l with
         | PStr s => if negb (strip s =? "")%string then out ++ [strip s] else out
         | _ => out
         end)
      jira_labels [] in
  let out := filter (fun l => negb (String.prefix (LABEL_PREFIX_STATUS cfg) l)) out in
  let out := out ++ [if truthy status
                     then (LABEL_PREFIX_STATUS cfg ++ py_str status)%string
                     else (LABEL_PREFIX_STATUS cfg ++ "unknown")%string] in
  let out := filter (fun l => negb (mem l [LABEL_OUT_OF_SCOPE cfg; LABEL_IN_SCOPE cfg])) out in
  let out := out ++ [if in_scope then LABEL_IN_SCOPE cfg else LABEL_OUT_OF_SCOPE cfg] in
  fst (fold_left
         (fun (acc : list string * list string) l =>
            let (uniq, seen) := acc in
            if negb (mem l seen) then (uniq ++ [l], l :: seen) else (uniq, seen))
         out ([], [])).

Definition _is_in_scope (assignee : pyval) : bool :=
  if negb (truthy assignee) then false
  else if is_nil (ALLOWED_ASSIGNEES cfg) then true
  else match assignee with
       | PStr s => mem s (ALLOWED_ASSIGNEES cfg)
       | _ => false
       end.

Definition _map_assignee_to_gitlab_ids (assignee : pyval) (in_scope : bool)
  : result (list Z) :=
  if negb in_scope then Ok []
  else if negb (truthy assignee) then Ok []
  else
    v <-? match JIRA_TO_GITLAB_USER_ID cfg, assignee with
          | PDict _, (PList _ | PDict _) => Raise TypeError
          | PDict entries, PStr s =>
              Ok (match lookup s entries with Some v => v | None => PNone end)
          | PDict _, _ => Ok PNone
          | _, _ => Raise AttributeError
          end ;;
    match v with
    | PNone => Ok []
    | _ => match py_int v with Some n => Ok [n] | None => Ok [] end
    end.

Definition _state_event_from_status (status : pyval) : result (option string) :=
  if negb (truthy status) then Ok None
  else match status with
       | PList _ | PDict _ => Raise TypeError
       | PStr s => if mem s (DONE_STATUSES cfg) then Ok (Some "close") else Ok (Some "reopen")
       | _ => Ok (Some "reopen")
       end.

(** *** Durable store *)

Definition _now_iso : M string := fun w => (Ok (utc_now E (trace w)), w).

(** A committed write: it changes the table and enters the trace. *)
Definition commit (e : effect) : M unit :=
  fun w =>
    let d := db w in
    let d' := match e with
              | LinkUpsert r => {| links := upsert_row r (links d); processed := processed d |}
              | ProcessedInsert r =>
                  {| links := links d; processed := insert_or_ignore r (processed d) |}
              | _ => d
              end in
    (Ok tt, {| db := d'; trace := trace w ++ [e] |}).

Definition _is_processed (fp : string) : M bool :=
  fun w => (Ok (has_fingerprint fp (db w)), w).

Definition _mark_processed (fp : string) : M unit :=
  now <- _now_iso ;;
  commit (ProcessedInsert {| event_fingerprint := fp; created_at := now |}).

Definition _get_link (jira_key : pyval) : M (option (string * Z * string)) :=
  match bind_text jira_key with
  | None => raise SqliteBindError
  | Some k =>
      fun w =>
        (Ok (match select_link k (db w) with
             | Some row => Some (gitlab_project_id row, gitlab_issue_iid row, sync_state row)
             | None => None
             end), w)
  end.

Definition _upsert_link (jira_key : pyval) (iid : Z) (sync_state : string) : M unit :=
  now <- _now_iso ;;
  match bind_text jira_key with
  | None => raise SqliteBindError
  | Some k =>
      if sqlite_int_ok iid
      then commit (LinkUpsert {| jira_key := k;
                                 gitlab_project_id := GITLAB_PROJECT_ID cfg;
                                 gitlab_issue_iid := iid;
                                 last_synced_at := now;
                                 sync_state := sync_state |})
      else raise OverflowError
  end.

(** *** Calls to GitLab *)

Definition _gitlab_issue_url (iid : Z) : string :=
  (GITLAB_BASE_URL cfg ++ "/api/v4/projects/" ++ GITLAB_PROJECT_ID cfg
     ++ "/issues/" ++ str_of_int iid)%string.

Definition _gitlab_create_url : string :=
  (GITLAB_BASE_URL cfg ++ "/api/v4/projects/" ++ GITLAB_PROJECT_ID cfg ++ "/issues")%string.

(** The request leaves, enters the trace, and GitLab answers. *)
Definition send (e : effect) : M reply :=
  fun w =>
    let t := trace w ++ [e] in
    (Ok (gitlab_api E t), {| db := db w; trace := t |}).

Definition state_event_field (state_event : option string) : list (string * pyval) :=
  match state_event with
  | Some s => if negb (s =? "")%string then [("state_event", PStr s)] else []
  | None => []
  end.

(** The form [_gitlab_create_issue] posts. *)
Definition create_data (title description : pyval) (labels : list string)
    (assignee_ids : list Z) (state_event : option string) : list (string * pyval) :=
  [("title", title); ("description", description);
   ("labels", PStr (if negb (is_nil labels) then String.concat "," labels else ""))]
  ++ (if negb (is_nil assignee_ids)
      then [("assignee_ids", PList (map PInt assignee_ids))] else [])
  ++ state_event_field state_event.

Definition _gitlab_create_issue (title description : pyval) (labels : list string)
    (assignee_ids : list Z) (state_event : option string) : M Z :=
  let data := create_data title description labels assignee_ids state_event in
  r <- send (HttpPost _gitlab_create_url data) ;;
  match r with
  | NoResponse => raise TransportError
  | Response status_code iid =>
      if status_code >=? 300 then raise (HTTPException 502)
      else match iid with
           | Some n => ret n
           | None => raise ResponseBodyError
           end
  end.

(** The form [_gitlab_update_issue] puts: [assignee_ids] is always sent, as
    the empty string when there is no assignee. *)
Definition update_data (title description : pyval) (labels : list string)
    (assignee_ids : list Z) (state_event : option string) : list (string * pyval) :=
  [("title", title); ("description", description);
   ("labels", PStr (if negb (is_nil labels) then String.concat "," labels else ""))]
  ++ [("assignee_ids", if negb (is_nil assignee_ids)
                       then PList (map PInt assignee_ids) else PStr "")]
  ++ state_event_field state_event.

Definition _gitlab_update_issue (iid : Z) (title description : pyval) (labels : list string)
    (assignee_ids : list Z) (state_event : option string) : M unit :=
  let data := update_data title description labels assignee_ids state_event in
  r <- send (HttpPut (_gitlab_issue_url iid) data) ;;
  match r with
  | NoResponse => raise TransportError
  | Response status_code _ =>
      if status_code >=? 300 then raise (HTTPException 502) else ret tt
  end.

(** *** The endpoint *)

(** [WebhookResponse(ok=True, action=..., jira_key=..., gitlab_iid=...)]:
    pydantic validates the fields when the object is built. *)
Definition respond (action : string) (jira_key : option pyval) (iid : option Z)
  : M WebhookResponse :=
  match jira_key with
  | None =>
      ret {| ok := true; action := action; resp_jira_key := None; gitlab_iid := iid |}
  | Some v =>
      match validate_str v with
      | Some s =>
          ret {| ok := true; action := action; resp_jira_key := Some s; gitlab_iid := iid |}
      | None => raise ValidationError
      end
  end.

Definition request_json (req : request) : M pyval :=
  match json_body req with
  | Some payload => ret payload
  | None => raise JSONDecodeError
  end.

(** The token test of the endpoint. *)
Definition token_ok (req : request) : bool :=
  opt_eqb (x_sync_token req) (JIRA_SHARED_SECRET cfg)
  || opt_eqb (query_token req) (JIRA_SHARED_SECRET cfg).

(** The close token of the create call: [("close" if state_event == "close"
    else None)]. *)
Definition close_only (state_event : option string) : option string :=
  match state_event with
  | Some s => if (s =? "close")%string then Some "close" else None
  | None => None
  end.

(** The end of [jira_webhook], from [if link is None:] on: skip, create or
    update, with the locals computed before it. *)
Definition create_or_update (fp : string) (jira_key : pyval) (in_scope : bool)
    (link : option (string * Z * string)) (title description : pyval)
    (state_event : option string) (labels : list string) (assignee_ids : list Z)
  : M WebhookResponse :=
  match link with
  | None =>
      if negb in_scope then
        _mark_processed fp ;;
        respond "skip_create_out_of_scope" (Some jira_key) None
      else
        iid <- _gitlab_create_issue title description labels assignee_ids
                 (close_only state_event) ;;
        _upsert_link jira_key iid "in-scope" ;;
        _mark_processed fp ;;
        respond "created" (Some jira_key) (Some iid)
  | Some (_, iid, _) =>
      _gitlab_update_issue iid title description labels assignee_ids state_event ;;
      _upsert_link jira_key iid (if in_scope then "in-scope" else "out-of-scope") ;;
      _mark_processed fp ;;
      respond "updated" (Some jira_key) (Some iid)
  end.

Definition jira_webhook (req : request) : M WebhookResponse :=
  (if negb (JIRA_SHARED_SECRET cfg =? "")%string then
     if negb (token_ok req) then raise (HTTPException 401) else ret tt
   else ret tt) ;;
  (if (GITLAB_BASE_URL cfg =? "")%string || (GITLAB_PROJECT_ID cfg =? "")%string
      || (GITLAB_TOKEN cfg =? "")%string
   then raise (HTTPException 500) else ret tt) ;;
  payload <- request_json req ;;
  fp <- lift (_fingerprint payload) ;;
  dup <- _is_processed fp ;;
  if dup then respond "dedup" None None else
  data <- lift (_jira_extract payload) ;;
  let jira_key := data_key data in
  if negb (truthy jira_key) then
    _mark_processed fp ;;
    respond "skip_no_key" None None
  else
  let in_scope := _is_in_scope (data_assignee data) in
  link <- _get_link jira_key ;;
  let title := py_or (data_summary data) jira_key in
  description <- lift (_build_description jira_key (py_or (data_description data) (PStr ""))) ;;
  state_event <- lift (_state_event_from_status (data_status data)) ;;
  let labels := _labels_merge (data_labels data) (data_status data) in_scope in
  assignee_ids <- lift (_map_assignee_to_gitlab_ids (data_assignee data) in_scope) ;;
  create_or_update fp jira_key in_scope link title description state_event labels
    assignee_ids.

(** Deliveries handled one after the other, each to its end before the next
    starts; the outcome of each is kept. Deliveries that overlap are the
    schedules of [overlapped] below, of which this is [one_at_a_time]. *)
Fixpoint deliver (reqs : list request) (w : world)
  : list (result WebhookResponse) * world :=
  match reqs with
  | [] => ([], w)
  | req :: rest =>
      let (r, w') := jira_webhook req w in
      let (rs, w'') := deliver rest w' in
      (r :: rs, w'')
  end.

End Relay.

(** ** Definitions the statements use *)

(** The label composition in the words of its description: the source labels
    that are strings, trimmed, the empty ones left out ... *)
Definition spec_trimmed_labels (jira_labels : list pyval) : list string :=
  flat_map (fun l => match l with
                     | PStr s => if (strip s =? "")%string then [] else [strip s]
                     | _ => []
                     end) jira_labels.

(** ... without the status-prefixed labels and the two scope labels ... *)
Definition spec_kept_labels (cfg : config) (jira_labels : list pyval) : list string :=
  filter (fun l => negb (mem l [LABEL_OUT_OF_SCOPE cfg; LABEL_IN_SCOPE cfg]))
    (filter (fun l => negb (String.prefix (LABEL_PREFIX_STATUS cfg) l))
       (spec_trimmed_labels jira_labels)).

(** ... each label kept where it occurs first. *)
Fixpoint first_occurrences (l : list string) : list string :=
  match l with
  | [] => []
  | x :: rest => x :: filter (fun y => negb (y =? x)%string) (first_occurrences rest)
  end.

Definition status_label (cfg : config) (E : env) (status : pyval) : string :=
  if truthy status
  then (LABEL_PREFIX_STATUS cfg ++ py_str E status)%string
  else (LABEL_PREFIX_STATUS cfg ++ "unknown")%string.

Definition scope_label (cfg : config) (in_scope : bool) : string :=
  if in_scope then LABEL_IN_SCOPE cfg else LABEL_OUT_OF_SCOPE cfg.

Definition is_status_label (cfg : config) (l : string) : bool :=
  String.prefix (LABEL_PREFIX_STATUS cfg) l.

Definition is_scope_label (cfg : config) (l : string) : bool :=
  mem l [LABEL_OUT_OF_SCOPE cfg; LABEL_IN_SCOPE cfg].

(** A string that [strip] leaves alone and that is not empty. *)
Definition trimmed (s : string) : bool :=
  (strip s =? s)%string && negb (s =? "")%string.

(** The label settings keep the three kinds of labels apart: the status prefix
    and the two scope labels are trimmed, the scope labels differ, and neither
    starts with the status prefix. The defaults do. *)
Definition label_config_ok (cfg : config) : bool :=
  trimmed (LABEL_PREFIX_STATUS cfg)
  && trimmed (LABEL_IN_SCOPE cfg)
  && trimmed (LABEL_OUT_OF_SCOPE cfg)
  && negb (LABEL_IN_SCOPE cfg =? LABEL_OUT_OF_SCOPE cfg)%string
  && negb (String.prefix (LABEL_PREFIX_STATUS cfg) (LABEL_IN_SCOPE cfg))
  && negb (String.prefix (LABEL_PREFIX_STATUS cfg) (LABEL_OUT_OF_SCOPE cfg)).

(** A string that does not start with whitespace. *)
Definition starts_clean (s : string) : bool :=
  match s with
  | EmptyString => true
  | String c _ => negb (is_space c)
  end.

(** The marker line of the description: [<prefix> <key>]. *)
Definition marker_line (cfg : config) (E : env) (jira_key : pyval) : string :=
  (SYNC_MARKER_PREFIX cfg ++ " " ++ py_str E jira_key)%string.

(** The description composition in the words of its description: the marker
    is appended unless the description contains it. *)
Definition spec_description (cfg : config) (E : env) (jira_key : pyval) (d : string)
  : string :=
  if str_contains (marker_line cfg E jira_key) d then d
  else if negb (strip d =? "")%string
       then (d ++ nl ++ nl ++ "---" ++ nl ++ marker_line cfg E jira_key)%string
       else marker_line cfg E jira_key.

(** The raw [issue.fields.labels] of a payload. *)
Definition raw_labels (payload : pyval) : result pyval :=
  i <-? py_get payload "issue" ;;
  f <-? py_get (py_or i (PDict [])) "fields" ;;
  py_get (py_or f (PDict [])) "labels".

Definition is_str (v : pyval) : bool :=
  match v with PStr _ => true | _ => false end.

(** The status is a name of the done set. *)
Definition status_done (cfg : config) (status : pyval) : bool :=
  match status with
  | PStr s => negb (s =? "")%string && mem s (DONE_STATUSES cfg)
  | _ => false
  end.

(** The request passes the token test of the endpoint. *)
Definition authorised (cfg : config) (req : request) : bool :=
  (JIRA_SHARED_SECRET cfg =? "")%string || token_ok cfg req.

(** The three GitLab settings are there. *)
Definition configured (cfg : config) : bool :=
  negb ((GITLAB_BASE_URL cfg =? "")%string || (GITLAB_PROJECT_ID cfg =? "")%string
        || (GITLAB_TOKEN cfg =? "")%string).

(** The configuration with the shared secret unset. *)
Definition without_secret (cfg : config) : config := {|
  GITLAB_BASE_URL := GITLAB_BASE_URL cfg;
  GITLAB_PROJECT_ID := GITLAB_PROJECT_ID cfg;
  GITLAB_TOKEN := GITLAB_TOKEN cfg;
  JIRA_SHARED_SECRET := "";
  ALLOWED_ASSIGNEES := ALLOWED_ASSIGNEES cfg;
  JIRA_TO_GITLAB_USER_ID := JIRA_TO_GITLAB_USER_ID cfg;
  DONE_STATUSES := DONE_STATUSES cfg;
  LABEL_PREFIX_STATUS := LABEL_PREFIX_STATUS cfg;
  LABEL_OUT_OF_SCOPE := LABEL_OUT_OF_SCOPE cfg;
  LABEL_IN_SCOPE := LABEL_IN_SCOPE cfg;
  SYNC_MARKER_PREFIX := SYNC_MARKER_PREFIX cfg
|}.

Definition is_dict (v : pyval) : bool :=
  match v with PDict _ => true | _ => false end.

(** The extracted key, description and status are strings, and the assignee
    is a string or [None]: what Jira sends. *)
Definition text_data (data : extracted) : bool :=
  is_str (data_key data) && is_str (data_description data) && is_str (data_status data)
  && match data_assignee data with PStr _ | PNone => true | _ => false end.

(** The fingerprint of a request, when it has one. *)
Definition request_fingerprint (E : env) (req : request) : option string :=
  match json_body req with
  | Some payload =>
      match _fingerprint E payload with
      | Ok fp => Some fp
      | Raise _ => None
      end
  | None => None
  end.

(** The locals of [jira_webhook] when it arrives at [if link is None:] (the
    others are functions of these). *)
Record locals : Type := {
  l_payload : pyval;
  l_fp : string;
  l_data : extracted;
  l_key_text : string;
  l_description : pyval;
  l_state_event : option string;
  l_assignee_ids : list Z
}.

Definition l_key (L : locals) : pyval := data_key (l_data L).

Definition l_in_scope (cfg : config) (L : locals) : bool :=
  _is_in_scope cfg (data_assignee (l_data L)).

Definition l_title (L : locals) : pyval :=
  py_or (data_summary (l_data L)) (l_key L).

Definition l_labels (cfg : config) (E : env) (L : locals) : list string :=
  _labels_merge cfg E (data_labels (l_data L)) (data_status (l_data L)) (l_in_scope cfg L).

Definition l_link (L : locals) (w : world) : option (string * Z * string) :=
  match select_link (l_key_text L) (db w) with
  | Some row => Some (gitlab_project_id row, gitlab_issue_iid row, sync_state row)
  | None => None
  end.

(** The delivery passes the token test and the configuration test, its
    fingerprint is new, its key is there, and none of the computations before
    [if link is None:] raises. *)
Definition reaches_decision (cfg : config) (E : env) (req : request) (w : world)
    (L : locals) : Prop :=
  authorised cfg req = true
  /\ configured cfg = true
  /\ json_body req = Some (l_payload L)
  /\ _fingerprint E (l_payload L) = Ok (l_fp L)
  /\ has_fingerprint (l_fp L) (db w) = false
  /\ _jira_extract (l_payload L) = Ok (l_data L)
  /\ truthy (l_key L) = true
  /\ bind_text E (l_key L) = Some (l_key_text L)
  /\ _build_description cfg E (l_key L) (py_or (data_description (l_data L)) (PStr ""))
     = Ok (l_description L)
  /\ _state_event_from_status cfg (data_status (l_data L)) = Ok (l_state_event L)
  /\ _map_assignee_to_gitlab_ids cfg E (data_assignee (l_data L)) (l_in_scope cfg L)
     = Ok (l_assignee_ids L).

(** The request the delivery sends to GitLab at that point, if any. *)
Definition planned_call (cfg : config) (E : env) (L : locals) (w : world) : option effect :=
  match select_link (l_key_text L) (db w) with
  | None =>
      if l_in_scope cfg L
      then Some (HttpPost (_gitlab_create_url cfg)
                   (create_data (l_title L) (l_description L) (l_labels cfg E L)
                      (l_assignee_ids L) (close_only (l_state_event L))))
      else None
  | Some row =>
      Some (HttpPut (_gitlab_issue_url cfg (gitlab_issue_iid row))
              (update_data (l_title L) (l_description L) (l_labels cfg E L)
                 (l_assignee_ids L) (l_state_event L)))
  end.

(** The acknowledgment with a key: pydantic checks the key. *)
Definition ack (E : env) (action : string) (jira_key : pyval) (iid : option Z)
  : result WebhookResponse :=
  match validate_str E jira_key with
  | Some s => Ok {| ok := true; action := action; resp_jira_key := Some s; gitlab_iid := iid |}
  | None => Raise ValidationError
  end.

(** The world after [_mark_processed fp]. *)
Definition marked (E : env) (fp : string) (w : world) : world :=
  let row := {| event_fingerprint := fp; created_at := utc_now E (trace w) |} in
  {| db := {| links := links (db w); processed := insert_or_ignore row (processed (db w)) |};
     trace := trace w ++ [ProcessedInsert row] |}.

(** The world after a request to GitLab has left. *)
Definition sent (e : effect) (w : world) : world :=
  {| db := db w; trace := trace w ++ [e] |}.

(** The world after [_upsert_link] has committed its row. *)
Definition linked (row : link_row) (w : world) : world :=
  {| db := {| links := upsert_row row (links (db w)); processed := processed (db w) |};
     trace := trace w ++ [LinkUpsert row] |}.

Definition skip_no_key_response : WebhookResponse :=
  {| ok := true; action := "skip_no_key"; resp_jira_key := None; gitlab_iid := None |}.

Definition dedup_response : WebhookResponse :=
  {| ok := true; action := "dedup"; resp_jira_key := None; gitlab_iid := None |}.

Definition is_http (e : effect) : bool :=
  match e with HttpPost _ _ | HttpPut _ _ => true | _ => false end.

Definition is_mark (e : effect) : bool :=
  match e with ProcessedInsert _ => true | _ => false end.


Definition empty_world : world := {| db := empty_database; trace := [] |}.

(** The ways a delivery ends: the result it returns and the world it leaves. *)
Inductive delivery_outcome (cfg : config) (E : env) (req : request) (w : world)
  : result WebhookResponse -> world -> Prop :=
| D_rejected (e : exn) :
    (* an exception before any effect *)
    delivery_outcome cfg E req w (Raise e) w
| D_dedup (fp : string) :
    request_fingerprint E req = Some fp ->
    has_fingerprint fp (db w) = true ->
    authorised cfg req = true ->
    configured cfg = true ->
    delivery_outcome cfg E req w (Ok dedup_response) w
| D_skip_no_key (fp : string) :
    request_fingerprint E req = Some fp ->
    has_fingerprint fp (db w) = false ->
    delivery_outcome cfg E req w (Ok skip_no_key_response) (marked E fp w)
| D_skip_out_of_scope (L : locals) :
    reaches_decision cfg E req w L ->
    planned_call cfg E L w = None ->
    delivery_outcome cfg E req w
      (ack E "skip_create_out_of_scope" (l_key L) None) (marked E (l_fp L) w)
| D_call_failed (L : locals) (call : effect) (e : exn) :
    (* the request left, and nothing was written *)
    reaches_decision cfg E req w L ->
    planned_call cfg E L w = Some call ->
    (forall code x, gitlab_api E (trace (sent call w)) = Response code x ->
                    300 <= code -> e = HTTPException 502) ->
    delivery_outcome cfg E req w (Raise e) (sent call w)
| D_synced (L : locals) (call : effect) (row : link_row) (action : string)
    (code : Z) (x : option Z) :
    reaches_decision cfg E req w L ->
    planned_call cfg E L w = Some call ->
    gitlab_api E (trace (sent call w)) = Response code x ->
    code < 300 ->
    jira_key row = l_key_text L ->
    gitlab_project_id row = GITLAB_PROJECT_ID cfg ->
    match select_link (l_key_text L) (db w) with
    | Some old =>
        action = "updated" /\ gitlab_issue_iid row = gitlab_issue_iid old
        /\ sync_state row = (if l_in_scope cfg L then "in-scope" else "out-of-scope")
    | None =>
        action = "created" /\ x = Some (gitlab_issue_iid row)
        /\ sync_state row = "in-scope"
    end ->
    last_synced_at row = utc_now E (trace (sent call w)) ->
    delivery_outcome cfg E req w
      (ack E action (l_key L) (Some (gitlab_issue_iid row)))
      (marked E (l_fp L) (linked row (sent call w))).

(** ** A concrete relay, for examples *)

(** The configuration of the scenarios of the specification: the defaults,
    with [alice] alone on the allow-list and mapped to GitLab user 11. *)
Definition scenario_config : config := {|
  GITLAB_BASE_URL := "https://gitlab.example";
  GITLAB_PROJECT_ID := "42";
  GITLAB_TOKEN := "glpat";
  JIRA_SHARED_SECRET := "";
  ALLOWED_ASSIGNEES := ["alice"];
  JIRA_TO_GITLAB_USER_ID := PDict [("alice", PInt 11)];
  DONE_STATUSES := ["Done"; "Closed"; "Resolved"];
  LABEL_PREFIX_STATUS := "jira:status:";
  LABEL_OUT_OF_SCOPE := "sync:out-of-scope";
  LABEL_IN_SCOPE := "sync:in-scope";
  SYNC_MARKER_PREFIX := "JIRA_KEY:"
|}.

(** An outside world in which GitLab answers [replies n] to the request that
    is the [n]-th entry of the trace. *)
Definition scenario_env (replies : nat -> reply) : env := {|
  py_repr := fun _ => "?";
  int_parse := fun _ => None;
  sqlite_text_of := fun _ => None;
  pydantic_str := fun _ => None;
  gitlab_api := fun t => replies (length t);
  utc_now := fun _ => "2024-05-01T10:00:01+00:00"
|}.

(** GitLab creates issue 7 and accepts every update. *)
Definition gitlab_up : env := scenario_env (fun _ => Response 201 (Some 7)).

(** GitLab fails the first request with status 500, then works. *)
Definition gitlab_down_once : env :=
  scenario_env (fun n => match n with
                         | 1%nat => Response 500 None
                         | _ => Response 201 (Some 7)
                         end).

(** GitLab accepts the first request with status 201 and a body without [iid],
    then works. *)
Definition gitlab_odd_body_once : env :=
  scenario_env (fun n => match n with
                         | 1%nat => Response 201 None
                         | _ => Response 201 (Some 7)
                         end).

(** A webhook for PROJ-1, assigned to alice, done, with three labels of which
    one is a number. *)
Definition scenario_payload : pyval :=
  PDict [("webhookEvent", PStr "jira:issue_updated");
         ("issue",
          PDict [("key", PStr "PROJ-1");
                 ("fields",
                  PDict [("summary", PStr "Fix login");
                         ("description", PStr "Steps");
                         ("status", PDict [("name", PStr "Done")]);
                         ("assignee", PDict [("name", PStr "alice")]);
                         ("labels", PList [PStr "backend"; PInt 7; PStr " ui "]);
                         ("updated", PStr "2024-05-01T10:00:00.000+0000")])])].

Definition scenario_request : request :=
  {| x_sync_token := None; query_token := None; json_body := Some scenario_payload |}.

Definition scenario_data : extracted := {|
  data_key := PStr "PROJ-1";
  data_summary := PStr "Fix login";
  data_description := PStr "Steps";
  data_status := PStr "Done";
  data_assignee := PStr "alice";
  data_labels := [PStr "backend"; PInt 7; PStr " ui "]
|}.

(** The locals with which that delivery arrives at the decision. *)
Definition scenario_locals : locals := {|
  l_payload := scenario_payload;
  l_fp := "jira:issue_updated|PROJ-1|2024-05-01T10:00:00.000+0000";
  l_data := scenario_data;
  l_key_text := "PROJ-1";
  l_description := PStr ("Steps" ++ nl ++ nl ++ "---" ++ nl ++ "JIRA_KEY: PROJ-1");
  l_state_event := Some "close";
  l_assignee_ids := [11]
|}.

(** The create request of that delivery. *)
Definition scenario_post : effect :=
  HttpPost "https://gitlab.example/api/v4/projects/42/issues"
    [("title", PStr "Fix login");
     ("description", PStr ("Steps" ++ nl ++ nl ++ "---" ++ nl ++ "JIRA_KEY: PROJ-1"));
     ("labels", PStr "backend,ui,jira:status:Done,sync:in-scope");
     ("assignee_ids", PList [PInt 11]);
     ("state_event", PStr "close")].

Definition scenario_link : link_row := {|
  jira_key := "PROJ-1";
  gitlab_project_id := "42";
  gitlab_issue_iid := 7;
  last_synced_at := "2024-05-01T10:00:01+00:00";
  sync_state := "in-scope"
|}.

(** The world after the delivery of [scenario_request] to a fresh relay. *)
Definition scenario_world : world := {|
  db := {| links := [scenario_link];
           processed :=
             [{| event_fingerprint := "jira:issue_updated|PROJ-1|2024-05-01T10:00:00.000+0000";
                 created_at := "2024-05-01T10:00:01+00:00" |}] |};
  trace :=
    [scenario_post; LinkUpsert scenario_link;
     ProcessedInsert
       {| event_fingerprint := "jira:issue_updated|PROJ-1|2024-05-01T10:00:00.000+0000";
          created_at := "2024-05-01T10:00:01+00:00" |}]
|}.

(** A later webhook for PROJ-1, now without assignee. *)
Definition scenario_unassigned : request := {|
  x_sync_token := None;
  query_token := None;
  json_body :=
    Some (PDict [("webhookEvent", PStr "jira:issue_updated");
                 ("issue",
                  PDict [("key", PStr "PROJ-1");
                         ("fields",
                          PDict [("summary", PStr "Fix login");
                                 ("status", PDict [("name", PStr "Open")]);
                                 ("assignee", PNone);
                                 ("updated", PStr "2024-05-02T09:00:00.000+0000")])])])
|}.

(** A webhook for PROJ-2, assigned to bob, who is not on the allow-list. *)
Definition scenario_bob : request := {|
  x_sync_token := None;
  query_token := None;
  json_body :=
    Some (PDict [("issue_event_type_name", PStr "issue_assigned");
                 ("issue",
                  PDict [("key", PStr "PROJ-2");
                         ("fields",
                          PDict [("assignee", PDict [("key", PStr "bob")]);
                                 ("labels", PStr "not-a-list")])])])
|}.

Definition scenario_created : WebhookResponse :=
  {| ok := true; action := "created"; resp_jira_key := Some "PROJ-1"; gitlab_iid := Some 7 |}.

(** ** Loading the configuration: the top of the module *)

(** [os.environ]: the variables that are set. *)
Definition environ : Type := string -> option string.

(** [os.getenv(name, default)] *)
Definition getenv (vars : environ) (name default : string) : string :=
  match vars name with Some v => v | None => default end.

(** [s.split(sep)] for a separator of one character. *)
Fixpoint split_on (sep : ascii) (s : string) : list string :=
  match s with
  | EmptyString => [EmptyString]
  | String a t =>
      if Ascii.eqb a sep then EmptyString :: split_on sep t
      else match split_on sep t with
           | piece :: rest => String a piece :: rest
           | [] => [String a EmptyString]
           end
  end.

(** [[x.strip() for x in s.split(",") if x.strip()]] *)
Definition csv_items (s : string) : list string :=
  flat_map (fun x => if (strip x =? "")%string then [] else [strip x]) (split_on "," s).

(** [s.rstrip(c)] for one character [c]. *)
Fixpoint rstrip_char (c : ascii) (s : string) : string :=
  match s with
  | EmptyString => EmptyString
  | String a t =>
      match rstrip_char c t with
      | EmptyString => if Ascii.eqb a c then EmptyString else String a EmptyString
      | t' => String a t'
      end
  end.

(** The module globals as lines 14 to 27 compute them. [json_loads] is
    [json.loads], which raises on a text that is not JSON; [DONE_STATUSES], a
    set in the source, is kept as the list of its elements. *)
Definition load_config (json_loads : string -> result pyval) (vars : environ)
  : result config :=
  user_ids <-? json_loads (getenv vars "JIRA_TO_GITLAB_USER_ID_JSON" "{}") ;;
  Ok {| GITLAB_BASE_URL := rstrip_char "/" (getenv vars "GITLAB_BASE_URL" "");
        GITLAB_PROJECT_ID := getenv vars "GITLAB_PROJECT_ID" "";
        GITLAB_TOKEN := getenv vars "GITLAB_TOKEN" "";
        JIRA_SHARED_SECRET := getenv vars "JIRA_SHARED_SECRET" "";
        ALLOWED_ASSIGNEES := csv_items (getenv vars "ALLOWED_ASSIGNEES" "");
        JIRA_TO_GITLAB_USER_ID := user_ids;
        DONE_STATUSES := csv_items (getenv vars "DONE_STATUSES" "Done,Closed,Resolved");
        LABEL_PREFIX_STATUS := getenv vars "LABEL_PREFIX_STATUS" "jira:status:";
        LABEL_OUT_OF_SCOPE := getenv vars "LABEL_OUT_OF_SCOPE" "sync:out-of-scope";
        LABEL_IN_SCOPE := getenv vars "LABEL_IN_SCOPE" "sync:in-scope";
        SYNC_MARKER_PREFIX := getenv vars "SYNC_MARKER_PREFIX" "JIRA_KEY:" |}.

(** Every character of [s] is [c]. *)
Fixpoint all_char (c : ascii) (s : string) : bool :=
  match s with
  | EmptyString => true
  | String a t => Ascii.eqb a c && all_char c t
  end.

(** [c in s] for a character. *)
Fixpoint has_char (c : ascii) (s : string) : bool :=
  match s with
  | EmptyString => false
  | String a t => Ascii.eqb a c || has_char c t
  end.

(** [s.endswith(c)] for a character. *)
Fixpoint ends_with (c : ascii) (s : string) : bool :=
  match s with
  | EmptyString => false
  | String a EmptyString => Ascii.eqb a c
  | String _ t => ends_with c t
  end.

(** The string of [n] times the character [c]. *)
Fixpoint repeat_char (c : ascii) (n : nat) : string :=
  match n with
  | O => EmptyString
  | S n' => String c (repeat_char c n')
  end.

(** ** More definitions for statements *)

(** No two rows of [processed] hold the same fingerprint (the [PRIMARY KEY]). *)
Definition processed_unique (d : database) : Prop :=
  NoDup (map event_fingerprint (processed d)).

(** A row of [links] as the relay writes them: one of the two states, an
    issue id SQLite can hold, the configured project. *)
Definition row_ok (cfg : config) (r : link_row) : Prop :=
  (sync_state r = "in-scope"%string \/ sync_state r = "out-of-scope"%string)
  /\ sqlite_int_ok (gitlab_issue_iid r) = true
  /\ gitlab_project_id r = GITLAB_PROJECT_ID cfg.

(** The text of the key of a request, as it is looked up in [links]. *)
Definition request_key_text (E : env) (req : request) : option string :=
  match json_body req with
  | Some payload =>
      match _jira_extract payload with
      | Ok data => bind_text E (data_key data)
      | Raise _ => None
      end
  | None => None
  end.

(** The five actions an acknowledgment can name. *)
Definition actions : list string :=
  ["dedup"; "skip_no_key"; "skip_create_out_of_scope"; "created"; "updated"]%string.

(** ** Shapes of a payload *)

(** The value under a key: [None] when the key is missing, and also when the
    object is not a dict. *)
Definition field (obj : pyval) (k : string) : pyval :=
  match obj with
  | PDict entries => match lookup k entries with Some v => v | None => PNone end
  | _ => PNone
  end.

Definition dict_or_falsy (v : pyval) : bool := negb (truthy v) || is_dict v.

(** The payload is an object, and its issue, the fields of the issue, the
    status and the assignee are objects where they are present. *)
Definition well_shaped (payload : pyval) : bool :=
  let issue := py_or (field payload "issue") (PDict []) in
  let fields := py_or (field issue "fields") (PDict []) in
  is_dict payload
  && dict_or_falsy (field payload "issue")
  && dict_or_falsy (field issue "fields")
  && dict_or_falsy (field fields "status")
  && dict_or_falsy (field fields "assignee").

(** ** The formatter of the Discord relay *)

Module Formatter.

(** [Formatter.pick(d, *path, default=default)] *)
Fixpoint pick (cur : pyval) (path : list string) (default : pyval) : pyval :=
  match path with
  | [] => match cur with PNone => default | _ => cur end
  | k :: rest =>
      match cur with
      | PDict entries =>
          pick (match lookup k entries with Some v => v | None => PNone end) rest default
      | _ => default
      end
  end.

(** [text[:n]] *)
Definition slice_to (n : Z) (s : string) : string :=
  let len := Z.of_nat (String.length s) in
  let stop := if n <? 0 then Z.max (len + n) 0 else Z.min n len in
  substring 0 (Z.to_nat stop) s.

(** [Formatter.short(text, limit)]; the limit is 256 when not given. *)
Definition short (text : pyval) (limit : Z) : result string :=
  text <-? py_strip (py_or text (PStr "")) ;;
  Ok (if Z.of_nat (String.length text) <=? limit then text
      else (slice_to (limit - 3) text ++ "...")%string).

(** [Formatter.short_desc(text, limit)]; the limit is 1800 when not given. *)
Definition short_desc (text : pyval) (limit : Z) : result string :=
  text <-? py_strip (py_or text (PStr "")) ;;
  Ok (if Z.of_nat (String.length text) <=? limit then text
      else (slice_to (limit - 3) text ++ "...")%string).

End Formatter.

(** ** Deliveries that overlap *)








(** ** More of the concrete relay *)

(** The variables of a deployment: the base URL is written with two slashes
    at its end, the allow-list with spaces and an empty item. *)
Definition scenario_environ : environ := fun name =>
  if (name =? "GITLAB_BASE_URL")%string then Some "https://gitlab.example//"%string
  else if (name =? "GITLAB_PROJECT_ID")%string then Some "42"%string
  else if (name =? "GITLAB_TOKEN")%string then Some "glpat"%string
  else if (name =? "ALLOWED_ASSIGNEES")%string then Some "alice, ,carol "%string
  else None.

(** [json.loads] on the one text these variables give it. *)
Definition scenario_json_loads (text : string) : result pyval :=
  if (text =? "{}")%string then Ok (PDict []) else Raise JSONDecodeError.

Definition scenario_loaded : config := {|
  GITLAB_BASE_URL := "https://gitlab.example";
  GITLAB_PROJECT_ID := "42";
  GITLAB_TOKEN := "glpat";
  JIRA_SHARED_SECRET := "";
  ALLOWED_ASSIGNEES := ["alice"; "carol"];
  JIRA_TO_GITLAB_USER_ID := PDict [];
  DONE_STATUSES := ["Done"; "Closed"; "Resolved"];
  LABEL_PREFIX_STATUS := "jira:status:";
  LABEL_OUT_OF_SCOPE := "sync:out-of-scope";
  LABEL_IN_SCOPE := "sync:in-scope";
  SYNC_MARKER_PREFIX := "JIRA_KEY:"
|}.

(** A later webhook for PROJ-1, still assigned to alice and done. *)
Definition scenario_later_payload : pyval :=
  PDict [("webhookEvent", PStr "jira:issue_updated");
         ("issue",
          PDict [("key", PStr "PROJ-1");
                 ("fields",
                  PDict [("summary", PStr "Fix login");
                         ("description", PStr "Steps");
                         ("status", PDict [("name", PStr "Done")]);
                         ("assignee", PDict [("name", PStr "alice")]);
                         ("labels", PList [PStr "backend"; PInt 7; PStr " ui "]);
                         ("updated", PStr "2024-05-03T08:00:00.000+0000")])])].

Definition scenario_later : request :=
  {| x_sync_token := None; query_token := None; json_body := Some scenario_later_payload |}.

Definition scenario_later_locals : locals := {|
  l_payload := scenario_later_payload;
  l_fp := "jira:issue_updated|PROJ-1|2024-05-03T08:00:00.000+0000";
  l_data := scenario_data;
  l_key_text := "PROJ-1";
  l_description := PStr ("Steps" ++ nl ++ nl ++ "---" ++ nl ++ "JIRA_KEY: PROJ-1");
  l_state_event := Some "close";
  l_assignee_ids := [11]
|}.

(** The locals with which [scenario_bob] arrives at the decision. *)
Definition scenario_bob_locals : locals := {|
  l_payload :=
    PDict [("issue_event_type_name", PStr "issue_assigned");
           ("issue",
            PDict [("key", PStr "PROJ-2");
                   ("fields",
                    PDict [("assignee", PDict [("key", PStr "bob")]);
                           ("labels", PStr "not-a-list")])])];
  l_fp := "issue_assigned|PROJ-2|";
  l_data := {| data_key := PStr "PROJ-2";
               data_summary := PStr "";
               data_description := PStr "";
               data_status := PStr "";
               data_assignee := PStr "bob";
               data_labels := [] |};
  l_key_text := "PROJ-2";
  l_description := PStr "JIRA_KEY: PROJ-2";
  l_state_event := None;
  l_assignee_ids := []
|}.

(** The scenario with a shared secret. *)
Definition scenario_secret_config : config := {|
  GITLAB_BASE_URL := "https://gitlab.example";
  GITLAB_PROJECT_ID := "42";
  GITLAB_TOKEN := "glpat";
  JIRA_SHARED_SECRET := "s3cret";
  ALLOWED_ASSIGNEES := ["alice"];
  JIRA_TO_GITLAB_USER_ID := PDict [("alice", PInt 11)];
  DONE_STATUSES := ["Done"; "Closed"; "Resolved"];
  LABEL_PREFIX_STATUS := "jira:status:";
  LABEL_OUT_OF_SCOPE := "sync:out-of-scope";
  LABEL_IN_SCOPE := "sync:in-scope";
  SYNC_MARKER_PREFIX := "JIRA_KEY:"
|}.

(** The first webhook for PROJ-1, with a token in the header and one in the
    query. *)
Definition scenario_tokens (header query : option string) : request :=
  {| x_sync_token := header; query_token := query; json_body := Some scenario_payload |}.



(** Label settings the program accepts and that do not keep the kinds of
    labels apart: a status prefix that starts with a blank, and an in-scope
    label that starts with the status prefix. *)
Definition blank_prefix_config : config := {|
  GITLAB_BASE_URL := "https://gitlab.example";
  GITLAB_PROJECT_ID := "42";
  GITLAB_TOKEN := "glpat";
  JIRA_SHARED_SECRET := "";
  ALLOWED_ASSIGNEES := [];
  JIRA_TO_GITLAB_USER_ID := PDict [];
  DONE_STATUSES := ["Done"; "Closed"; "Resolved"];
  LABEL_PREFIX_STATUS := " jira:status:";
  LABEL_OUT_OF_SCOPE := "sync:out-of-scope";
  LABEL_IN_SCOPE := "sync:in-scope";
  SYNC_MARKER_PREFIX := "JIRA_KEY:"
|}.

Definition prefixed_scope_config : config := {|
  GITLAB_BASE_URL := "https://gitlab.example";
  GITLAB_PROJECT_ID := "42";
  GITLAB_TOKEN := "glpat";
  JIRA_SHARED_SECRET := "";
  ALLOWED_ASSIGNEES := [];
  JIRA_TO_GITLAB_USER_ID := PDict [];
  DONE_STATUSES := ["Done"; "Closed"; "Resolved"];
  LABEL_PREFIX_STATUS := "jira:status:";
  LABEL_OUT_OF_SCOPE := "sync:out-of-scope";
  LABEL_IN_SCOPE := "jira:status:in-scope";
  SYNC_MARKER_PREFIX := "JIRA_KEY:"
|}.

(** A webhook that carries no issue. *)
Definition scenario_no_issue : request := {|
  x_sync_token := None;
  query_token := None;
  json_body := Some (PDict [("webhookEvent", PStr "jira:issue_deleted")])
|}.

(** The locals with which [scenario_unassigned] arrives at the decision. *)
Definition scenario_unassigned_locals : locals := {|
  l_payload :=
    PDict [("webhookEvent", PStr "jira:issue_updated");
           ("issue",
            PDict [("key", PStr "PROJ-1");
                   ("fields",
                    PDict [("summary", PStr "Fix login");
                           ("status", PDict [("name", PStr "Open")]);
                           ("assignee", PNone);
                           ("updated", PStr "2024-05-02T09:00:00.000+0000")])])];
  l_fp := "jira:issue_updated|PROJ-1|2024-05-02T09:00:00.000+0000";
  l_data := {| data_key := PStr "PROJ-1";
               data_summary := PStr "Fix login";
               data_description := PStr "";
               data_status := PStr "Open";
               data_assignee := PNone;
               data_labels := [] |};
  l_key_text := "PROJ-1";
  l_description := PStr "JIRA_KEY: PROJ-1";
  l_state_event := Some "reopen";
  l_assignee_ids := []
|}.

(** ** Strings *)

Lemma prefix_nil (t : string) : String.prefix EmptyString t = true.
Proof. now destruct t. Qed.

Lemma prefix_app (s t : string) : String.prefix s (s ++ t) = true.
Proof.
  induction s as [|c s IH]; simpl; [apply prefix_nil|].
  destruct (ascii_dec c c) as [_|N]; [exact IH | contradiction].
Qed.

Lemma prefix_refl (s : string) : String.prefix s s = true.
Proof.
  induction s as [|c s IH]; simpl; [reflexivity|].
  destruct (ascii_dec c c) as [_|N]; [exact IH | contradiction].
Qed.

Lemma str_contains_self (m : string) : str_contains m m = true.
Proof.
  destruct m; simpl; [reflexivity|].
  destruct (ascii_dec a a) as [_|N]; [|contradiction].
  now rewrite prefix_refl.
Qed.

Lemma str_contains_app_l (m a t : string) :
  str_contains m t = true -> str_contains m (a ++ t) = true.
Proof.
  intros H. induction a as [|c a IH]; simpl; [exact H|].
  rewrite IH. apply orb_true_r.
Qed.

Lemma str_contains_suffix (m a : string) : str_contains m (a ++ m) = true.
Proof. apply str_contains_app_l, str_contains_self. Qed.

Lemma rstrip_idem (s : string) : rstrip (rstrip s) = rstrip s.
Proof.
  induction s as [|c s IH]; simpl; [reflexivity|].
  destruct (rstrip s) as [|a b] eqn:R.
  - destruct (is_space c) eqn:Sp; simpl; [reflexivity|]. now rewrite Sp.
  - simpl in IH. simpl. destruct (rstrip b) eqn:Rb.
    + destruct (is_space a); [discriminate|]. inversion IH; subst. reflexivity.
    + now rewrite IH.
Qed.

Lemma lstrip_clean (s : string) : starts_clean (lstrip s) = true.
Proof.
  induction s as [|c s IH]; simpl; [reflexivity|].
  destruct (is_space c) eqn:Sp; [exact IH | simpl; now rewrite Sp].
Qed.

Lemma lstrip_of_clean (s : string) : starts_clean s = true -> lstrip s = s.
Proof.
  destruct s as [|c s]; simpl; [reflexivity|].
  intros H. now destruct (is_space c).
Qed.

Lemma rstrip_clean (s : string) : starts_clean s = true -> starts_clean (rstrip s) = true.
Proof.
  destruct s as [|c s]; simpl; [reflexivity|].
  intros H. apply negb_true_iff in H.
  destruct (rstrip s); rewrite ?H; simpl; now rewrite H.
Qed.

Lemma strip_idem (s : string) : strip (strip s) = strip s.
Proof.
  unfold strip.
  rewrite (lstrip_of_clean (rstrip (lstrip s))).
  - apply rstrip_idem.
  - apply rstrip_clean, lstrip_clean.
Qed.

Lemma lstrip_length (s : string) : (String.length (lstrip s) <= String.length s)%nat.
Proof.
  induction s as [|c s IH]; simpl; [lia|].
  destruct (is_space c); simpl; lia.
Qed.

Lemma rstrip_length (s : string) : (String.length (rstrip s) <= String.length s)%nat.
Proof.
  induction s as [|c s IH]; simpl; [lia|].
  destruct (rstrip s); [destruct (is_space c)|]; simpl in *; lia.
Qed.

Lemma strip_fixed_clean (s : string) : strip s = s -> starts_clean s = true.
Proof.
  intros H. destruct s as [|c s]; [reflexivity|].
  simpl. destruct (is_space c) eqn:Sp; [|reflexivity].
  exfalso. unfold strip in H. simpl in H. rewrite Sp in H.
  pose proof (rstrip_length (lstrip s)) as L1.
  pose proof (lstrip_length s) as L2.
  rewrite H in L1. simpl in L1. lia.
Qed.

Lemma strip_fixed_rstrip (s : string) : strip s = s -> rstrip s = s.
Proof.
  intros H. pose proof (strip_fixed_clean s H) as C.
  unfold strip in H. now rewrite (lstrip_of_clean s C) in H.
Qed.

Lemma rstrip_keeps_prefix (p x : string) :
  rstrip p = p -> p <> EmptyString -> exists y, rstrip (p ++ x) = (p ++ y)%string.
Proof.
  induction p as [|c p IH]; intros R N; [contradiction|].
  simpl in R. simpl.
  destruct p as [|a b].
  - simpl in *. destruct (is_space c); [discriminate|].
    destruct (rstrip x) eqn:Rx; [exists EmptyString | exists (String a s)]; reflexivity.
  - destruct (rstrip (String a b)) as [|a' b'] eqn:Rp.
    + destruct (is_space c); discriminate.
    + assert (Rp' : String a' b' = String a b) by (now inversion R).
      destruct IH as [y Hy]; [exact Rp' | discriminate |].
      rewrite Hy. exists y. reflexivity.
Qed.

(** A label that starts with a trimmed prefix still starts with it after
    [strip]. *)
Lemma strip_keeps_prefix (p x : string) :
  trimmed p = true -> String.prefix p (strip (p ++ x)) = true.
Proof.
  unfold trimmed. intros H. apply andb_true_iff in H. destruct H as [H1 H2].
  apply String.eqb_eq in H1. apply negb_true_iff, String.eqb_neq in H2.
  pose proof (strip_fixed_clean p H1) as C.
  pose proof (strip_fixed_rstrip p H1) as R.
  unfold strip. rewrite lstrip_of_clean.
  - destruct (rstrip_keeps_prefix p x R H2) as [y Hy]. rewrite Hy. apply prefix_app.
  - destruct p; [contradiction | exact C].
Qed.

Lemma trimmed_strip (s : string) : trimmed s = true -> strip s = s /\ s <> EmptyString.
Proof.
  unfold trimmed. intros H. apply andb_true_iff in H. destruct H as [H1 H2].
  apply String.eqb_eq in H1. apply negb_true_iff, String.eqb_neq in H2. now split.
Qed.

(** ** Lists of labels *)

Lemma filter_andb {A : Type} (p q : A -> bool) (l : list A) :
  filter p (filter q l) = filter (fun x => q x && p x) l.
Proof.
  induction l as [|x l IH]; simpl; [reflexivity|].
  destruct (q x); simpl; [destruct (p x)|]; now rewrite IH.
Qed.

Lemma filter_all {A : Type} (p : A -> bool) (l : list A) :
  (forall x, In x l -> p x = true) -> filter p l = l.
Proof.
  induction l as [|x l IH]; intros H; simpl; [reflexivity|].
  rewrite (H x (or_introl eq_refl)). f_equal. apply IH. intros y Hy. apply H. now right.
Qed.

Lemma filter_none {A : Type} (p : A -> bool) (l : list A) :
  (forall x, In x l -> p x = false) -> filter p l = [].
Proof.
  induction l as [|x l IH]; intros H; simpl; [reflexivity|].
  rewrite (H x (or_introl eq_refl)). apply IH. intros y Hy. apply H. now right.
Qed.

Lemma mem_In (s : string) (l : list string) : mem s l = true <-> In s l.
Proof.
  unfold mem. rewrite existsb_exists. split.
  - intros [x [Hx Heq]]. apply String.eqb_eq in Heq. now subst.
  - intros H. exists s. split; [exact H | apply String.eqb_refl].
Qed.

Lemma mem_false (s : string) (l : list string) : mem s l = false <-> ~ In s l.
Proof.
  rewrite <- mem_In. destruct (mem s l); split; congruence.
Qed.

Lemma mem_app (s : string) (a b : list string) : mem s (a ++ b) = mem s a || mem s b.
Proof. unfold mem. apply existsb_app. Qed.

Lemma first_occurrences_filter (p : string -> bool) (l : list string) :
  first_occurrences (filter p l) = filter p (first_occurrences l).
Proof.
  induction l as [|x l IH]; simpl; [reflexivity|].
  destruct (p x) eqn:Px; simpl.
  - rewrite ?Px, IH. f_equal. rewrite !filter_andb. apply filter_ext.
    intros y. apply andb_comm.
  - rewrite ?Px, IH, filter_andb. apply filter_ext. intros y.
    destruct (String.eqb_spec y x) as [->|_]; simpl; [now rewrite Px | reflexivity].
Qed.

Lemma first_occurrences_In (x : string) (l : list string) :
  In x (first_occurrences l) <-> In x l.
Proof.
  induction l as [|y l IH]; simpl; [tauto|].
  rewrite filter_In, IH. destruct (String.eqb_spec x y) as [->|N]; simpl.
  - split; [intros [H|[_ H]]; [now left | discriminate] | now left].
  - split; [intros [H|[H _]]; [now left | now right] | intros [H|H]; [now left | now right]].
Qed.

Lemma first_occurrences_NoDup (l : list string) : NoDup (first_occurrences l).
Proof.
  induction l as [|x l IH]; simpl; constructor.
  - rewrite filter_In. intros [_ H]. now rewrite String.eqb_refl in H.
  - now apply NoDup_filter.
Qed.

Lemma first_occurrences_fixed (l : list string) : NoDup l -> first_occurrences l = l.
Proof.
  induction 1 as [|x l Hx Hl IH]; simpl; [reflexivity|].
  rewrite IH. f_equal. apply filter_all. intros y Hy.
  destruct (String.eqb_spec y x) as [->|_]; [contradiction | reflexivity].
Qed.

Lemma first_occurrences_app (a b : list string) :
  first_occurrences (a ++ b)
  = first_occurrences a ++ filter (fun y => negb (mem y a)) (first_occurrences b).
Proof.
  induction a as [|x a IH]; simpl.
  - symmetry. now apply filter_all.
  - f_equal. rewrite IH, filter_app, filter_andb. f_equal. apply filter_ext.
    intros y. rewrite (String.eqb_sym x y). now destruct (y =? x)%string, (mem y a).
Qed.

(** The first loop of [_labels_merge]. *)
Lemma trim_loop (jira_labels : list pyval) (acc : list string) :
  fold_left
    (fun out l =>
       match l with
       | PStr s => if negb (strip s =? "")%string then out ++ [strip s] else out
       | _ => out
       end)
    jira_labels acc
  = acc ++ spec_trimmed_labels jira_labels.
Proof.
  revert acc. induction jira_labels as [|l ls IH]; intros acc; simpl.
  - now rewrite app_nil_r.
  - rewrite IH. destruct l; try reflexivity.
    destruct (strip s =? "")%string; simpl; [reflexivity|].
    now rewrite <- app_assoc.
Qed.

(** Its last loop keeps each label where it occurs first. *)
Lemma uniq_loop (out uniq seen : list string) :
  (forall x, mem x seen = mem x uniq) ->
  fst (fold_left
         (fun (acc : list string * list string) l =>
            let (uniq, seen) := acc in
            if negb (mem l seen) then (uniq ++ [l], l :: seen) else (uniq, seen))
         out (uniq, seen))
  = uniq ++ first_occurrences (filter (fun x => negb (mem x uniq)) out).
Proof.
  revert uniq seen. induction out as [|a out IH]; intros uniq seen Inv; simpl.
  - now rewrite app_nil_r.
  - rewrite (Inv a). destruct (mem a uniq) eqn:Ma; simpl.
    + now apply IH.
    + rewrite IH.
      * rewrite <- app_assoc. simpl. do 2 f_equal.
        rewrite <- first_occurrences_filter, filter_andb. f_equal. apply filter_ext.
        intros y. rewrite mem_app. simpl. rewrite orb_false_r.
        rewrite (String.eqb_sym a y). now rewrite negb_orb.
      * intros x. rewrite mem_app. simpl. rewrite orb_false_r, Inv. apply orb_comm.
Qed.

Lemma spec_trimmed_labels_app (a b : list pyval) :
  spec_trimmed_labels (a ++ b) = spec_trimmed_labels a ++ spec_trimmed_labels b.
Proof. unfold spec_trimmed_labels. apply flat_map_app. Qed.

Lemma spec_trimmed_labels_In (x : string) (jira_labels : list pyval) :
  In x (spec_trimmed_labels jira_labels) ->
  exists s, In (PStr s) jira_labels /\ x = strip s /\ x <> EmptyString.
Proof.
  unfold spec_trimmed_labels. rewrite in_flat_map. intros [l [Hl Hx]].
  destruct l; try contradiction.
  destruct (String.eqb_spec (strip s) "") as [|N]; [contradiction|].
  destruct Hx as [<-|[]]. exists s. auto.
Qed.

Lemma spec_trimmed_labels_fixed (l : list string) :
  (forall x, In x l -> strip x = x /\ x <> EmptyString) ->
  spec_trimmed_labels (map PStr l) = l.
Proof.
  induction l as [|x l IH]; intros H; simpl; [reflexivity|].
  destruct (H x (or_introl eq_refl)) as [Hs Hn]. rewrite Hs.
  destruct (String.eqb_spec x "") as [|_]; [contradiction|].
  simpl. f_equal. apply IH. intros y Hy. apply H. now right.
Qed.

(** ** Label composition *)

Section LabelComposition.

Variable cfg : config.
Variable E : env.

(** [_labels_merge] is its description: trim, drop the old status and scope
    labels, add the new ones, keep first occurrences. *)
Lemma labels_merge_unfold (jira_labels : list pyval) (status : pyval) (in_scope : bool) :
  _labels_merge cfg E jira_labels status in_scope
  = first_occurrences
      (filter (fun l => negb (is_scope_label cfg l))
         (filter (fun l => negb (is_status_label cfg l)) (spec_trimmed_labels jira_labels)
          ++ [status_label cfg E status])
       ++ [scope_label cfg in_scope]).
Proof.
  unfold _labels_merge. rewrite trim_loop. simpl app at 1.
  rewrite uniq_loop by reflexivity. simpl app at 1.
  f_equal. now apply filter_all.
Qed.

Lemma status_label_is_status (status : pyval) :
  is_status_label cfg (status_label cfg E status) = true.
Proof.
  unfold is_status_label, status_label. destruct (truthy status); apply prefix_app.
Qed.

Lemma kept_not_status (jira_labels : list pyval) (x : string) :
  In x (spec_kept_labels cfg jira_labels) -> is_status_label cfg x = false.
Proof.
  unfold spec_kept_labels. rewrite !filter_In. intros [[_ H] _].
  now apply negb_true_iff in H.
Qed.

Lemma kept_not_scope (jira_labels : list pyval) (x : string) :
  In x (spec_kept_labels cfg jira_labels) -> is_scope_label cfg x = false.
Proof.
  unfold spec_kept_labels. rewrite !filter_In. intros [_ H].
  now apply negb_true_iff in H.
Qed.

Lemma kept_trimmed (jira_labels : list pyval) (x : string) :
  In x (spec_kept_labels cfg jira_labels) -> strip x = x /\ x <> EmptyString.
Proof.
  unfold spec_kept_labels. rewrite !filter_In. intros [[H _] _].
  apply spec_trimmed_labels_In in H. destruct H as [s [_ [-> N]]].
  split; [apply strip_idem | exact N].
Qed.

Section WithSettings.

Hypothesis settings : label_config_ok cfg = true.

Lemma settings_split :
  trimmed (LABEL_PREFIX_STATUS cfg) = true
  /\ trimmed (LABEL_IN_SCOPE cfg) = true
  /\ trimmed (LABEL_OUT_OF_SCOPE cfg) = true
  /\ LABEL_IN_SCOPE cfg <> LABEL_OUT_OF_SCOPE cfg
  /\ is_status_label cfg (LABEL_IN_SCOPE cfg) = false
  /\ is_status_label cfg (LABEL_OUT_OF_SCOPE cfg) = false.
Proof.
  pose proof settings as H. unfold label_config_ok in H.
  rewrite !andb_true_iff, !negb_true_iff in H.
  destruct H as [[[[[H1 H2] H3] H4] H5] H6].
  repeat split; try assumption. now apply String.eqb_neq.
Qed.

Lemma scope_label_is_scope (in_scope : bool) :
  is_scope_label cfg (scope_label cfg in_scope) = true.
Proof.
  unfold is_scope_label, scope_label. simpl.
  destruct in_scope; rewrite String.eqb_refl; simpl; auto using orb_true_r.
Qed.

Lemma scope_label_not_status (in_scope : bool) :
  is_status_label cfg (scope_label cfg in_scope) = false.
Proof.
  destruct settings_split as (_ & _ & _ & _ & Hi & Ho).
  now destruct in_scope.
Qed.

Lemma status_label_not_scope (status : pyval) :
  is_scope_label cfg (status_label cfg E status) = false.
Proof.
  destruct settings_split as (_ & _ & _ & _ & Hi & Ho).
  pose proof (status_label_is_status status) as Hs.
  unfold is_scope_label. simpl.
  destruct (String.eqb_spec (LABEL_OUT_OF_SCOPE cfg) (status_label cfg E status)) as [e|_];
    [rewrite <- e in Hs; congruence|].
  destruct (String.eqb_spec (LABEL_IN_SCOPE cfg) (status_label cfg E status)) as [e|_];
    [rewrite <- e in Hs; congruence|].
  reflexivity.
Qed.

(** With settings that keep the kinds apart, the result is the kept source
    labels followed by the status label and the scope label. *)
Lemma labels_merge_shape (jira_labels : list pyval) (status : pyval) (in_scope : bool) :
  _labels_merge cfg E jira_labels status in_scope
  = first_occurrences (spec_kept_labels cfg jira_labels)
    ++ [status_label cfg E status; scope_label cfg in_scope].
Proof.
  rewrite labels_merge_unfold, filter_app.
  replace (filter (fun l => negb (is_scope_label cfg l)) [status_label cfg E status])
    with [status_label cfg E status]
    by (simpl; now rewrite status_label_not_scope).
  rewrite <- app_assoc. simpl app at 2.
  rewrite first_occurrences_app. f_equal.
  simpl. set (st := status_label cfg E status). set (sc := scope_label cfg in_scope).
  assert (Hne : (sc =? st)%string = false).
  { apply String.eqb_neq. intros e.
    pose proof (scope_label_is_scope in_scope) as H1.
    pose proof (status_label_not_scope status) as H2.
    fold sc in H1. fold st in H2. congruence. }
  rewrite Hne. simpl.
  assert (Hst : mem st (spec_kept_labels cfg jira_labels) = false).
  { apply mem_false. intros H. apply kept_not_status in H.
    unfold st in H. now rewrite status_label_is_status in H. }
  assert (Hsc : mem sc (spec_kept_labels cfg jira_labels) = false).
  { apply mem_false. intros H. apply kept_not_scope in H.
    unfold sc in H. now rewrite scope_label_is_scope in H. }
  unfold spec_kept_labels in Hst, Hsc. unfold is_scope_label, is_status_label.
  now rewrite Hst, Hsc.
Qed.

Lemma kept_first_occurrences_fixed (jira_labels : list pyval) (status : pyval)
    (in_scope : bool) :
  spec_kept_labels cfg
    (map PStr (first_occurrences (spec_kept_labels cfg jira_labels)
               ++ [status_label cfg E status; scope_label cfg in_scope]))
  = first_occurrences (spec_kept_labels cfg jira_labels).
Proof.
  destruct settings_split as (Hp & Hi & Ho & _).
  set (U := first_occurrences (spec_kept_labels cfg jira_labels)).
  assert (HU : forall x, In x U -> In x (spec_kept_labels cfg jira_labels))
    by (intros x; apply first_occurrences_In).
  unfold spec_kept_labels at 1.
  rewrite map_app, spec_trimmed_labels_app, !filter_app.
  rewrite spec_trimmed_labels_fixed
    by (intros x Hx; eapply kept_trimmed; apply HU; exact Hx).
  rewrite (filter_all _ U)
    by (intros x Hx; apply negb_true_iff; eapply kept_not_status; apply HU; exact Hx).
  rewrite (filter_all _ U)
    by (intros x Hx; apply negb_true_iff; eapply kept_not_scope; apply HU; exact Hx).
  rewrite <- (app_nil_r U) at 2. f_equal.
  match goal with |- ?l = [] => destruct l as [|x rest] eqn:L end; [reflexivity|].
  exfalso.
  assert (Hin : In x (spec_kept_labels cfg
                        [PStr (status_label cfg E status); PStr (scope_label cfg in_scope)]))
    by (unfold spec_kept_labels; simpl map in L; rewrite L; now left).
  pose proof (kept_not_status _ _ Hin) as N1.
  pose proof (kept_not_scope _ _ Hin) as N2.
  unfold spec_kept_labels in Hin. rewrite !filter_In in Hin. destruct Hin as [[Hin _] _].
  apply spec_trimmed_labels_In in Hin. destruct Hin as [s [[e|[e|[]]] [-> _]]];
    inversion e; subst s.
  - assert (Hst : is_status_label cfg (strip (status_label cfg E status)) = true)
      by (unfold is_status_label, status_label; destruct (truthy status);
          now apply strip_keeps_prefix).
    congruence.
  - assert (Hsc : strip (scope_label cfg in_scope) = scope_label cfg in_scope)
      by (destruct in_scope; now apply trimmed_strip).
    rewrite Hsc, scope_label_is_scope in N2. discriminate.
Qed.

Lemma labels_merge_drops_other_scope (jira_labels : list pyval) (status : pyval)
    (in_scope : bool) :
  ~ In (scope_label cfg (negb in_scope)) (_labels_merge cfg E jira_labels status in_scope).
Proof.
  rewrite labels_merge_shape. intros H. apply in_app_or in H.
  destruct H as [H|[H|[H|[]]]].
  - apply first_occurrences_In, kept_not_scope in H.
    now rewrite scope_label_is_scope in H.
  - pose proof (status_label_not_scope status) as N. rewrite H in N.
    now rewrite scope_label_is_scope in N.
  - destruct settings_split as (_ & _ & _ & Hne & _).
    destruct in_scope; simpl in H; congruence.
Qed.

(** C5: for every list of source labels, status and scope flag, the composed
    labels are the kept source labels, each where it first occurs, followed by
    the status label and the scope label; the list has no duplicate, exactly one
    status-prefixed label (with the value unknown for an empty status) and
    exactly one scope label, the marker of the flag and not the other one; and
    composing again from the result, with the same status and flag, returns the
    result. The label settings are assumed to keep the kinds of labels apart,
    as the defaults do. *)
Theorem labels_merge_fixed_point (jira_labels : list pyval) (status : pyval)
    (in_scope : bool) :
  let out := _labels_merge cfg E jira_labels status in_scope in
  out = first_occurrences (spec_kept_labels cfg jira_labels)
        ++ [status_label cfg E status; scope_label cfg in_scope]
  /\ NoDup out
  /\ filter (is_status_label cfg) out = [status_label cfg E status]
  /\ (truthy status = false ->
      status_label cfg E status = (LABEL_PREFIX_STATUS cfg ++ "unknown")%string)
  /\ filter (is_scope_label cfg) out = [scope_label cfg in_scope]
  /\ ~ In (scope_label cfg (negb in_scope)) out
  /\ _labels_merge cfg E (map PStr out) status in_scope = out.
Proof.
  intros out.
  assert (Shape : out = first_occurrences (spec_kept_labels cfg jira_labels)
                        ++ [status_label cfg E status; scope_label cfg in_scope])
    by apply labels_merge_shape.
  assert (Fixed : _labels_merge cfg E (map PStr out) status in_scope = out).
  { rewrite Shape. rewrite labels_merge_shape, kept_first_occurrences_fixed.
    now rewrite first_occurrences_fixed by apply first_occurrences_NoDup. }
  set (U := first_occurrences (spec_kept_labels cfg jira_labels)) in *.
  assert (HU : forall x, In x U -> In x (spec_kept_labels cfg jira_labels))
    by (intros x; apply first_occurrences_In).
  split; [exact Shape|].
  split.
  { unfold out. rewrite labels_merge_unfold. apply first_occurrences_NoDup. }
  split.
  { rewrite Shape, filter_app.
    rewrite (filter_none _ U) by (intros x Hx; eapply kept_not_status; apply HU; exact Hx).
    cbn [filter app]. now rewrite status_label_is_status, scope_label_not_status. }
  split.
  { intros F. unfold status_label. now rewrite F. }
  split.
  { rewrite Shape, filter_app.
    rewrite (filter_none _ U) by (intros x Hx; eapply kept_not_scope; apply HU; exact Hx).
    cbn [filter app].
    now rewrite status_label_not_scope, scope_label_is_scope. }
  split.
  { rewrite Shape. intros H. apply in_app_or in H. destruct H as [H|[H|[H|[]]]].
    - apply HU, kept_not_scope in H. now rewrite scope_label_is_scope in H.
    - pose proof (status_label_not_scope status) as N. rewrite H in N.
      now rewrite scope_label_is_scope in N.
    - destruct settings_split as (_ & _ & _ & Hne & _).
      destruct in_scope; simpl in H; congruence. }
  exact Fixed.
Qed.

End WithSettings.

End LabelComposition.

(** ** Description composition *)

Section Description.

Variable cfg : config.
Variable E : env.

Lemma build_description_str (jira_key : pyval) (d : string) :
  _build_description cfg E jira_key (PStr d) = Ok (PStr (spec_description cfg E jira_key d)).
Proof.
  unfold _build_description, spec_description. cbn [py_contains rbind py_strip py_str].
  destruct (str_contains _ d); cbn [rbind]; [reflexivity|].
  now destruct (strip d =? "")%string.
Qed.

Lemma spec_description_contains (jira_key : pyval) (d : string) :
  str_contains (marker_line cfg E jira_key) (spec_description cfg E jira_key d) = true.
Proof.
  unfold spec_description.
  destruct (str_contains (marker_line cfg E jira_key) d) eqn:C; [exact C|].
  destruct (strip d =? "")%string; cbn [negb].
  - apply str_contains_self.
  - do 5 apply str_contains_app_l. apply str_contains_self.
Qed.

(** C6: for every source key and description, composing the description a
    second time gives what the first time gave (an exception of the first
    included); on a description that is a string the composition leaves it as
    it is when it contains the marker line [<prefix> <key>] and otherwise
    appends the marker (the marker alone when the description is blank), and
    the result contains the marker. *)
Theorem build_description_idempotent (jira_key jira_desc : pyval) :
  rbind (_build_description cfg E jira_key jira_desc) (_build_description cfg E jira_key)
  = _build_description cfg E jira_key jira_desc
  /\ forall d : string,
       _build_description cfg E jira_key (PStr d)
       = Ok (PStr (spec_description cfg E jira_key d))
       /\ str_contains (marker_line cfg E jira_key) (spec_description cfg E jira_key d) = true
       /\ _build_description cfg E jira_key (PStr (spec_description cfg E jira_key d))
          = Ok (PStr (spec_description cfg E jira_key d)).
Proof.
  assert (Again : forall d,
             _build_description cfg E jira_key (PStr (spec_description cfg E jira_key d))
             = Ok (PStr (spec_description cfg E jira_key d))).
  { intros d. rewrite build_description_str. do 2 f_equal.
    unfold spec_description at 1. now rewrite spec_description_contains. }
  split.
  - destruct jira_desc as [| b | n | x | d | items | entries]; try reflexivity.
    + rewrite build_description_str. cbn [rbind]. apply Again.
    + unfold _build_description. cbn [py_contains rbind py_strip].
      destruct (existsb _ items) eqn:C; cbn [rbind py_contains]; [now rewrite C | reflexivity].
    + unfold _build_description. cbn [py_contains rbind py_strip].
      destruct (existsb _ entries) eqn:C; cbn [rbind py_contains]; [now rewrite C | reflexivity].
  - intros d. split; [apply build_description_str|].
    split; [apply spec_description_contains | apply Again].
Qed.

End Description.

(** ** Event normaliser *)

Ltac step_rbind :=
  match goal with
  | H : rbind ?c _ = Ok _ |- _ =>
      let v := fresh "v" in
      let Hv := fresh "Hv" in
      destruct c as [v|] eqn:Hv; [cbn [rbind] in H | discriminate H]
  end.

Lemma jira_extract_labels (payload : pyval) (data : extracted) (raw : pyval) :
  _jira_extract payload = Ok data ->
  raw_labels payload = Ok raw ->
  data_labels data = match raw with PList items => items | _ => [] end.
Proof.
  unfold _jira_extract, raw_labels. intros H R.
  destruct (py_get payload "issue") as [i|] eqn:Hi; cbn [rbind] in *; [|discriminate].
  destruct (py_get (py_or i (PDict [])) "fields") as [f|] eqn:Hf;
    cbn [rbind] in *; [|discriminate].
  repeat step_rbind.
  inversion H; subst; clear H. inversion R; subst; clear R. simpl.
  unfold py_or. destruct raw as [| b | n | x | s | items | entries]; simpl; try reflexivity.
  - now destruct b.
  - now destruct (n =? 0).
  - now destruct (PrimFloat.eqb x PrimFloat.zero).
  - now destruct (s =? "")%string.
  - now destruct items.
  - now destruct entries.
Qed.

Lemma spec_trimmed_labels_strings (jira_labels : list pyval) :
  spec_trimmed_labels (filter is_str jira_labels) = spec_trimmed_labels jira_labels.
Proof.
  induction jira_labels as [|l ls IH]; simpl; [reflexivity|].
  destruct l; simpl; rewrite ?IH; reflexivity.
Qed.

(** C8, amended: the labels the normaliser extracts are the raw labels field
    when that is a list, with every element of it, and the empty list when the
    field is absent or not a list; the elements that are not strings are dropped
    by the label composition, whose result is the same with or without them. *)
Theorem extracted_labels_then_strings_only (payload : pyval) (data : extracted)
    (raw : pyval) :
  _jira_extract payload = Ok data ->
  raw_labels payload = Ok raw ->
  data_labels data = match raw with PList items => items | _ => [] end
  /\ forall (cfg : config) (E : env) (status : pyval) (in_scope : bool),
       _labels_merge cfg E (data_labels data) status in_scope
       = _labels_merge cfg E (filter is_str (data_labels data)) status in_scope.
Proof.
  intros H R. split; [now apply (jira_extract_labels payload)|].
  intros cfg E status in_scope.
  now rewrite !labels_merge_unfold, spec_trimmed_labels_strings.
Qed.

(** ** The endpoint *)

Section Endpoint.

Variable cfg : config.
Variable E : env.

Lemma mark_processed_run (fp : string) (w : world) :
  _mark_processed E fp w = (Ok tt, marked E fp w).
Proof. reflexivity. Qed.

(** [jira_webhook] with its early returns laid out. *)
Lemma jira_webhook_unfold (req : request) (w : world) :
  jira_webhook cfg E req w
  = if negb (authorised cfg req) then (Raise (HTTPException 401), w)
    else if negb (configured cfg) then (Raise (HTTPException 500), w)
    else match json_body req with
    | None => (Raise JSONDecodeError, w)
    | Some payload =>
    match _fingerprint E payload with
    | Raise e => (Raise e, w)
    | Ok fp =>
    if has_fingerprint fp (db w) then (Ok dedup_response, w)
    else match _jira_extract payload with
    | Raise e => (Raise e, w)
    | Ok data =>
    if negb (truthy (data_key data)) then (Ok skip_no_key_response, marked E fp w)
    else match bind_text E (data_key data) with
    | None => (Raise SqliteBindError, w)
    | Some k =>
    match _build_description cfg E (data_key data)
            (py_or (data_description data) (PStr "")) with
    | Raise e => (Raise e, w)
    | Ok description =>
    match _state_event_from_status cfg (data_status data) with
    | Raise e => (Raise e, w)
    | Ok state_event =>
    match _map_assignee_to_gitlab_ids cfg E (data_assignee data)
            (_is_in_scope cfg (data_assignee data)) with
    | Raise e => (Raise e, w)
    | Ok assignee_ids =>
        create_or_update cfg E fp (data_key data) (_is_in_scope cfg (data_assignee data))
          (match select_link k (db w) with
           | Some row => Some (gitlab_project_id row, gitlab_issue_iid row, sync_state row)
           | None => None
           end)
          (py_or (data_summary data) (data_key data)) description state_event
          (_labels_merge cfg E (data_labels data) (data_status data)
             (_is_in_scope cfg (data_assignee data)))
          assignee_ids w
    end end end end end end end.
Proof.
  unfold jira_webhook, authorised, configured, request_json, _is_processed, _get_link,
    bind, lift, ret, raise.
  destruct (JIRA_SHARED_SECRET cfg =? "")%string; cbn [negb orb];
    [|destruct (token_ok cfg req); cbn [negb]; [|reflexivity]];
    (destruct ((GITLAB_BASE_URL cfg =? "")%string || (GITLAB_PROJECT_ID cfg =? "")%string
               || (GITLAB_TOKEN cfg =? "")%string); cbn [negb]; [reflexivity|];
     destruct (json_body req) as [payload|]; [|reflexivity];
     destruct (_fingerprint E payload) as [fp|]; [|reflexivity];
     destruct (has_fingerprint fp (db w)); [reflexivity|];
     destruct (_jira_extract payload) as [data|]; [|reflexivity];
     destruct (negb (truthy (data_key data))); [reflexivity|];
     destruct (bind_text E (data_key data)) as [k|]; [|reflexivity];
     destruct (_build_description cfg E (data_key data)
                 (py_or (data_description data) (PStr ""))); [|reflexivity];
     destruct (_state_event_from_status cfg (data_status data)); [|reflexivity];
     destruct (_map_assignee_to_gitlab_ids cfg E (data_assignee data)
                 (_is_in_scope cfg (data_assignee data))); reflexivity).
Qed.

(** What a delivery can do: stop before any effect, answer [dedup], skip for
    want of a key, or arrive at [if link is None:]. *)
Lemma jira_webhook_cases (req : request) (w : world) :
  (exists e, jira_webhook cfg E req w = (Raise e, w))
  \/ (exists fp,
        request_fingerprint E req = Some fp
        /\ has_fingerprint fp (db w) = true
        /\ authorised cfg req = true
        /\ configured cfg = true
        /\ jira_webhook cfg E req w = (Ok dedup_response, w))
  \/ (exists fp,
        request_fingerprint E req = Some fp
        /\ has_fingerprint fp (db w) = false
        /\ jira_webhook cfg E req w = (Ok skip_no_key_response, marked E fp w))
  \/ (exists L,
        reaches_decision cfg E req w L
        /\ jira_webhook cfg E req w
           = create_or_update cfg E (l_fp L) (l_key L) (l_in_scope cfg L) (l_link L w)
               (l_title L) (l_description L) (l_state_event L) (l_labels cfg E L)
               (l_assignee_ids L) w).
Proof.
  rewrite jira_webhook_unfold. unfold request_fingerprint.
  destruct (authorised cfg req) eqn:A; cbn [negb]; [|left; eexists; reflexivity].
  destruct (configured cfg) eqn:C; cbn [negb]; [|left; eexists; reflexivity].
  destruct (json_body req) as [payload|] eqn:B; [|left; eexists; reflexivity].
  destruct (_fingerprint E payload) as [fp|] eqn:F; [|left; eexists; reflexivity].
  destruct (has_fingerprint fp (db w)) eqn:P;
    [right; left; exists fp; repeat split; auto|].
  destruct (_jira_extract payload) as [data|] eqn:X; [|left; eexists; reflexivity].
  destruct (negb (truthy (data_key data))) eqn:K;
    [right; right; left; exists fp; repeat split; auto|].
  destruct (bind_text E (data_key data)) as [k|] eqn:Bk; [|left; eexists; reflexivity].
  destruct (_build_description cfg E (data_key data)
              (py_or (data_description data) (PStr ""))) as [description|] eqn:D;
    [|left; eexists; reflexivity].
  destruct (_state_event_from_status cfg (data_status data)) as [state_event|] eqn:St;
    [|left; eexists; reflexivity].
  destruct (_map_assignee_to_gitlab_ids cfg E (data_assignee data)
              (_is_in_scope cfg (data_assignee data))) as [ids|] eqn:Ids;
    [|left; eexists; reflexivity].
  right; right; right.
  exists {| l_payload := payload; l_fp := fp; l_data := data; l_key_text := k;
            l_description := description; l_state_event := state_event;
            l_assignee_ids := ids |}.
  split; [|reflexivity].
  unfold reaches_decision, l_key, l_in_scope.
  cbn [l_payload l_fp l_data l_key_text l_description l_state_event l_assignee_ids].
  apply negb_false_iff in K. repeat split; auto.
Qed.

(** [create_or_update] with its outcomes laid out. *)
Lemma create_or_update_unfold (fp : string) (jira_key : pyval) (in_scope : bool)
    (link : option (string * Z * string)) (title description : pyval)
    (state_event : option string) (labels : list string) (assignee_ids : list Z)
    (w : world) :
  create_or_update cfg E fp jira_key in_scope link title description state_event labels
    assignee_ids w
  = match link with
    | None =>
        if negb in_scope
        then (ack E "skip_create_out_of_scope" jira_key None, marked E fp w)
        else
          let w1 := sent (HttpPost (_gitlab_create_url cfg)
                            (create_data title description labels assignee_ids
                               (close_only state_event))) w in
          match gitlab_api E (trace w1) with
          | NoResponse => (Raise TransportError, w1)
          | Response status_code iid =>
              if status_code >=? 300 then (Raise (HTTPException 502), w1)
              else match iid with
              | None => (Raise ResponseBodyError, w1)
              | Some n =>
                  match bind_text E jira_key with
                  | None => (Raise SqliteBindError, w1)
                  | Some k =>
                      if sqlite_int_ok n
                      then
                        let w2 := linked {| jira_key := k;
                                            gitlab_project_id := GITLAB_PROJECT_ID cfg;
                                            gitlab_issue_iid := n;
                                            last_synced_at := utc_now E (trace w1);
                                            sync_state := "in-scope" |} w1 in
                        (ack E "created" jira_key (Some n), marked E fp w2)
                      else (Raise OverflowError, w1)
                  end
              end
          end
    | Some (_, iid, _) =>
        let w1 := sent (HttpPut (_gitlab_issue_url cfg iid)
                          (update_data title description labels assignee_ids state_event)) w in
        match gitlab_api E (trace w1) with
        | NoResponse => (Raise TransportError, w1)
        | Response status_code _ =>
            if status_code >=? 300 then (Raise (HTTPException 502), w1)
            else
              match bind_text E jira_key with
              | None => (Raise SqliteBindError, w1)
              | Some k =>
                  if sqlite_int_ok iid
                  then
                    let w2 := linked {| jira_key := k;
                                        gitlab_project_id := GITLAB_PROJECT_ID cfg;
                                        gitlab_issue_iid := iid;
                                        last_synced_at := utc_now E (trace w1);
                                        sync_state := if in_scope then "in-scope"
                                                      else "out-of-scope" |} w1 in
                    (ack E "updated" jira_key (Some iid), marked E fp w2)
                  else (Raise OverflowError, w1)
              end
        end
    end.
Proof.
  unfold create_or_update, ack, respond, _gitlab_create_issue, _gitlab_update_issue,
    _upsert_link, _mark_processed, _now_iso, commit, send, sent, linked, marked,
    bind, ret, raise.
  destruct link as [[[p iid] st]|]; cbv zeta.
  - cbn [trace db].
    destruct (gitlab_api E _) as [|code x]; [reflexivity|].
    destruct (code >=? 300); [reflexivity|].
    destruct (bind_text E jira_key); [|reflexivity].
    destruct (sqlite_int_ok iid); [|reflexivity].
    cbn [trace db links processed].
    destruct (validate_str E jira_key); reflexivity.
  - destruct in_scope; cbn [negb].
    + cbn [trace db].
      destruct (gitlab_api E _) as [|code x]; [reflexivity|].
      destruct (code >=? 300); [reflexivity|].
      destruct x as [n|]; [|reflexivity].
      destruct (bind_text E jira_key); [|reflexivity].
      destruct (sqlite_int_ok n); [|reflexivity].
      cbn [trace db links processed].
      destruct (validate_str E jira_key); reflexivity.
    + destruct (validate_str E jira_key); reflexivity.
Qed.

(** A delivery that arrives at [if link is None:] continues with
    [create_or_update]. *)
Lemma reaches_run (req : request) (w : world) (L : locals) :
  reaches_decision cfg E req w L ->
  jira_webhook cfg E req w
  = create_or_update cfg E (l_fp L) (l_key L) (l_in_scope cfg L) (l_link L w)
      (l_title L) (l_description L) (l_state_event L) (l_labels cfg E L)
      (l_assignee_ids L) w.
Proof.
  intros (A & C & B & F & P & X & K & Bk & D & St & Ids).
  rewrite jira_webhook_unfold, A, C, B, F, P, X. cbn [negb].
  unfold l_key, l_in_scope in *. rewrite K, Bk, D, St, Ids. reflexivity.
Qed.

(** The locals a request arrives with are determined by the request and the
    database. *)
Lemma reaches_decision_db (req : request) (w w' : world) (L : locals) :
  reaches_decision cfg E req w L -> db w' = db w -> reaches_decision cfg E req w' L.
Proof.
  unfold reaches_decision. intros H e. now rewrite e.
Qed.

(** Every delivery ends in one of the ways of [delivery_outcome]. *)
Lemma jira_webhook_outcome (req : request) (w : world) :
  delivery_outcome cfg E req w (fst (jira_webhook cfg E req w)) (snd (jira_webhook cfg E req w)).
Proof.
  destruct (jira_webhook_cases req w) as [[e H]|[(fp & F & P & A & C & H)|[(fp & F & P & H)|(L & R & H)]]];
    rewrite H; cbn [fst snd].
  - constructor.
  - now apply (D_dedup cfg E req w fp).
  - now apply D_skip_no_key.
  - rewrite create_or_update_unfold. unfold l_link.
    pose proof R as (_ & _ & _ & _ & _ & _ & _ & Bk & _).
    destruct (select_link (l_key_text L) (db w)) as [old|] eqn:Sel.
    + cbv zeta. set (call := HttpPut _ _).
      assert (PC : planned_call cfg E L w = Some call)
        by (unfold planned_call; now rewrite Sel).
      destruct (gitlab_api E (trace (sent call w))) as [|code x] eqn:G.
      * apply (D_call_failed cfg E req w L call); auto.
        intros c y Hc; rewrite G in Hc; discriminate.
      * destruct (code >=? 300) eqn:Ge.
        { apply (D_call_failed cfg E req w L call); auto. }
        rewrite Bk.
        destruct (sqlite_int_ok (gitlab_issue_iid old)) eqn:I.
        { apply (D_synced cfg E req w L call
                   {| jira_key := l_key_text L;
                      gitlab_project_id := GITLAB_PROJECT_ID cfg;
                      gitlab_issue_iid := gitlab_issue_iid old;
                      last_synced_at := utc_now E (trace (sent call w));
                      sync_state := if l_in_scope cfg L then "in-scope"
                                    else "out-of-scope" |} "updated" code x);
            auto; try reflexivity.
          - lia.
          - rewrite Sel. cbn. auto. }
        apply (D_call_failed cfg E req w L call); auto.
        intros c y Hc Hge. rewrite G in Hc. inversion Hc; subst. lia.
    + destruct (l_in_scope cfg L) eqn:S; cbn [negb].
      * cbv zeta. set (call := HttpPost _ _).
        assert (PC : planned_call cfg E L w = Some call)
          by (unfold planned_call; now rewrite Sel, S).
        destruct (gitlab_api E (trace (sent call w))) as [|code x] eqn:G.
        { apply (D_call_failed cfg E req w L call); auto.
          intros c y Hc; rewrite G in Hc; discriminate. }
        destruct (code >=? 300) eqn:Ge.
        { apply (D_call_failed cfg E req w L call); auto. }
        assert (Fail : forall e, delivery_outcome cfg E req w (Raise e) (sent call w)).
        { intros e. apply (D_call_failed cfg E req w L call); auto.
          intros c y Hc Hge. rewrite G in Hc. inversion Hc; subst. lia. }
        destruct x as [n|]; [|apply Fail].
        rewrite Bk.
        destruct (sqlite_int_ok n) eqn:I; [|apply Fail].
        apply (D_synced cfg E req w L call
                  {| jira_key := l_key_text L;
                     gitlab_project_id := GITLAB_PROJECT_ID cfg;
                     gitlab_issue_iid := n;
                     last_synced_at := utc_now E (trace (sent call w));
                     sync_state := "in-scope" |} "created" code (Some n));
          auto; try reflexivity.
        { lia. }
        { rewrite Sel. cbn. auto. }
      * apply D_skip_out_of_scope; auto.
        unfold planned_call. now rewrite Sel, S.
Qed.

End Endpoint.

(** ** The two tables *)

Lemma find_upsert_same (r : link_row) (rows : list link_row) :
  find (fun x => (jira_key x =? jira_key r)%string) (upsert_row r rows) = Some r.
Proof.
  induction rows as [|x rows IH]; simpl.
  - now rewrite String.eqb_refl.
  - destruct (String.eqb_spec (jira_key x) (jira_key r)) as [e|n]; simpl.
    + rewrite e, String.eqb_refl. now destruct r.
    + destruct (String.eqb_spec (jira_key x) (jira_key r)); [contradiction | exact IH].
Qed.

Lemma find_upsert_key (k : string) (r : link_row) (rows : list link_row) :
  jira_key r = k ->
  find (fun x => (jira_key x =? k)%string) (upsert_row r rows) = Some r.
Proof. intros <-. apply find_upsert_same. Qed.

Lemma upsert_absent_key (k : string) (r : link_row) (rows : list link_row) :
  jira_key r = k ->
  find (fun x => (jira_key x =? k)%string) rows = None ->
  upsert_row r rows = rows ++ [r].
Proof.
  intros <-. induction rows as [|x rows IH]; simpl; [reflexivity|].
  destruct (jira_key x =? jira_key r)%string; [discriminate|].
  intros H. now rewrite IH.
Qed.

Lemma find_upsert_other (k : string) (r : link_row) (rows : list link_row) :
  k <> jira_key r ->
  find (fun x => (jira_key x =? k)%string) (upsert_row r rows)
  = find (fun x => (jira_key x =? k)%string) rows.
Proof.
  intros N. induction rows as [|x rows IH]; simpl.
  - destruct (String.eqb_spec (jira_key r) k); [congruence | reflexivity].
  - destruct (String.eqb_spec (jira_key x) (jira_key r)) as [e|n]; simpl.
    + destruct (String.eqb_spec (jira_key x) k); [congruence | reflexivity].
    + now rewrite IH.
Qed.

Lemma upsert_absent (r : link_row) (rows : list link_row) :
  find (fun x => (jira_key x =? jira_key r)%string) rows = None ->
  upsert_row r rows = rows ++ [r].
Proof.
  induction rows as [|x rows IH]; simpl; [reflexivity|].
  destruct (jira_key x =? jira_key r)%string; [discriminate|].
  intros H. now rewrite IH.
Qed.



Lemma upsert_present_keys (r : link_row) (rows : list link_row) (old : link_row) :
  find (fun x => (jira_key x =? jira_key r)%string) rows = Some old ->
  map jira_key (upsert_row r rows) = map jira_key rows.
Proof.
  induction rows as [|x rows IH]; simpl; [discriminate|].
  destruct (jira_key x =? jira_key r)%string; simpl; [reflexivity|].
  intros H. now rewrite IH.
Qed.

Lemma NoDup_snoc {A : Type} (l : list A) (x : A) : NoDup l -> ~ In x l -> NoDup (l ++ [x]).
Proof.
  induction 1 as [|y l Hy Hl IH]; intros Hx; simpl.
  - constructor; [intros [] | constructor].
  - constructor.
    + rewrite in_app_iff. intros [H|[H|[]]]; [contradiction|]. subst. apply Hx. now left.
    + apply IH. intros H. apply Hx. now right.
Qed.


Lemma insert_or_ignore_keeps (fp : string) (r : processed_row) (rows : list processed_row) :
  existsb (fun x => (event_fingerprint x =? fp)%string) rows = true ->
  existsb (fun x => (event_fingerprint x =? fp)%string) (insert_or_ignore r rows) = true.
Proof.
  intros H. unfold insert_or_ignore.
  destruct (existsb (fun x => (event_fingerprint x =? event_fingerprint r)%string) rows);
    [exact H|].
  rewrite existsb_app, H. reflexivity.
Qed.

Lemma insert_or_ignore_has (r : processed_row) (rows : list processed_row) :
  existsb (fun x => (event_fingerprint x =? event_fingerprint r)%string)
    (insert_or_ignore r rows) = true.
Proof.
  unfold insert_or_ignore.
  destruct (existsb _ rows) eqn:H; [exact H|].
  rewrite existsb_app. simpl. rewrite String.eqb_refl. apply orb_true_r.
Qed.

(** ** Deliveries *)

Section Deliveries.

Variable cfg : config.
Variable E : env.

Lemma reaches_fingerprint (req : request) (w : world) (L : locals) :
  reaches_decision cfg E req w L -> request_fingerprint E req = Some (l_fp L).
Proof.
  intros (_ & _ & B & F & _). unfold request_fingerprint. now rewrite B, F.
Qed.

Lemma reaches_functional (req : request) (w : world) (L L' : locals) :
  reaches_decision cfg E req w L -> reaches_decision cfg E req w L' -> L = L'.
Proof.
  intros (_ & _ & B & F & _ & X & _ & Bk & D & St & Ids)
         (_ & _ & B' & F' & _ & X' & _ & Bk' & D' & St' & Ids').
  unfold l_key, l_in_scope in *. destruct L, L'. simpl in *.
  assert (l_payload0 = l_payload1) by congruence. subst.
  assert (l_fp0 = l_fp1) by congruence. subst.
  assert (l_data0 = l_data1) by congruence. subst.
  f_equal; congruence.
Qed.

Lemma has_fingerprint_marked (fp fp' : string) (w : world) :
  has_fingerprint fp (db w) = true -> has_fingerprint fp (db (marked E fp' w)) = true.
Proof. unfold has_fingerprint. simpl. apply insert_or_ignore_keeps. Qed.

Lemma has_fingerprint_marked_self (fp : string) (w : world) :
  has_fingerprint fp (db (marked E fp w)) = true.
Proof.
  unfold has_fingerprint. simpl.
  apply (insert_or_ignore_has {| event_fingerprint := fp; created_at := _ |}).
Qed.

(** A fingerprint once marked stays marked. *)
Lemma outcome_keeps_processed (req : request) (w w' : world) (r : result WebhookResponse)
    (fp : string) :
  delivery_outcome cfg E req w r w' ->
  has_fingerprint fp (db w) = true -> has_fingerprint fp (db w') = true.
Proof.
  intros O H. destruct O; auto using has_fingerprint_marked.
Qed.

Lemma deliver_keeps_processed (reqs : list request) (w : world) (fp : string) :
  has_fingerprint fp (db w) = true ->
  has_fingerprint fp (db (snd (deliver cfg E reqs w))) = true.
Proof.
  revert w. induction reqs as [|req reqs IH]; intros w H; simpl; [exact H|].
  pose proof (jira_webhook_outcome cfg E req w) as O.
  destruct (jira_webhook cfg E req w) as [r w1]. simpl in O.
  specialize (IH w1 (outcome_keeps_processed _ _ _ _ _ O H)).
  now destruct (deliver cfg E reqs w1).
Qed.

(** A delivery that returns has its fingerprint marked when it ends. *)
Lemma success_marks (req : request) (w : world) (r : WebhookResponse) (fp : string) :
  fst (jira_webhook cfg E req w) = Ok r ->
  request_fingerprint E req = Some fp ->
  has_fingerprint fp (db (snd (jira_webhook cfg E req w))) = true.
Proof.
  intros S F. pose proof (jira_webhook_outcome cfg E req w) as O.
  rewrite S in O. remember (Ok r) as res eqn:Hres.
  destruct O as [e | fp' F' P | fp' F' P | L R PC | L call e R PC _
                 | L call row action code x R PC _ _ _ _ _ _];
    try discriminate.
  - congruence.
  - assert (fp' = fp) by congruence. subst. apply has_fingerprint_marked_self.
  - apply reaches_fingerprint in R. assert (l_fp L = fp) by congruence. subst.
    apply has_fingerprint_marked_self.
  - apply reaches_fingerprint in R. assert (l_fp L = fp) by congruence. subst.
    apply has_fingerprint_marked_self.
Qed.

Lemma success_configured (req : request) (w : world) (r : WebhookResponse) :
  fst (jira_webhook cfg E req w) = Ok r -> configured cfg = true.
Proof.
  rewrite jira_webhook_unfold.
  destruct (authorised cfg req); cbn [negb]; [|discriminate].
  destruct (configured cfg); cbn [negb]; [reflexivity | discriminate].
Qed.

(** A delivery whose fingerprint is marked does nothing. *)
Lemma processed_is_noop (req : request) (w : world) (fp : string) :
  request_fingerprint E req = Some fp ->
  has_fingerprint fp (db w) = true ->
  snd (jira_webhook cfg E req w) = w
  /\ (authorised cfg req = true -> configured cfg = true ->
      jira_webhook cfg E req w = (Ok dedup_response, w)).
Proof.
  unfold request_fingerprint. intros F P. rewrite jira_webhook_unfold.
  destruct (json_body req) as [payload|]; [|discriminate].
  destruct (_fingerprint E payload) as [fp'|]; [|discriminate].
  inversion F; subst fp'. rewrite P.
  split.
  - destruct (authorised cfg req), (configured cfg); reflexivity.
  - intros -> ->. reflexivity.
Qed.

Lemma fingerprint_formula (top issue fields : list (string * pyval)) :
  let get d k := match lookup k d with Some v => v | None => PNone end in
  py_or (get top "issue") (PDict []) = PDict issue ->
  py_or (get issue "fields") (PDict []) = PDict fields ->
  _fingerprint E (PDict top)
  = Ok (py_str E (py_or (get top "webhookEvent")
                    (py_or (get top "issue_event_type_name") (PStr "")))
        ++ "|" ++ py_str E (py_or (get issue "key") (PStr ""))
        ++ "|" ++ py_str E (py_or (get fields "updated") (PStr "")))%string.
Proof.
  intros get Hi Hf. unfold get in *. clear get.
  unfold _fingerprint. cbn [py_get rbind]. rewrite Hi. cbn [py_get rbind]. rewrite Hf.
  cbn [py_get rbind]. unfold py_or.
  destruct (truthy match lookup "webhookEvent" top with Some v => v | None => PNone end);
    reflexivity.
Qed.

(** C3: when a delivery has returned, a later delivery whose payload has the
    same fingerprint (and that passes the token test) returns [dedup] and
    leaves the world as it found it: no request to GitLab, no write. The
    fingerprint of a payload is [eventType|key|updated], the event type read
    from [webhookEvent] or else [issue_event_type_name], each part the empty
    string when absent. *)
Theorem dedup_second_delivery (req1 req2 : request) (between : list request)
    (w0 : world) (r1 : WebhookResponse) (fp : string) :
  fst (jira_webhook cfg E req1 w0) = Ok r1 ->
  request_fingerprint E req1 = Some fp ->
  request_fingerprint E req2 = Some fp ->
  authorised cfg req2 = true ->
  let w1 := snd (jira_webhook cfg E req1 w0) in
  let w2 := snd (deliver cfg E between w1) in
  jira_webhook cfg E req2 w2 = (Ok dedup_response, w2)
  /\ forall top issue fields : list (string * pyval),
       let get d k := match lookup k d with Some v => v | None => PNone end in
       py_or (get top "issue") (PDict []) = PDict issue ->
       py_or (get issue "fields") (PDict []) = PDict fields ->
       _fingerprint E (PDict top)
       = Ok (py_str E (py_or (get top "webhookEvent")
                         (py_or (get top "issue_event_type_name") (PStr "")))
             ++ "|" ++ py_str E (py_or (get issue "key") (PStr ""))
             ++ "|" ++ py_str E (py_or (get fields "updated") (PStr "")))%string.
Proof.
  intros S F1 F2 A w1 w2. split; [|apply fingerprint_formula].
  apply (processed_is_noop req2 w2 fp F2); [|exact A|exact (success_configured _ _ _ S)].
  apply deliver_keeps_processed. exact (success_marks _ _ _ _ S F1).
Qed.

Lemma planned_call_http (L : locals) (w : world) (call : effect) :
  planned_call cfg E L w = Some call -> is_http call = true /\ is_mark call = false.
Proof.
  unfold planned_call.
  destruct (select_link _ _); [|destruct (l_in_scope cfg L)]; intros H;
    inversion H; subst; now split.
Qed.

Lemma ack_action (act : string) (k : pyval) (iid : option Z) (r : WebhookResponse) :
  ack E act k iid = Ok r -> action r = act.
Proof.
  unfold ack. destruct (validate_str E k); intros H; inversion H; reflexivity.
Qed.

(** The trace of a delivery that returns something other than [dedup]: at
    most one request to GitLab and the write of the link, then the mark. *)
Lemma success_trace (req : request) (w : world) (r : WebhookResponse) :
  fst (jira_webhook cfg E req w) = Ok r ->
  action r <> "dedup" ->
  exists fp es now,
    request_fingerprint E req = Some fp
    /\ trace (snd (jira_webhook cfg E req w))
       = trace w ++ es ++ [ProcessedInsert {| event_fingerprint := fp; created_at := now |}]
    /\ forallb (fun e => negb (is_mark e)) es = true
    /\ (length (filter is_http es) <= 1)%nat
    /\ (action r = "skip_no_key" \/ action r = "skip_create_out_of_scope" -> es = []).
Proof.
  intros S N. pose proof (jira_webhook_outcome cfg E req w) as O.
  destruct (jira_webhook cfg E req w) as [res w']. simpl in *. subst res.
  inversion O as [e | fp F P | fp F P | L R PC | L call e R PC _
                  | L call row act code x R PC G Hc Hk Hp Hm Ht]; subst.
  - now elim N.
  - exists fp, [], (utc_now E (trace w)). repeat split; auto.
  - exists (l_fp L), [], (utc_now E (trace w)).
    repeat split; auto. now apply (reaches_fingerprint req w).
  - destruct (planned_call_http _ _ _ PC) as [Hh Hmk].
    exists (l_fp L), [call; LinkUpsert row], (utc_now E (trace (linked row (sent call w)))).
    split; [now apply (reaches_fingerprint req w)|].
    split; [simpl; now rewrite <- !app_assoc|].
    split; [simpl; now rewrite Hmk|].
    split; [simpl; rewrite Hh; simpl; lia|].
    match goal with H : ack _ _ _ _ = Ok r |- _ => apply ack_action in H; rename H into Ha end.
    destruct (select_link (l_key_text L) (db w)); destruct Hm as [Hact _];
      intros [H|H]; rewrite Ha, Hact in H; discriminate.
Qed.

(** C4, amended: a delivery that returns and is not answered [dedup] (the two
    skips included) ends by marking its fingerprint, marks it once, and sends
    at most one request to GitLab, none when it skips; from then on a delivery
    with that fingerprint sends no request and writes nothing. (A delivery
    whose request to GitLab failed has marked nothing, so the next one with the
    fingerprint sends a request again.) *)
Theorem marks_once_then_idle (req : request) (w : world) (r : WebhookResponse) :
  fst (jira_webhook cfg E req w) = Ok r ->
  action r <> "dedup" ->
  let w' := snd (jira_webhook cfg E req w) in
  exists fp es now,
    request_fingerprint E req = Some fp
    /\ trace w' = trace w ++ es
                  ++ [ProcessedInsert {| event_fingerprint := fp; created_at := now |}]
    /\ forallb (fun e => negb (is_mark e)) es = true
    /\ (length (filter is_http es) <= 1)%nat
    /\ (action r = "skip_no_key" \/ action r = "skip_create_out_of_scope" -> es = [])
    /\ forall (between : list request) (req' : request),
         request_fingerprint E req' = Some fp ->
         let w2 := snd (deliver cfg E between w') in
         snd (jira_webhook cfg E req' w2) = w2.
Proof.
  intros S N w'.
  destruct (success_trace req w r S N) as (fp & es & now & F & T & M & H & K).
  exists fp, es, now. repeat split; auto.
  intros between req' F' w2.
  apply (processed_is_noop req' w2 fp F').
  apply deliver_keeps_processed. exact (success_marks _ _ _ _ S F).
Qed.

(** *** Links *)




(** *** Deliveries that overlap *)








(** *** Events made of text *)

(** On an event whose extracted fields are text, none of the computations
    before the decision raises: a delivery with a new fingerprint and a key
    arrives at [if link is None:]. *)
Lemma text_data_reaches (req : request) (w : world) (payload : pyval) (fp : string)
    (data : extracted) :
  authorised cfg req = true ->
  configured cfg = true ->
  json_body req = Some payload ->
  _fingerprint E payload = Ok fp ->
  has_fingerprint fp (db w) = false ->
  _jira_extract payload = Ok data ->
  truthy (data_key data) = true ->
  text_data data = true ->
  is_dict (JIRA_TO_GITLAB_USER_ID cfg) = true ->
  exists L, reaches_decision cfg E req w L /\ l_payload L = payload /\ l_data L = data.
Proof.
  intros A C B F P X K T D.
  destruct data as [key summary description status assignee labels].
  unfold text_data in T. simpl in T, K.
  rewrite !andb_true_iff in T. destruct T as [[[Tk Td] Ts] Ta].
  destruct key as [| | | | k | |]; try discriminate.
  destruct description as [| | | | d | |]; try discriminate.
  destruct status as [| | | | st | |]; try discriminate.
  destruct (_build_description cfg E (PStr k) (py_or (PStr d) (PStr ""))) as [desc|e] eqn:Bd.
  2:{ unfold py_or in Bd. destruct (truthy (PStr d)); rewrite build_description_str in Bd;
      discriminate. }
  destruct (_state_event_from_status cfg (PStr st)) as [se|e] eqn:Se.
  2:{ unfold _state_event_from_status in Se. simpl in Se.
      destruct (st =? "")%string; simpl in Se; [discriminate|].
      destruct (mem st (DONE_STATUSES cfg)); discriminate. }
  destruct (_map_assignee_to_gitlab_ids cfg E assignee (_is_in_scope cfg assignee))
    as [ids|e] eqn:Ids.
  2:{ unfold _map_assignee_to_gitlab_ids in Ids.
      destruct (JIRA_TO_GITLAB_USER_ID cfg); try discriminate.
      destruct (_is_in_scope cfg assignee); simpl in Ids; [|discriminate].
      destruct assignee as [| | | | a | |]; try discriminate. simpl in Ids.
      destruct (a =? "")%string; simpl in Ids; [discriminate|].
      destruct (lookup a entries) as [v|]; simpl in Ids; [|discriminate].
      destruct v; try discriminate; destruct (py_int E _); discriminate. }
  exists {| l_payload := payload; l_fp := fp;
            l_data := {| data_key := PStr k; data_summary := summary;
                         data_description := PStr d; data_status := PStr st;
                         data_assignee := assignee; data_labels := labels |};
            l_key_text := k; l_description := desc; l_state_event := se;
            l_assignee_ids := ids |}.
  split; [|split; reflexivity].
  unfold reaches_decision, l_key, l_in_scope. simpl. repeat split; auto.
Qed.

(** *** Requests to GitLab *)

Lemma nth_error_at {A : Type} (l r : list A) (x : A) :
  nth_error (l ++ x :: r) (length l) = Some x.
Proof. induction l as [|y l IH]; simpl; [reflexivity | exact IH]. Qed.

Lemma nth_error_end {A : Type} (l : list A) : nth_error l (length l) = None.
Proof. induction l as [|y l IH]; simpl; [reflexivity | exact IH]. Qed.

Lemma planned_call_db (L : locals) (w w' : world) :
  db w' = db w -> planned_call cfg E L w' = planned_call cfg E L w.
Proof. unfold planned_call. now intros ->. Qed.

(** The planned request is the first thing the delivery does. *)
Lemma planned_call_leaves (req : request) (w : world) (L : locals) (call : effect) :
  reaches_decision cfg E req w L ->
  planned_call cfg E L w = Some call ->
  exists rest, trace (snd (jira_webhook cfg E req w)) = trace w ++ call :: rest.
Proof.
  intros R PC. rewrite (reaches_run cfg E req w L R), create_or_update_unfold.
  unfold l_link, planned_call in *.
  destruct (select_link (l_key_text L) (db w)) as [old|].
  - inversion PC; subst call; clear PC. cbv zeta.
    destruct (gitlab_api E _) as [|code x]; [now exists []|].
    destruct (code >=? 300); [now exists []|].
    destruct (bind_text E (l_key L)); [|now exists []].
    destruct (sqlite_int_ok _); [|now exists []].
    eexists. simpl. rewrite <- !app_assoc. reflexivity.
  - destruct (l_in_scope cfg L); [|discriminate].
    inversion PC; subst call; clear PC. cbn [negb]. cbv zeta.
    destruct (gitlab_api E _) as [|code x]; [now exists []|].
    destruct (code >=? 300); [now exists []|].
    destruct x; [|now exists []].
    destruct (bind_text E (l_key L)); [|now exists []].
    destruct (sqlite_int_ok _); [|now exists []].
    eexists. simpl. rewrite <- !app_assoc. reflexivity.
Qed.

(** C2: when the request a delivery sends to GitLab, to create or to update,
    comes back with a failure status (300 or more), the delivery ends with
    [HTTPException(502)], the database is as before (the fingerprint is not
    marked, no link is written), and the same delivery, made again, sends the
    same request again. *)
Theorem upstream_failure_mutates_nothing (req : request) (w : world) (call : effect)
    (code : Z) (x : option Z) :
  let out := jira_webhook cfg E req w in
  nth_error (trace (snd out)) (length (trace w)) = Some call ->
  is_http call = true ->
  gitlab_api E (trace w ++ [call]) = Response code x ->
  300 <= code ->
  fst out = Raise (HTTPException 502)
  /\ db (snd out) = db w
  /\ trace (snd out) = trace w ++ [call]
  /\ (forall fp, request_fingerprint E req = Some fp ->
                 has_fingerprint fp (db (snd out)) = false)
  /\ nth_error (trace (snd (jira_webhook cfg E req (snd out)))) (length (trace (snd out)))
     = Some call.
Proof.
  intros out Hn Hh G Hc. subst out.
  pose proof (jira_webhook_outcome cfg E req w) as O.
  destruct (jira_webhook cfg E req w) as [r w']. simpl in *.
  inversion O as [e | fp F P | fp F P | L R PC | L call' e R PC He
                  | L call' row act code' x' R PC G' Hc' Hk Hp Hm Ht]; subst.
  - rewrite nth_error_end in Hn. discriminate.
  - rewrite nth_error_end in Hn. discriminate.
  - simpl in Hn. rewrite nth_error_at in Hn. inversion Hn; subst. discriminate.
  - simpl in Hn. rewrite nth_error_at in Hn. inversion Hn; subst. discriminate.
  - simpl in Hn. rewrite nth_error_at in Hn. inversion Hn; subst call'.
    rewrite (He code x G Hc).
    repeat split; auto.
    + intros fp F. rewrite (reaches_fingerprint req w L R) in F. inversion F; subst.
      simpl. now destruct R as (_ & _ & _ & _ & P & _).
    + assert (R' : reaches_decision cfg E req (sent call w) L)
        by (now apply (reaches_decision_db cfg E req w)).
      assert (PC' : planned_call cfg E L (sent call w) = Some call)
        by (now rewrite (planned_call_db L w (sent call w))).
      destruct (planned_call_leaves req (sent call w) L call R' PC') as [rest T].
      rewrite T. apply nth_error_at.
  - simpl in Hn. rewrite <- !app_assoc in Hn. simpl in Hn.
    rewrite nth_error_at in Hn. inversion Hn; subst call'.
    simpl in G'. rewrite G in G'. inversion G'; subst. lia.
Qed.

Lemma state_event_done (status : pyval) (state_event : option string) :
  _state_event_from_status cfg status = Ok state_event ->
  close_only state_event = (if status_done cfg status then Some "close" else None)
  /\ (state_event = Some "close" <-> status_done cfg status = true)
  /\ (state_event = None \/ state_event = Some "close" \/ state_event = Some "reopen").
Proof.
  unfold _state_event_from_status, status_done.
  destruct status as [| b | n | x | s | items | entries]; simpl.
  - intros H; inversion H; subst; simpl. intuition congruence.
  - destruct b; intros H; inversion H; subst; simpl; intuition congruence.
  - destruct (n =? 0); intros H; inversion H; subst; simpl; intuition congruence.
  - destruct (PrimFloat.eqb x PrimFloat.zero); intros H; inversion H; subst; simpl;
      intuition congruence.
  - destruct (s =? "")%string; simpl.
    + intros H; inversion H; subst; simpl. intuition congruence.
    + destruct (mem s (DONE_STATUSES cfg)); intros H; inversion H; subst; simpl;
        intuition congruence.
  - destruct items; simpl; intros H; inversion H; subst; simpl. intuition congruence.
  - destruct entries; simpl; intros H; inversion H; subst; simpl. intuition congruence.
Qed.

Lemma create_data_state_event (title description : pyval) (labels : list string)
    (assignee_ids : list Z) (state_event : option string) :
  lookup "state_event" (create_data title description labels assignee_ids
                          (close_only state_event))
  = match close_only state_event with Some _ => Some (PStr "close") | None => None end.
Proof.
  unfold create_data, close_only.
  destruct state_event as [s|]; [destruct (s =? "close")%string|];
    destruct assignee_ids; reflexivity.
Qed.

(** C9: a delivery that creates sends, as the first thing it does, a create
    request whose form has [state_event] set to [close] when the status is a
    name of the done set, and no [state_event] at all otherwise; [reopen] is
    what the status maps to when it is a name outside the done set, and it is
    not passed on. *)
Theorem creation_passes_close_only (req : request) (w : world) (L : locals) :
  reaches_decision cfg E req w L ->
  select_link (l_key_text L) (db w) = None ->
  l_in_scope cfg L = true ->
  exists data rest,
    trace (snd (jira_webhook cfg E req w))
    = trace w ++ HttpPost (_gitlab_create_url cfg) data :: rest
    /\ data = create_data (l_title L) (l_description L) (l_labels cfg E L)
                (l_assignee_ids L) (close_only (l_state_event L))
    /\ lookup "state_event" data
       = (if status_done cfg (data_status (l_data L)) then Some (PStr "close") else None)
    /\ (l_state_event L = Some "close" <-> status_done cfg (data_status (l_data L)) = true)
    /\ (l_state_event L = Some "reopen" -> lookup "state_event" data = None).
Proof.
  intros R Sel S.
  assert (PC : planned_call cfg E L w
               = Some (HttpPost (_gitlab_create_url cfg)
                         (create_data (l_title L) (l_description L) (l_labels cfg E L)
                            (l_assignee_ids L) (close_only (l_state_event L)))))
    by (unfold planned_call; now rewrite Sel, S).
  destruct (planned_call_leaves req w L _ R PC) as [rest T].
  pose proof R as (_ & _ & _ & _ & _ & _ & _ & _ & _ & St & _).
  destruct (state_event_done _ _ St) as (Hc & Hiff & _).
  eexists. exists rest. split; [exact T|]. split; [reflexivity|].
  rewrite create_data_state_event, Hc.
  split; [now destruct (status_done cfg (data_status (l_data L)))|].
  split; [exact Hiff|].
  intros Hr. rewrite Hr in Hc. simpl in Hc.
  now destruct (status_done cfg (data_status (l_data L))).
Qed.

(** *** The forms and the URLs *)

Lemma str_contains_prefix (m t : string) : str_contains m (m ++ t) = true.
Proof.
  pose proof (prefix_app m t) as P.
  destruct (m ++ t)%string; cbn [str_contains]; rewrite P; reflexivity.
Qed.

Lemma str_contains_concat (x sep : string) (l : list string) :
  In x l -> str_contains x (String.concat sep l) = true.
Proof.
  induction l as [|y l IH]; [contradiction|].
  intros [->|H].
  - destruct l as [|z l]; [apply str_contains_self | apply str_contains_prefix].
  - destruct l as [|z l]; [contradiction|].
    change (String.concat sep (y :: z :: l))
      with (y ++ sep ++ String.concat sep (z :: l))%string.
    now apply str_contains_app_l, str_contains_app_l, IH.
Qed.

Lemma append_cancel_l (a x y : string) : (a ++ x)%string = (a ++ y)%string -> x = y.
Proof. induction a as [|c a IH]; simpl; intros H; [exact H | inversion H; auto]. Qed.

Lemma append_assoc (a b c : string) : ((a ++ b) ++ c)%string = (a ++ b ++ c)%string.
Proof. induction a as [|x a IH]; simpl; [reflexivity | now rewrite IH]. Qed.

Lemma str_of_int_inj (i j : Z) : str_of_int i = str_of_int j -> i = j.
Proof.
  unfold str_of_int. intros H.
  assert (N : forall z, Z.to_int z <> Decimal.Pos Decimal.Nil
                        /\ Z.to_int z <> Decimal.Neg Decimal.Nil).
  { intros [|p|p]; simpl; split; try discriminate;
      intros e; inversion e as [e']; now apply DecimalPos.Unsigned.to_uint_nonnil in e'. }
  apply DecimalZ.to_int_inj.
  destruct (N i) as [Ni1 Ni2]. destruct (N j) as [Nj1 Nj2].
  pose proof (NilZero.isi (Z.to_int i) Ni1 Ni2) as Hi.
  pose proof (NilZero.isi (Z.to_int j) Nj1 Nj2) as Hj.
  rewrite H in Hi. congruence.
Qed.

Lemma form_fields (create : bool) (title description : pyval) (labels : list string)
    (assignee_ids : list Z) (state_event : option string) :
  let data := if create
              then create_data title description labels assignee_ids state_event
              else update_data title description labels assignee_ids state_event in
  lookup "title" data = Some title
  /\ lookup "description" data = Some description
  /\ lookup "labels" data
     = Some (PStr (if negb (is_nil labels) then String.concat "," labels else ""))
  /\ lookup "assignee_ids" data
     = (if negb (is_nil assignee_ids) then Some (PList (map PInt assignee_ids))
        else if create then None else Some (PStr ""))
  /\ lookup "state_event" data
     = match state_event with
       | Some s => if (s =? "")%string then None else Some (PStr s)
       | None => None
       end.
Proof.
  cbv zeta. unfold create_data, update_data, state_event_field.
  destruct create, assignee_ids, state_event as [s|];
    try destruct (s =? "")%string; repeat split; reflexivity.
Qed.

(** *** The state table *)

Lemma labels_merge_has_scope_label (jira_labels : list pyval) (status : pyval)
    (in_scope : bool) :
  In (scope_label cfg in_scope) (_labels_merge cfg E jira_labels status in_scope).
Proof.
  rewrite labels_merge_unfold, first_occurrences_In, in_app_iff. right. now left.
Qed.

Lemma update_data_assignee_ids (title description : pyval) (labels : list string)
    (state_event : option string) :
  lookup "assignee_ids" (update_data title description labels [] state_event)
  = Some (PStr "").
Proof.
  unfold update_data, state_event_field.
  destruct state_event as [s|]; [destruct (s =? "")%string|]; reflexivity.
Qed.

(** C1: a delivery that arrives at the decision with a key follows the four
    rows of the state table. No link and out of scope: nothing is sent, no
    link is written, the fingerprint is marked. No link and in scope: the
    issue is posted to the issue collection of the project, and when GitLab
    accepts, the link is written with the new issue id and [in-scope], then
    the fingerprint is marked. A link: the update is put to the URL of the
    issue whose id the link holds, which is the URL of no other issue, and
    when GitLab accepts, the link is written with the same issue id and
    [in-scope] or [out-of-scope] as the event is, then the fingerprint is
    marked. The form that is sent holds the title, the description, the
    comma-joined labels, among them the scope label of the event (and not the
    other one, when the label settings keep them apart), the lifecycle token
    and, in an update, always [assignee_ids]: out of scope it is the empty
    string, which clears the assignees. *)
Theorem state_table (req : request) (w : world) (L : locals) :
  reaches_decision cfg E req w L ->
  let out := jira_webhook cfg E req w in
  let k := l_key_text L in
  let sent_labels := String.concat "," (l_labels cfg E L) in
  (select_link k (db w) = None -> l_in_scope cfg L = false ->
   planned_call cfg E L w = None
   /\ out = (ack E "skip_create_out_of_scope" (l_key L) None, marked E (l_fp L) w)
   /\ links (db (snd out)) = links (db w)
   /\ filter is_http (trace (snd out)) = filter is_http (trace w))
  /\ (select_link k (db w) = None -> l_in_scope cfg L = true ->
      let post := HttpPost (_gitlab_create_url cfg)
                    (create_data (l_title L) (l_description L) (l_labels cfg E L)
                       (l_assignee_ids L) (close_only (l_state_event L))) in
      planned_call cfg E L w = Some post
      /\ (exists data,
            post = HttpPost (GITLAB_BASE_URL cfg ++ "/api/v4/projects/"
                             ++ GITLAB_PROJECT_ID cfg ++ "/issues")%string data
            /\ lookup "title" data = Some (l_title L)
            /\ lookup "description" data = Some (l_description L)
            /\ lookup "labels" data = Some (PStr sent_labels)
            /\ str_contains (LABEL_IN_SCOPE cfg) sent_labels = true
            /\ lookup "assignee_ids" data
               = (if negb (is_nil (l_assignee_ids L))
                  then Some (PList (map PInt (l_assignee_ids L))) else None))
      /\ forall code iid,
           gitlab_api E (trace w ++ [post]) = Response code (Some iid) ->
           code < 300 ->
           sqlite_int_ok iid = true ->
           let row := {| jira_key := k;
                         gitlab_project_id := GITLAB_PROJECT_ID cfg;
                         gitlab_issue_iid := iid;
                         last_synced_at := utc_now E (trace w ++ [post]);
                         sync_state := "in-scope" |} in
           out = (ack E "created" (l_key L) (Some iid),
                  marked E (l_fp L) (linked row (sent post w)))
           /\ trace (snd out)
              = trace w
                ++ [post; LinkUpsert row;
                    ProcessedInsert
                      {| event_fingerprint := l_fp L;
                         created_at := utc_now E (trace w ++ [post; LinkUpsert row]) |}]
           /\ links (db (snd out)) = links (db w) ++ [row]
           /\ select_link k (db (snd out)) = Some row)
  /\ (forall old, select_link k (db w) = Some old ->
      let iid := gitlab_issue_iid old in
      let put := HttpPut (_gitlab_issue_url cfg iid)
                   (update_data (l_title L) (l_description L) (l_labels cfg E L)
                      (l_assignee_ids L) (l_state_event L)) in
      let issue_url := fun i : Z =>
                         (GITLAB_BASE_URL cfg ++ "/api/v4/projects/"
                          ++ GITLAB_PROJECT_ID cfg ++ "/issues/" ++ str_of_int i)%string in
      planned_call cfg E L w = Some put
      /\ (exists data,
            put = HttpPut (issue_url iid) data
            /\ (forall j, issue_url j = issue_url iid -> j = iid)
            /\ lookup "title" data = Some (l_title L)
            /\ lookup "description" data = Some (l_description L)
            /\ lookup "labels" data = Some (PStr sent_labels)
            /\ str_contains (scope_label cfg (l_in_scope cfg L)) sent_labels = true
            /\ (label_config_ok cfg = true ->
                ~ In (scope_label cfg (negb (l_in_scope cfg L))) (l_labels cfg E L))
            /\ lookup "assignee_ids" data
               = Some (if negb (is_nil (l_assignee_ids L))
                       then PList (map PInt (l_assignee_ids L)) else PStr "")
            /\ lookup "state_event" data
               = (if status_done cfg (data_status (l_data L)) then Some (PStr "close")
                  else if truthy (data_status (l_data L)) then Some (PStr "reopen")
                       else None)
            /\ (l_in_scope cfg L = false ->
                lookup "assignee_ids" data = Some (PStr "")
                /\ str_contains (LABEL_OUT_OF_SCOPE cfg) sent_labels = true))
      /\ (l_in_scope cfg L = false ->
          l_assignee_ids L = []
          /\ lookup "assignee_ids"
               (update_data (l_title L) (l_description L) (l_labels cfg E L)
                  (l_assignee_ids L) (l_state_event L)) = Some (PStr "")
          /\ In (LABEL_OUT_OF_SCOPE cfg) (l_labels cfg E L))
      /\ forall code x,
           gitlab_api E (trace w ++ [put]) = Response code x ->
           code < 300 ->
           sqlite_int_ok iid = true ->
           let row := {| jira_key := k;
                         gitlab_project_id := GITLAB_PROJECT_ID cfg;
                         gitlab_issue_iid := iid;
                         last_synced_at := utc_now E (trace w ++ [put]);
                         sync_state := if l_in_scope cfg L then "in-scope"
                                       else "out-of-scope" |} in
           out = (ack E "updated" (l_key L) (Some iid),
                  marked E (l_fp L) (linked row (sent put w)))
           /\ trace (snd out)
              = trace w
                ++ [put; LinkUpsert row;
                    ProcessedInsert
                      {| event_fingerprint := l_fp L;
                         created_at := utc_now E (trace w ++ [put; LinkUpsert row]) |}]
           /\ select_link k (db (snd out)) = Some row)
  /\ (forall (s act : string) (i : option Z),
      l_key L = PStr s ->
      ack E act (l_key L) i
      = Ok {| ok := true; action := act; resp_jira_key := Some s; gitlab_iid := i |}).
Proof.
  intros R out k sent_labels. subst out k sent_labels.
  assert (Lab : In (scope_label cfg (l_in_scope cfg L)) (l_labels cfg E L))
    by apply labels_merge_has_scope_label.
  assert (NE : negb (is_nil (l_labels cfg E L)) = true)
    by (destruct (l_labels cfg E L); [contradiction | reflexivity]).
  assert (Sent : str_contains (scope_label cfg (l_in_scope cfg L))
                   (String.concat "," (l_labels cfg E L)) = true)
    by now apply str_contains_concat.
  rewrite (reaches_run cfg E req w L R), create_or_update_unfold.
  pose proof R as (_ & _ & _ & _ & _ & _ & _ & Bk & _ & St & Ids).
  unfold l_link, planned_call.
  split; [|split; [|split]].
  - intros Sel S. rewrite Sel, S. cbn [negb]. repeat split.
    simpl. rewrite filter_app. simpl. apply app_nil_r.
  - intros Sel S. rewrite Sel, S. cbn [negb]. cbv zeta.
    set (post := HttpPost _ _). split; [reflexivity|]. split.
    { destruct (form_fields true (l_title L) (l_description L) (l_labels cfg E L)
                  (l_assignee_ids L) (close_only (l_state_event L)))
        as (F1 & F2 & F3 & F4 & _).
      cbv zeta in F1, F2, F3, F4. rewrite NE in F3.
      eexists. split; [reflexivity|].
      split; [exact F1|]. split; [exact F2|]. split; [exact F3|].
      split; [now rewrite S in Sent|]. exact F4. }
    intros code iid G Hc I.
    change (trace (sent post w)) with (trace w ++ [post]). rewrite G.
    assert (Hge : (code >=? 300) = false) by lia.
    rewrite Hge, Bk, I.
    split; [reflexivity|]. cbn [snd].
    split; [simpl; now rewrite <- !app_assoc|].
    unfold select_link in *. simpl.
    split; [now apply (upsert_absent_key (l_key_text L)) | now apply find_upsert_key].
  - intros old Sel. rewrite Sel. cbv zeta.
    set (put := HttpPut _ _). split; [reflexivity|]. split; [|split].
    + destruct (form_fields false (l_title L) (l_description L) (l_labels cfg E L)
                  (l_assignee_ids L) (l_state_event L))
        as (F1 & F2 & F3 & F4 & F5).
      cbv zeta in F1, F2, F3, F4, F5. rewrite NE in F3.
      eexists. split; [reflexivity|].
      split.
      { intros j H.
        apply append_cancel_l in H. apply (append_cancel_l "/api/v4/projects/") in H.
        apply append_cancel_l in H. apply (append_cancel_l "/issues/") in H.
        now apply str_of_int_inj. }
      split; [exact F1|]. split; [exact F2|]. split; [exact F3|].
      split; [exact Sent|].
      split; [intros settings; apply (labels_merge_drops_other_scope cfg E settings)|].
      split; [rewrite F4; now destruct (negb (is_nil (l_assignee_ids L)))|].
      split.
      { rewrite F5. clear - St.
        unfold _state_event_from_status, status_done in *.
        destruct (data_status (l_data L)) as [| b | n | x | s | items | entries];
          cbn [truthy] in *.
        - inversion St. reflexivity.
        - destruct b; inversion St; reflexivity.
        - destruct (n =? 0); inversion St; reflexivity.
        - destruct (PrimFloat.eqb x PrimFloat.zero); inversion St; reflexivity.
        - destruct (s =? "")%string; cbn [negb andb] in *; [inversion St; reflexivity|].
          destruct (mem s (DONE_STATUSES cfg)); inversion St; reflexivity.
        - destruct items; inversion St; reflexivity.
        - destruct entries; inversion St; reflexivity. }
      intros S. rewrite S in Ids, Sent.
      assert (Hids : l_assignee_ids L = [])
        by (unfold _map_assignee_to_gitlab_ids in Ids; simpl in Ids; congruence).
      rewrite F4, Hids. split; [reflexivity | exact Sent].
    + intros S. rewrite S in Ids.
      assert (Hids : l_assignee_ids L = [])
        by (unfold _map_assignee_to_gitlab_ids in Ids; simpl in Ids; congruence).
      rewrite Hids. split; [reflexivity|]. split; [apply update_data_assignee_ids|].
      unfold l_labels. rewrite S. apply (labels_merge_has_scope_label _ _ false).
    + intros code x G Hc I.
      change (trace (sent put w)) with (trace w ++ [put]). rewrite G.
      assert (Hge : (code >=? 300) = false) by lia.
      rewrite Hge, Bk, I.
      split; [reflexivity|]. cbn [snd].
      split; [simpl; now rewrite <- !app_assoc|].
      unfold select_link. simpl. now apply find_upsert_key.
  - intros s act i Hk. unfold ack. rewrite Hk. reflexivity.
Qed.

(** *** The token *)

Lemma authorised_spec (req : request) :
  authorised cfg req = true
  <-> JIRA_SHARED_SECRET cfg = ""%string
      \/ x_sync_token req = Some (JIRA_SHARED_SECRET cfg)
      \/ query_token req = Some (JIRA_SHARED_SECRET cfg).
Proof.
  unfold authorised, token_ok, opt_eqb.
  rewrite !orb_true_iff, String.eqb_eq.
  destruct (x_sync_token req) as [h|], (query_token req) as [q|];
    rewrite ?String.eqb_eq; intuition congruence.
Qed.

Lemma jira_webhook_without_secret (req : request) (w : world) :
  authorised cfg req = true ->
  jira_webhook cfg E req w = jira_webhook (without_secret cfg) E req w.
Proof.
  intros A. rewrite !jira_webhook_unfold, A.
  replace (authorised (without_secret cfg) req) with true by reflexivity.
  reflexivity.
Qed.

Lemma rbind_raise {A B : Type} (c : result A) (k : A -> result B) (e : exn) :
  rbind c k = Raise e -> c = Raise e \/ exists x, c = Ok x /\ k x = Raise e.
Proof.
  destruct c as [x|e']; cbn [rbind]; intros H; [right; now exists x|].
  inversion H. now left.
Qed.

Lemma py_get_raises (obj : pyval) (k : string) (e : exn) :
  py_get obj k = Raise e -> e = AttributeError.
Proof. destruct obj; cbn [py_get]; intros H; inversion H; reflexivity. Qed.

Ltac raise_cases :=
  repeat match goal with
         | H : Ok _ = Raise _ |- _ => discriminate H
         | H : Raise _ = Raise _ |- _ => inversion H; clear H; subst
         | H : py_get _ _ = Raise _ |- _ => apply py_get_raises in H; subst
         | H : rbind _ _ = Raise _ |- _ =>
             apply rbind_raise in H; destruct H as [H | (? & _ & H)]
         | H : (if ?b then _ else _) = Raise _ |- _ => destruct b
         end.

(** The computations between the token test and the call raise no
    [HTTPException]. *)
Lemma transforms_raise_no_http (payload : pyval) (data : extracted) (e : exn) :
  _fingerprint E payload = Raise e
  \/ _jira_extract payload = Raise e
  \/ _build_description cfg E (data_key data) (py_or (data_description data) (PStr ""))
     = Raise e
  \/ _state_event_from_status cfg (data_status data) = Raise e
  \/ _map_assignee_to_gitlab_ids cfg E (data_assignee data)
       (_is_in_scope cfg (data_assignee data)) = Raise e ->
  e = AttributeError \/ e = TypeError.
Proof.
  intros [H|[H|[H|[H|H]]]].
  - unfold _fingerprint in H. raise_cases; auto.
  - unfold _jira_extract in H. raise_cases; auto.
  - unfold _build_description, py_contains, py_strip in H.
    destruct (py_or (data_description data) (PStr "")); cbn [rbind] in H;
      raise_cases; auto.
  - unfold _state_event_from_status in H.
    destruct (negb (truthy (data_status data))); [discriminate|].
    destruct (data_status data); raise_cases; auto.
  - unfold _map_assignee_to_gitlab_ids in H.
    destruct (negb (_is_in_scope cfg (data_assignee data))); [discriminate|].
    destruct (negb (truthy (data_assignee data))); [discriminate|].
    apply rbind_raise in H. destruct H as [H | (v & _ & H)].
    + destruct (JIRA_TO_GITLAB_USER_ID cfg), (data_assignee data); raise_cases; auto.
    + destruct v; try discriminate; destruct (py_int E _); discriminate.
Qed.

(** The [HTTPException]s of the endpoint: 401 from the token test, 500 from the
    test of the settings, 502 from a request GitLab refused. *)
Lemma http_exceptions (req : request) (w : world) (c : Z) :
  fst (jira_webhook cfg E req w) = Raise (HTTPException c) ->
  (c = 401 /\ authorised cfg req = false)
  \/ (c = 500 /\ authorised cfg req = true /\ configured cfg = false)
  \/ (c = 502 /\ authorised cfg req = true /\ configured cfg = true).
Proof.
  rewrite jira_webhook_unfold.
  destruct (authorised cfg req); cbn [negb fst];
    [|intros H; inversion H; now left].
  destruct (configured cfg); cbn [negb fst];
    [|intros H; inversion H; right; left; auto].
  assert (N : forall e : exn, e = AttributeError \/ e = TypeError ->
                              Raise (A := WebhookResponse) e <> Raise (HTTPException c))
    by (intros e [-> | ->]; discriminate).
  destruct (json_body req) as [payload|]; [|discriminate].
  destruct (_fingerprint E payload) as [fp|e] eqn:F.
  2:{ intros H. exfalso. apply (N e); [|exact H].
      apply (transforms_raise_no_http payload
               {| data_key := PNone; data_summary := PNone; data_description := PNone;
                  data_status := PNone; data_assignee := PNone; data_labels := [] |}).
      now left. }
  destruct (has_fingerprint fp (db w)); [discriminate|].
  destruct (_jira_extract payload) as [data|e] eqn:X.
  2:{ intros H. exfalso. apply (N e); [|exact H].
      apply (transforms_raise_no_http payload
               {| data_key := PNone; data_summary := PNone; data_description := PNone;
                  data_status := PNone; data_assignee := PNone; data_labels := [] |}).
      right; now left. }
  destruct (negb (truthy (data_key data))); [discriminate|].
  destruct (bind_text E (data_key data)) as [k|]; [|discriminate].
  destruct (_build_description cfg E _ _) as [description|e] eqn:D.
  2:{ intros H. exfalso. apply (N e); [|exact H].
      apply (transforms_raise_no_http payload data). right; right; now left. }
  destruct (_state_event_from_status cfg _) as [state_event|e] eqn:S.
  2:{ intros H. exfalso. apply (N e); [|exact H].
      apply (transforms_raise_no_http payload data). right; right; right; now left. }
  destruct (_map_assignee_to_gitlab_ids cfg E _ _) as [ids|e] eqn:I.
  2:{ intros H. exfalso. apply (N e); [|exact H].
      apply (transforms_raise_no_http payload data). right; right; right; now right. }
  rewrite create_or_update_unfold. intros H. right; right.
  split; [|split; reflexivity].
  assert (K : forall act key i, ack E act key i <> Raise (HTTPException c))
    by (intros act key i; unfold ack; destruct (validate_str E key); discriminate).
  destruct (match select_link k (db w) with Some _ => _ | None => _ end)
    as [[[? iid] ?]|]; cbv zeta in H.
  - destruct (gitlab_api E _) as [|code x]; [discriminate|].
    destruct (code >=? 300); [now inversion H|].
    destruct (bind_text E (data_key data)); [|discriminate].
    destruct (sqlite_int_ok iid); [|discriminate].
    cbn [fst] in H. now apply K in H.
  - destruct (negb (_is_in_scope cfg (data_assignee data))).
    + cbn [fst] in H. now apply K in H.
    + destruct (gitlab_api E _) as [|code x]; [discriminate|].
      destruct (code >=? 300); [now inversion H|].
      destruct x as [n|]; [|discriminate].
      destruct (bind_text E (data_key data)); [|discriminate].
      destruct (sqlite_int_ok n); [|discriminate].
      cbn [fst] in H. now apply K in H.
Qed.

(** C10: with an empty shared secret the endpoint looks at no token: the
    delivery is handled the same whatever the header and the query parameter
    hold. With a secret, a request whose header token and query token both
    differ from it (or are missing) gets [HTTPException(401)] and the world is
    as before; a request one of whose tokens equals it is handled as if no
    secret were set. The endpoint answers 401 in that case only; with an empty
    secret or a token that equals it, the request goes on to the tests that
    follow the token test: it gets 500 when the settings are missing, the
    error of the body when the body is not JSON, [dedup] when its fingerprint
    is marked, and otherwise the result of the rest of the handler. *)
Theorem token_check (req : request) (w : world) :
  (JIRA_SHARED_SECRET cfg = ""%string ->
   forall h q : option string,
     jira_webhook cfg E req w
     = jira_webhook cfg E
         {| x_sync_token := h; query_token := q; json_body := json_body req |} w)
  /\ (JIRA_SHARED_SECRET cfg <> ""%string ->
      x_sync_token req <> Some (JIRA_SHARED_SECRET cfg) ->
      query_token req <> Some (JIRA_SHARED_SECRET cfg) ->
      jira_webhook cfg E req w = (Raise (HTTPException 401), w))
  /\ (JIRA_SHARED_SECRET cfg <> ""%string ->
      x_sync_token req = Some (JIRA_SHARED_SECRET cfg)
      \/ query_token req = Some (JIRA_SHARED_SECRET cfg) ->
      jira_webhook cfg E req w = jira_webhook (without_secret cfg) E req w)
  /\ (fst (jira_webhook cfg E req w) = Raise (HTTPException 401)
      <-> JIRA_SHARED_SECRET cfg <> ""%string
          /\ x_sync_token req <> Some (JIRA_SHARED_SECRET cfg)
          /\ query_token req <> Some (JIRA_SHARED_SECRET cfg))
  /\ (JIRA_SHARED_SECRET cfg = ""%string
      \/ x_sync_token req = Some (JIRA_SHARED_SECRET cfg)
      \/ query_token req = Some (JIRA_SHARED_SECRET cfg) ->
      (configured cfg = false ->
       jira_webhook cfg E req w = (Raise (HTTPException 500), w))
      /\ (configured cfg = true -> json_body req = None ->
          jira_webhook cfg E req w = (Raise JSONDecodeError, w))
      /\ (configured cfg = true ->
          forall payload fp,
            json_body req = Some payload ->
            _fingerprint E payload = Ok fp ->
            (has_fingerprint fp (db w) = true ->
             jira_webhook cfg E req w = (Ok dedup_response, w))
            /\ (has_fingerprint fp (db w) = false ->
                forall data, _jira_extract payload = Ok data ->
                truthy (data_key data) = false ->
                jira_webhook cfg E req w = (Ok skip_no_key_response, marked E fp w)))
      /\ (forall L : locals,
            configured cfg = true ->
            json_body req = Some (l_payload L) ->
            _fingerprint E (l_payload L) = Ok (l_fp L) ->
            has_fingerprint (l_fp L) (db w) = false ->
            _jira_extract (l_payload L) = Ok (l_data L) ->
            truthy (l_key L) = true ->
            bind_text E (l_key L) = Some (l_key_text L) ->
            _build_description cfg E (l_key L)
              (py_or (data_description (l_data L)) (PStr "")) = Ok (l_description L) ->
            _state_event_from_status cfg (data_status (l_data L))
            = Ok (l_state_event L) ->
            _map_assignee_to_gitlab_ids cfg E (data_assignee (l_data L))
              (l_in_scope cfg L) = Ok (l_assignee_ids L) ->
            forall call, planned_call cfg E L w = Some call ->
            exists rest, trace (snd (jira_webhook cfg E req w)) = trace w ++ call :: rest)).
Proof.
  split; [|split; [|split; [|split]]].
  - intros S h q. rewrite !jira_webhook_unfold.
    assert (A : forall r, authorised cfg r = true)
      by (intros r; apply authorised_spec; now left).
    now rewrite !A.
  - intros S H Q. rewrite jira_webhook_unfold.
    destruct (authorised cfg req) eqn:A; [|reflexivity].
    apply authorised_spec in A. intuition congruence.
  - intros S T. apply jira_webhook_without_secret, authorised_spec. now right.
  - split.
    + intros H. apply http_exceptions in H.
      destruct H as [[_ A]|[[H _]|[H _]]]; try discriminate H.
      assert (N : ~ (JIRA_SHARED_SECRET cfg = ""%string
                     \/ x_sync_token req = Some (JIRA_SHARED_SECRET cfg)
                     \/ query_token req = Some (JIRA_SHARED_SECRET cfg))).
      { intros T. apply authorised_spec in T. congruence. }
      repeat split; intros T; apply N; auto.
    + intros (S & H & Q). rewrite jira_webhook_unfold.
      destruct (authorised cfg req) eqn:A; [|reflexivity].
      apply authorised_spec in A. intuition congruence.
  - intros T. apply authorised_spec in T.
    split; [|split; [|split]].
    + intros C. now rewrite jira_webhook_unfold, T, C.
    + intros C B. now rewrite jira_webhook_unfold, T, C, B.
    + intros C payload fp B F. split.
      * intros D. now rewrite jira_webhook_unfold, T, C, B, F, D.
      * intros D data X K. now rewrite jira_webhook_unfold, T, C, B, F, D, X, K.
    + intros L C B F D X K Bk De St Ids call PC.
      apply (planned_call_leaves req w L call); [|exact PC].
      unfold reaches_decision. repeat split; assumption.
Qed.

End Deliveries.

(** ** The scenarios, run *)

(** C1, the four rows run: bob's PROJ-2 is skipped; the first delivery of
    PROJ-1 creates issue 7 and writes the link; a later delivery of PROJ-1
    updates issue 7 and keeps the link in scope; PROJ-1 without assignee
    updates issue 7 with its assignees cleared and the out-of-scope label, and
    the link goes out of scope. *)
Lemma state_table_witness :
  reaches_decision scenario_config gitlab_up scenario_request empty_world scenario_locals
  /\ jira_webhook scenario_config gitlab_up scenario_request empty_world
     = (Ok scenario_created, scenario_world)
  /\ jira_webhook scenario_config gitlab_up scenario_bob empty_world
     = (Ok {| ok := true; action := "skip_create_out_of_scope";
              resp_jira_key := Some "PROJ-2"%string; gitlab_iid := None |},
        marked gitlab_up "issue_assigned|PROJ-2|" empty_world)
  /\ (exists data,
        trace (snd (jira_webhook scenario_config gitlab_up scenario_later scenario_world))
        = trace scenario_world
          ++ [HttpPut "https://gitlab.example/api/v4/projects/42/issues/7" data;
              LinkUpsert scenario_link;
              ProcessedInsert
                {| event_fingerprint :=
                     "jira:issue_updated|PROJ-1|2024-05-03T08:00:00.000+0000";
                   created_at := "2024-05-01T10:00:01+00:00" |}]
        /\ lookup "title" data = Some (PStr "Fix login")
        /\ lookup "labels" data = Some (PStr "backend,ui,jira:status:Done,sync:in-scope")
        /\ lookup "assignee_ids" data = Some (PList [PInt 11])
        /\ lookup "state_event" data = Some (PStr "close"))
  /\ (exists data,
        trace (snd (jira_webhook scenario_config gitlab_up scenario_unassigned
                      scenario_world))
        = trace scenario_world
          ++ [HttpPut "https://gitlab.example/api/v4/projects/42/issues/7" data;
              LinkUpsert {| jira_key := "PROJ-1";
                            gitlab_project_id := "42";
                            gitlab_issue_iid := 7;
                            last_synced_at := "2024-05-01T10:00:01+00:00";
                            sync_state := "out-of-scope" |};
              ProcessedInsert
                {| event_fingerprint :=
                     "jira:issue_updated|PROJ-1|2024-05-02T09:00:00.000+0000";
                   created_at := "2024-05-01T10:00:01+00:00" |}]
        /\ lookup "title" data = Some (PStr "Fix login")
        /\ lookup "labels" data = Some (PStr "jira:status:Open,sync:out-of-scope")
        /\ lookup "assignee_ids" data = Some (PStr "")
        /\ lookup "state_event" data = Some (PStr "reopen")).
Proof.
  assert (R : reaches_decision scenario_config gitlab_up scenario_request empty_world
                scenario_locals)
    by (unfold reaches_decision; repeat split; reflexivity).
  split; [exact R|]. split; [|split; [|split]].
  - pose proof (state_table scenario_config gitlab_up scenario_request empty_world
                  scenario_locals R) as T.
    cbv zeta in T. destruct T as (_ & Create & _).
    destruct (Create eq_refl eq_refl) as (_ & _ & H).
    destruct (H 201 7 eq_refl ltac:(lia) eq_refl) as [Out _].
    exact Out.
  - assert (B : reaches_decision scenario_config gitlab_up scenario_bob empty_world
                  scenario_bob_locals)
      by (unfold reaches_decision; repeat split; reflexivity).
    pose proof (state_table scenario_config gitlab_up scenario_bob empty_world
                  scenario_bob_locals B) as T.
    cbv zeta in T. destruct T as (Skip & _).
    destruct (Skip eq_refl eq_refl) as (_ & Out & _).
    exact Out.
  - assert (A : reaches_decision scenario_config gitlab_up scenario_later scenario_world
                  scenario_later_locals)
      by (unfold reaches_decision; repeat split; reflexivity).
    pose proof (state_table scenario_config gitlab_up scenario_later scenario_world
                  scenario_later_locals A) as T.
    cbv zeta in T. destruct T as (_ & _ & Update & _).
    destruct (Update scenario_link eq_refl)
      as (_ & (data & Eq & _ & F1 & _ & F3 & _ & _ & F4 & F5 & _) & _ & Run).
    destruct (Run 201 (Some 7) eq_refl ltac:(lia) eq_refl) as (_ & Tr & _).
    rewrite Eq in Tr.
    exists data. split; [exact Tr|].
    split; [exact F1|]. split; [exact F3|]. split; [exact F4 | exact F5].
  - assert (U : reaches_decision scenario_config gitlab_up scenario_unassigned
                  scenario_world scenario_unassigned_locals)
      by (unfold reaches_decision; repeat split; reflexivity).
    pose proof (state_table scenario_config gitlab_up scenario_unassigned scenario_world
                  scenario_unassigned_locals U) as T.
    cbv zeta in T. destruct T as (_ & _ & Update & _).
    destruct (Update scenario_link eq_refl)
      as (_ & (data & Eq & _ & F1 & _ & F3 & _ & _ & _ & F5 & Out) & _ & Run).
    destruct (Out eq_refl) as [F4 _].
    destruct (Run 201 (Some 7) eq_refl ltac:(lia) eq_refl) as (_ & Tr & _).
    rewrite Eq in Tr.
    exists data. split; [exact Tr|].
    split; [exact F1|]. split; [exact F3|]. split; [exact F4 | exact F5].
Defined.

(** C2, with GitLab answering 500: the delivery ends with 502 and the database
    stays empty. *)
Lemma upstream_failure_witness :
  fst (jira_webhook scenario_config gitlab_down_once scenario_request empty_world)
  = Raise (HTTPException 502)
  /\ db (snd (jira_webhook scenario_config gitlab_down_once scenario_request empty_world))
     = empty_database.
Proof.
  pose proof (upstream_failure_mutates_nothing scenario_config gitlab_down_once
                scenario_request empty_world scenario_post 500 None) as T.
  cbv zeta in T.
  destruct (T eq_refl eq_refl eq_refl ltac:(lia)) as (H1 & H2 & _).
  split; [exact H1 | exact H2].
Defined.

(** C3, with the same webhook delivered a second time. *)
Lemma dedup_second_delivery_witness :
  jira_webhook scenario_config gitlab_up scenario_request scenario_world
  = (Ok dedup_response, scenario_world).
Proof.
  pose proof (dedup_second_delivery scenario_config gitlab_up scenario_request
                scenario_request [] empty_world scenario_created
                "jira:issue_updated|PROJ-1|2024-05-01T10:00:00.000+0000"
                eq_refl eq_refl eq_refl eq_refl) as T.
  cbv zeta in T. exact (proj1 T).
Defined.

(** C4, at the first delivery of PROJ-1: one mark, and the same webhook
    delivered again changes nothing. *)
Lemma marks_once_then_idle_witness :
  snd (jira_webhook scenario_config gitlab_up scenario_request scenario_world)
  = scenario_world.
Proof.
  assert (N : action scenario_created <> "dedup"%string) by (simpl; discriminate).
  pose proof (marks_once_then_idle scenario_config gitlab_up scenario_request empty_world
                scenario_created eq_refl N) as T.
  cbv zeta in T. destruct T as (fp & es & now & F & _ & _ & _ & _ & Idle).
  exact (Idle [] scenario_request F).
Defined.

(** C5, with the default settings, on labels that hold a number, blanks, a
    repetition and old status and scope labels. *)
Lemma labels_merge_fixed_point_witness :
  _labels_merge default_config gitlab_up
    [PStr "backend"; PInt 7; PStr " ui "; PStr "sync:out-of-scope";
     PStr "jira:status:Open"; PStr "backend"; PStr "  "]
    (PStr "Done") true
  = ["backend"; "ui"; "jira:status:Done"; "sync:in-scope"]%string
  /\ _labels_merge default_config gitlab_up
       (map PStr ["backend"; "ui"; "jira:status:Done"; "sync:in-scope"]%string)
       (PStr "Done") true
     = ["backend"; "ui"; "jira:status:Done"; "sync:in-scope"]%string.
Proof.
  pose proof (labels_merge_fixed_point default_config gitlab_up eq_refl
                [PStr "backend"; PInt 7; PStr " ui "; PStr "sync:out-of-scope";
                 PStr "jira:status:Open"; PStr "backend"; PStr "  "]
                (PStr "Done") true) as T.
  cbv zeta in T. destruct T as (Shape & _ & _ & _ & _ & _ & Fixed).
  split; [exact Shape | exact Fixed].
Defined.


(** C8, on the labels of the scenario: the number stays in the extracted
    labels. *)
Lemma extracted_labels_witness :
  data_labels scenario_data = [PStr "backend"; PInt 7; PStr " ui "].
Proof.
  exact (proj1 (extracted_labels_then_strings_only scenario_payload scenario_data
                  (PList [PStr "backend"; PInt 7; PStr " ui "]) eq_refl eq_refl)).
Defined.

(** C9, at the first delivery of PROJ-1, whose status is Done. *)
Lemma creation_passes_close_only_witness :
  exists data rest,
    trace (snd (jira_webhook scenario_config gitlab_up scenario_request empty_world))
    = trace empty_world
      ++ HttpPost (_gitlab_create_url scenario_config) data :: rest
    /\ lookup "state_event" data = Some (PStr "close").
Proof.
  assert (R : reaches_decision scenario_config gitlab_up scenario_request empty_world
                scenario_locals)
    by (unfold reaches_decision; repeat split; reflexivity).
  destruct (creation_passes_close_only scenario_config gitlab_up scenario_request
              empty_world scenario_locals R eq_refl eq_refl)
    as (data & rest & T & _ & Lk & _).
  exists data, rest. split; [exact T | exact Lk].
Defined.

(** C4 as stated fails: the same webhook delivered twice to a relay whose
    first request to GitLab is answered 500, or is answered 201 with a body
    that has no [iid], sends the create request twice for one fingerprint. *)
Lemma repeated_delivery_calls_twice :
  request_fingerprint gitlab_down_once scenario_request
  = Some "jira:issue_updated|PROJ-1|2024-05-01T10:00:00.000+0000"%string
  /\ filter is_http
       (trace (snd (deliver scenario_config gitlab_down_once
                      [scenario_request; scenario_request] empty_world)))
     = [scenario_post; scenario_post]
  /\ filter is_http
       (trace (snd (deliver scenario_config gitlab_odd_body_once
                      [scenario_request; scenario_request] empty_world)))
     = [scenario_post; scenario_post].
Proof. repeat split; reflexivity. Qed.

(** C8 as stated fails: the normaliser keeps the number among the labels it
    extracts. *)
Lemma extracted_labels_keep_numbers :
  _jira_extract scenario_payload = Ok scenario_data
  /\ data_labels scenario_data = [PStr "backend"; PInt 7; PStr " ui "]
  /\ existsb (fun l => negb (is_str l)) (data_labels scenario_data) = true.
Proof. repeat split; reflexivity. Qed.

(** C5 as stated fails for label settings that do not keep the kinds of
    labels apart. With a status prefix that starts with a blank, composing
    again from the result gives another list, in which the status label of the
    first pass has lost its blank and stays beside the new one. With an
    in-scope label that starts with the status prefix, the result holds two
    status-prefixed labels. *)
Lemma labels_merge_unclean_settings :
  label_config_ok blank_prefix_config = false
  /\ _labels_merge blank_prefix_config gitlab_up [] (PStr "Done") true
     = [" jira:status:Done"; "sync:in-scope"]%string
  /\ _labels_merge blank_prefix_config gitlab_up
       (map PStr [" jira:status:Done"; "sync:in-scope"]%string) (PStr "Done") true
     = ["jira:status:Done"; " jira:status:Done"; "sync:in-scope"]%string
  /\ label_config_ok prefixed_scope_config = false
  /\ filter (is_status_label prefixed_scope_config)
       (_labels_merge prefixed_scope_config gitlab_up [] (PStr "Done") true)
     = ["jira:status:Done"; "jira:status:in-scope"]%string.
Proof. repeat split; reflexivity. Qed.


(** C10, run: under the secret [s3cret] a delivery with the secret in the
    query parameter is handled (it creates issue 7), one with another token in
    the header gets 401 and the world stays as it was; without a secret a
    delivery with any tokens is handled. *)
Lemma token_check_witness :
  jira_webhook scenario_secret_config gitlab_up
    (scenario_tokens None (Some "s3cret"%string)) empty_world
  = (Ok scenario_created, scenario_world)
  /\ jira_webhook scenario_secret_config gitlab_up
       (scenario_tokens (Some "guess"%string) None) empty_world
     = (Raise (HTTPException 401), empty_world)
  /\ jira_webhook scenario_config gitlab_up
       (scenario_tokens (Some "any"%string) (Some "thing"%string)) empty_world
     = (Ok scenario_created, scenario_world)
  /\ fst (jira_webhook scenario_secret_config gitlab_up
            (scenario_tokens (Some "s3cret"%string) None) empty_world)
     <> Raise (HTTPException 401).
Proof.
  split; [|split; [|split]].
  - destruct (token_check scenario_secret_config gitlab_up
                (scenario_tokens None (Some "s3cret"%string)) empty_world)
      as (_ & _ & T & _).
    rewrite T; [reflexivity | discriminate | right; reflexivity].
  - destruct (token_check scenario_secret_config gitlab_up
                (scenario_tokens (Some "guess"%string) None) empty_world)
      as (_ & T & _).
    apply T; [discriminate | intros H; inversion H | discriminate].
  - destruct (token_check scenario_config gitlab_up scenario_request empty_world)
      as (T & _).
    etransitivity;
      [symmetry; exact (T eq_refl (Some "any"%string) (Some "thing"%string)) | reflexivity].
  - destruct (token_check scenario_secret_config gitlab_up
                (scenario_tokens (Some "s3cret"%string) None) empty_world)
      as (_ & _ & _ & T & _).
    intros H. apply (proj1 T) in H. destruct H as (_ & H & _). now apply H.
Defined.

(** A delivery for an assignee outside the allow-list, with no link: nothing
    is sent, no link is written, the fingerprint is marked. *)
Example scenario_out_of_scope_skip :
  jira_webhook scenario_config gitlab_up scenario_bob empty_world
  = (Ok {| ok := true; action := "skip_create_out_of_scope";
           resp_jira_key := Some "PROJ-2"%string; gitlab_iid := None |},
     {| db := {| links := [];
                 processed := [{| event_fingerprint := "issue_assigned|PROJ-2|";
                                  created_at := "2024-05-01T10:00:01+00:00" |}] |};
        trace := [ProcessedInsert {| event_fingerprint := "issue_assigned|PROJ-2|";
                                     created_at := "2024-05-01T10:00:01+00:00" |}] |}).
Proof. reflexivity. Qed.

(** A linked issue that loses its assignee: the update clears the assignees,
    relabels, and the link goes out of scope with the same issue id. *)
Example scenario_unassigned_update :
  let out := jira_webhook scenario_config gitlab_up scenario_unassigned scenario_world in
  fst out = Ok {| ok := true; action := "updated";
                  resp_jira_key := Some "PROJ-1"%string; gitlab_iid := Some 7 |}
  /\ nth_error (trace (snd out)) 3
     = Some (HttpPut "https://gitlab.example/api/v4/projects/42/issues/7"
               [("title", PStr "Fix login");
                ("description", PStr "JIRA_KEY: PROJ-1");
                ("labels", PStr "jira:status:Open,sync:out-of-scope");
                ("assignee_ids", PStr "");
                ("state_event", PStr "reopen")])
  /\ links (db (snd out))
     = [{| jira_key := "PROJ-1";
           gitlab_project_id := "42";
           gitlab_issue_iid := 7;
           last_synced_at := "2024-05-01T10:00:01+00:00";
           sync_state := "out-of-scope" |}].
Proof. repeat split; reflexivity. Qed.

(** A description that is a number makes [marker in jira_desc] raise, before
    anything is sent or written. *)
Example scenario_description_not_text :
  jira_webhook scenario_config gitlab_up
    {| x_sync_token := None; query_token := None;
       json_body :=
         Some (PDict [("issue",
                       PDict [("key", PStr "PROJ-3");
                              ("fields", PDict [("description", PInt 5)])])]) |}
    empty_world
  = (Raise TypeError, empty_world).
Proof. reflexivity. Qed.

(** ** Loading the configuration *)

Lemma has_char_lstrip (c : ascii) (s : string) :
  has_char c (lstrip s) = true -> has_char c s = true.
Proof.
  induction s as [|a s IH]; simpl; [auto|].
  destruct (is_space a); [|auto].
  intros H. rewrite (IH H). apply orb_true_r.
Qed.

Lemma has_char_rstrip (c : ascii) (s : string) :
  has_char c (rstrip s) = true -> has_char c s = true.
Proof.
  induction s as [|a s IH]; simpl; [auto|].
  destruct (rstrip s) as [|b r].
  - destruct (is_space a); simpl; [discriminate|].
    rewrite orb_false_r. intros ->. reflexivity.
  - simpl in *. intros H. apply orb_true_iff in H. destruct H as [H|H].
    + now rewrite H.
    + rewrite (IH H). apply orb_true_r.
Qed.

Lemma has_char_strip (c : ascii) (s : string) :
  has_char c s = false -> has_char c (strip s) = false.
Proof.
  intros H. destruct (has_char c (strip s)) eqn:S; [|reflexivity].
  unfold strip in S. apply has_char_rstrip, has_char_lstrip in S. congruence.
Qed.

Lemma split_on_pieces (sep : ascii) (s : string) :
  Forall (fun x => has_char sep x = false) (split_on sep s).
Proof.
  induction s as [|a s IH]; simpl; [repeat constructor|].
  destruct (Ascii.eqb a sep) eqn:A.
  - constructor; [reflexivity | exact IH].
  - destruct (split_on sep s) as [|piece rest].
    + repeat constructor. simpl. now rewrite A.
    + inversion IH; subst. constructor; [simpl; now rewrite A | assumption].
Qed.

Lemma split_on_whole (sep : ascii) (s : string) :
  has_char sep s = false -> split_on sep s = [s].
Proof.
  induction s as [|a s IH]; simpl; [reflexivity|].
  destruct (Ascii.eqb a sep); simpl; [discriminate|].
  intros H. now rewrite (IH H).
Qed.

Lemma split_on_app (sep : ascii) (a t : string) :
  has_char sep a = false ->
  split_on sep (a ++ String sep t) = a :: split_on sep t.
Proof.
  induction a as [|x a IH]; simpl.
  - intros _. now rewrite Ascii.eqb_refl.
  - destruct (Ascii.eqb x sep); simpl; [discriminate|].
    intros H. now rewrite (IH H).
Qed.

Lemma split_on_concat (sep : ascii) (l : list string) :
  l <> [] ->
  Forall (fun x => has_char sep x = false) l ->
  split_on sep (String.concat (String sep EmptyString) l) = l.
Proof.
  induction l as [|x l IH]; intros N F; [contradiction|].
  inversion F as [|? ? Hx Hl]; subst.
  destruct l as [|y l].
  - simpl. now apply split_on_whole.
  - change (String.concat (String sep "") (x :: y :: l))
      with (x ++ String sep (String.concat (String sep "") (y :: l)))%string.
    rewrite (split_on_app sep x _ Hx). f_equal. apply IH; [discriminate | exact Hl].
Qed.

Lemma csv_items_of_clean (l : list string) :
  Forall (fun x => strip x = x /\ x <> EmptyString /\ has_char "," x = false) l ->
  csv_items (String.concat "," l) = l.
Proof.
  intros F. unfold csv_items.
  destruct l as [|x l]; [reflexivity|].
  rewrite split_on_concat; [|discriminate|].
  - induction F as [|y r [Hs [Hn _]] _ IH]; simpl; [reflexivity|].
    rewrite Hs. destruct (String.eqb_spec y ""); [contradiction|].
    simpl. now rewrite IH.
  - eapply Forall_impl; [|exact F]. now intros y (_ & _ & H).
Qed.

Lemma csv_items_are_clean (s : string) :
  Forall (fun x => strip x = x /\ x <> EmptyString /\ has_char "," x = false) (csv_items s).
Proof.
  unfold csv_items. pose proof (split_on_pieces "," s) as P.
  induction P as [|x l Hx _ IH]; simpl; [constructor|].
  destruct (String.eqb_spec (strip x) "") as [|N]; simpl; [exact IH|].
  constructor; [|exact IH].
  split; [apply strip_idem|]. split; [exact N | now apply has_char_strip].
Qed.

(** X1: whatever the variable holds, the names read from a comma-separated
    variable ([ALLOWED_ASSIGNEES], [DONE_STATUSES]) are trimmed, not empty and
    free of commas; a variable that is empty or holds only blanks and commas
    gives no name. *)
Theorem csv_items_clean (s : string) :
  Forall (fun x => strip x = x /\ x <> EmptyString /\ has_char "," x = false) (csv_items s)
  /\ (csv_items s = []
      <-> Forall (fun piece => strip piece = EmptyString) (split_on "," s)).
Proof.
  split; [apply csv_items_are_clean|].
  unfold csv_items. induction (split_on "," s) as [|x l IH]; simpl.
  - split; constructor.
  - destruct (String.eqb_spec (strip x) "") as [e|N]; simpl.
    + rewrite IH. split; [now constructor | now inversion 1].
    + split; [discriminate | inversion 1; contradiction].
Qed.

(** X2: a list of trimmed, non-empty, comma-free names written with commas
    between them is read back as it was; so the names read from a variable,
    written back and read again, are the same names in the same order. *)
Theorem csv_items_round_trip :
  (forall l : list string,
     Forall (fun x => strip x = x /\ x <> EmptyString /\ has_char "," x = false) l ->
     csv_items (String.concat "," l) = l)
  /\ (forall s : string, csv_items (String.concat "," (csv_items s)) = csv_items s).
Proof.
  split; [exact csv_items_of_clean|].
  intros s. apply csv_items_of_clean, csv_items_are_clean.
Qed.

Lemma rstrip_char_parts (c : ascii) (s : string) :
  exists n, s = (rstrip_char c s ++ repeat_char c n)%string.
Proof.
  induction s as [|a s [n IH]]; simpl; [now exists O|].
  destruct (rstrip_char c s) as [|b r] eqn:R.
  - destruct (Ascii.eqb_spec a c) as [->|N].
    + exists (S n). simpl in *. now rewrite IH at 1.
    + exists n. simpl in *. now rewrite IH at 1.
  - exists n. simpl in *. now rewrite IH at 1.
Qed.

Lemma rstrip_char_end (c : ascii) (s : string) : ends_with c (rstrip_char c s) = false.
Proof.
  induction s as [|a s IH]; simpl; [reflexivity|].
  destruct (rstrip_char c s) as [|b r] eqn:R.
  - destruct (Ascii.eqb a c) eqn:A; simpl; [reflexivity | exact A].
  - exact IH.
Qed.

Lemma rstrip_char_empty (c : ascii) (s : string) :
  (rstrip_char c s =? "")%string = all_char c s.
Proof.
  induction s as [|a s IH]; simpl; [reflexivity|].
  destruct (rstrip_char c s) as [|b r] eqn:R; simpl in IH.
  - rewrite <- IH. now destruct (Ascii.eqb a c).
  - rewrite <- IH. now rewrite andb_false_r.
Qed.

(** X3: the base URL of a loaded configuration is the variable without its
    trailing slashes: it does not end with a slash and only slashes were
    removed. The relay counts as configured exactly when that variable holds
    something else than slashes and the project id and the token are set and
    not empty. *)
Theorem load_config_base_url (json_loads : string -> result pyval) (vars : environ)
    (cfg : config) :
  load_config json_loads vars = Ok cfg ->
  ends_with "/" (GITLAB_BASE_URL cfg) = false
  /\ (exists n, getenv vars "GITLAB_BASE_URL" ""
                = (GITLAB_BASE_URL cfg ++ repeat_char "/" n)%string)
  /\ configured cfg
     = negb (all_char "/" (getenv vars "GITLAB_BASE_URL" ""))
       && negb (getenv vars "GITLAB_PROJECT_ID" "" =? "")%string
       && negb (getenv vars "GITLAB_TOKEN" "" =? "")%string.
Proof.
  unfold load_config. intros H.
  destruct (json_loads _) as [ids|]; [|discriminate]. inversion H; subst; clear H.
  cbn [GITLAB_BASE_URL]. split; [apply rstrip_char_end|]. split; [apply rstrip_char_parts|].
  unfold configured. cbn [GITLAB_BASE_URL GITLAB_PROJECT_ID GITLAB_TOKEN].
  rewrite rstrip_char_empty, !negb_orb. reflexivity.
Qed.

(** X4: in a loaded configuration the names of the allow-list and of the done
    set are those of their variables, trimmed. So a status maps to [close]
    exactly when it is one of the done names (the defaults Done, Closed,
    Resolved when the variable is unset); when the allow-list variable gives no
    name every event with an assignee is in scope; and when it gives names, an
    event is in scope only if its assignee is, character for character, one of
    the trimmed names. *)
Theorem load_config_names (json_loads : string -> result pyval) (vars : environ)
    (cfg : config) :
  load_config json_loads vars = Ok cfg ->
  (forall s : string,
     _state_event_from_status cfg (PStr s) = Ok (Some "close"%string)
     <-> In s (DONE_STATUSES cfg))
  /\ (vars "DONE_STATUSES"%string = None ->
      DONE_STATUSES cfg = ["Done"; "Closed"; "Resolved"]%string)
  /\ (csv_items (getenv vars "ALLOWED_ASSIGNEES" "") = [] ->
      forall a : pyval, _is_in_scope cfg a = truthy a)
  /\ (csv_items (getenv vars "ALLOWED_ASSIGNEES" "") <> [] ->
      forall a : pyval,
        _is_in_scope cfg a = true ->
        exists s, a = PStr s /\ In s (ALLOWED_ASSIGNEES cfg) /\ strip s = s).
Proof.
  unfold load_config. intros H.
  destruct (json_loads _) as [ids|]; [|discriminate]. inversion H; subst; clear H.
  pose proof (csv_items_are_clean (getenv vars "DONE_STATUSES" "Done,Closed,Resolved")) as CD.
  pose proof (csv_items_are_clean (getenv vars "ALLOWED_ASSIGNEES" "")) as CA.
  rewrite Forall_forall in CD, CA.
  split; [|split; [|split]].
  - intros s. unfold _state_event_from_status. cbn [DONE_STATUSES truthy].
    destruct (String.eqb_spec s "") as [->|N]; cbn [negb].
    + split; [discriminate|]. intros Hin. now destruct (CD _ Hin) as (_ & Hn & _).
    + destruct (mem s _) eqn:M.
      * split; [intros _; now apply mem_In | reflexivity].
      * split; [discriminate|]. intros Hin. apply mem_In in Hin. congruence.
  - intros U. cbn [DONE_STATUSES]. unfold getenv. rewrite U. reflexivity.
  - intros Em a. unfold _is_in_scope. cbn [ALLOWED_ASSIGNEES]. rewrite Em.
    now destruct (truthy a).
  - intros Ne a. unfold _is_in_scope. cbn [ALLOWED_ASSIGNEES].
    destruct (truthy a); cbn [negb]; [|discriminate].
    destruct (csv_items (getenv vars "ALLOWED_ASSIGNEES" "")) as [|x l] eqn:Items;
      [contradiction|]. cbn [is_nil].
    destruct a as [| | | | s | |]; try discriminate.
    intros M. apply mem_In in M. exists s. split; [reflexivity|]. split; [exact M|].
    now destruct (CA _ M) as (Hs & _).
Qed.

(** ** Scope and identity *)

Section Identity.

Variable cfg : config.
Variable E : env.

(** X5: the mapping to GitLab users never makes up an identity. It gives no
    id or one id; out of scope it gives none; and when it gives one, the
    assignee is a non-empty string, the user table is a dict that holds that
    string, and the id is [int()] of the value the table holds for it. It
    raises only for a truthy assignee in scope: [AttributeError] when the table
    is not a dict, [TypeError] when the table is a dict and the assignee is
    unhashable, that is a list or a dict (a number or a boolean is looked up
    and raises nothing). *)
Theorem map_assignee_never_fabricates (assignee : pyval) (in_scope : bool) :
  match _map_assignee_to_gitlab_ids cfg E assignee in_scope with
  | Ok ids =>
      ids = []
      \/ exists s entries v n,
           in_scope = true /\ assignee = PStr s /\ s <> EmptyString
           /\ JIRA_TO_GITLAB_USER_ID cfg = PDict entries
           /\ lookup s entries = Some v /\ py_int E v = Some n /\ ids = [n]
  | Raise e =>
      in_scope = true /\ truthy assignee = true
      /\ ((e = AttributeError /\ is_dict (JIRA_TO_GITLAB_USER_ID cfg) = false)
          \/ (e = TypeError /\ is_str assignee = false
              /\ is_dict (JIRA_TO_GITLAB_USER_ID cfg) = true
              /\ ((exists items, assignee = PList items)
                  \/ (exists members, assignee = PDict members))))
  end
  /\ (in_scope = false -> _map_assignee_to_gitlab_ids cfg E assignee in_scope = Ok []).
Proof.
  split; [|now intros ->].
  unfold _map_assignee_to_gitlab_ids.
  destruct in_scope; cbn [negb]; [|now left].
  destruct (truthy assignee) eqn:T; cbn [negb]; [|now left].
  destruct (JIRA_TO_GITLAB_USER_ID cfg) as [| | | | | |entries] eqn:Tab;
    try (cbn [rbind]; repeat split; auto; fail).
  destruct assignee as [| b | n | x | s | items | ents]; cbn [rbind];
    try (now left).
  2:{ split; [reflexivity|]. split; [reflexivity|]. right.
      repeat split. left. now exists items. }
  2:{ split; [reflexivity|]. split; [reflexivity|]. right.
      repeat split. right. now exists ents. }
  destruct (lookup s entries) as [v|] eqn:Lk; [|now left].
  destruct v as [| b | n | x | t | items | ents];
    try (now left);
    (destruct (py_int E _) as [m|] eqn:I; [|now left];
     right; exists s; eexists; eexists; exists m;
     repeat split; eauto;
     simpl in T; intros ->; discriminate).
Qed.

End Identity.

(** ** The durable store, operation by operation *)

Section Store.

Variable cfg : config.
Variable E : env.

(** X6: a link written with [_upsert_link] is what [_get_link] reads back
    for the key: the configured project id, the issue id and the state just
    written. The write leaves the link of every other key, and the processed
    table, as they were, and it adds a row only when the key had none. *)
Theorem upsert_then_get (key : pyval) (k : string) (iid : Z) (state : string)
    (w : world) :
  bind_text E key = Some k ->
  sqlite_int_ok iid = true ->
  let w1 := snd (_upsert_link cfg E key iid state w) in
  fst (_upsert_link cfg E key iid state w) = Ok tt
  /\ _get_link E key w1 = (Ok (Some (GITLAB_PROJECT_ID cfg, iid, state)), w1)
  /\ (forall (other : pyval) (k' : string),
        bind_text E other = Some k' -> k' <> k ->
        fst (_get_link E other w1) = fst (_get_link E other w))
  /\ processed (db w1) = processed (db w)
  /\ length (links (db w1))
     = match select_link k (db w) with
       | Some _ => length (links (db w))
       | None => S (length (links (db w)))
       end.
Proof.
  intros Bk I w1. subst w1.
  unfold _upsert_link, _get_link, _now_iso, commit, bind, select_link.
  rewrite Bk, I. cbn [fst snd db links processed trace].
  split; [reflexivity|]. split.
  { rewrite find_upsert_key by reflexivity. reflexivity. }
  split.
  { intros other k' Bk' N. rewrite Bk'. cbn [fst db links].
    now rewrite find_upsert_other. }
  split; [reflexivity|].
  destruct (find _ (links (db w))) as [old|] eqn:F.
  - rewrite <- (length_map jira_key), (upsert_present_keys _ _ old); [apply length_map|exact F].
  - rewrite (upsert_absent_key k); [|reflexivity|exact F].
    rewrite length_app. simpl. lia.
Qed.

(** X7: after [_mark_processed fp], [_is_processed fp] answers true. The
    mark changes the answer for no other fingerprint, touches no link, and is
    idempotent: marking a fingerprint that is already marked leaves the table
    as it is (the row keeps its first time). *)
Theorem mark_then_is_processed (fp : string) (w : world) :
  let w1 := snd (_mark_processed E fp w) in
  _is_processed fp w1 = (Ok true, w1)
  /\ (forall fp' : string, fp' <> fp ->
        fst (_is_processed fp' w1) = fst (_is_processed fp' w))
  /\ links (db w1) = links (db w)
  /\ (has_fingerprint fp (db w) = true -> db w1 = db w)
  /\ db (snd (_mark_processed E fp w1)) = db w1.
Proof.
  intros w1. subst w1. rewrite !mark_processed_run. cbn [snd].
  unfold _is_processed. rewrite has_fingerprint_marked_self.
  split; [reflexivity|]. split.
  { intros fp' N. cbn [fst]. unfold has_fingerprint, marked, insert_or_ignore.
    cbn [db processed event_fingerprint].
    destruct (existsb _ (processed (db w))) eqn:Ex; [reflexivity|].
    rewrite existsb_app. simpl.
    destruct (String.eqb_spec fp fp'); [congruence|]. now rewrite !orb_false_r. }
  split; [reflexivity|].
  assert (Same : forall v, has_fingerprint fp (db v) = true -> db (marked E fp v) = db v).
  { intros v H. unfold marked, insert_or_ignore, has_fingerprint in *.
    cbn [db processed event_fingerprint links]. rewrite H. now destruct (db v). }
  split; [apply Same|]. apply Same, has_fingerprint_marked_self.
Qed.

End Store.

(** ** What a delivery does to the tables *)

Section Tables.

Variable cfg : config.
Variable E : env.

Lemma reaches_key_text (req : request) (w : world) (L : locals) :
  reaches_decision cfg E req w L -> request_key_text E req = Some (l_key_text L).
Proof.
  intros (_ & _ & B & _ & _ & X & _ & Bk & _). unfold request_key_text, l_key in *.
  now rewrite B, X.
Qed.

(** The links after a delivery: as before, or with one row upserted. *)
Lemma delivery_links (req : request) (w : world) :
  let w' := snd (jira_webhook cfg E req w) in
  links (db w') = links (db w)
  \/ exists row,
       links (db w') = upsert_row row (links (db w))
       /\ row_ok cfg row
       /\ request_key_text E req = Some (jira_key row)
       /\ match select_link (jira_key row) (db w) with
          | Some old => gitlab_issue_iid row = gitlab_issue_iid old
          | None => sync_state row = "in-scope"%string
          end.
Proof.
  cbv zeta.
  destruct (jira_webhook_cases cfg E req w)
    as [[e H]|[(fp & _ & _ & _ & _ & H)|[(fp & _ & _ & H)|(L & R & H)]]];
    rewrite H; cbn [snd]; try (now left).
  rewrite create_or_update_unfold. unfold l_link.
  pose proof (reaches_key_text req w L R) as Kt.
  pose proof R as (_ & _ & _ & _ & _ & _ & _ & Bk & _).
  destruct (select_link (l_key_text L) (db w)) as [old|] eqn:Sel.
  - cbv zeta. destruct (gitlab_api E _) as [|code x]; [now left|].
    destruct (code >=? 300); [now left|]. rewrite Bk.
    destruct (sqlite_int_ok (gitlab_issue_iid old)) eqn:I; [|now left].
    right. eexists. split; [reflexivity|]. cbn [jira_key]. rewrite Sel.
    repeat split; auto. cbn. destruct (l_in_scope cfg L); auto.
  - destruct (l_in_scope cfg L); cbn [negb]; [|now left].
    cbv zeta. destruct (gitlab_api E _) as [|code x]; [now left|].
    destruct (code >=? 300); [now left|].
    destruct x as [n|]; [|now left]. rewrite Bk.
    destruct (sqlite_int_ok n) eqn:I; [|now left].
    right. eexists. split; [reflexivity|]. cbn [jira_key]. rewrite Sel.
    repeat split; auto.
Qed.

Lemma upsert_keys (row : link_row) (rows : list link_row) :
  exists added,
    map jira_key (upsert_row row rows) = map jira_key rows ++ added
    /\ (length added <= 1)%nat.
Proof.
  destruct (find (fun x => (jira_key x =? jira_key row)%string) rows) as [old|] eqn:F.
  - exists []. rewrite (upsert_present_keys row rows old F), app_nil_r. simpl. auto.
  - exists [jira_key row]. rewrite (upsert_absent row rows F), map_app. simpl. auto.
Qed.

Lemma upsert_rows_ok (row : link_row) (rows : list link_row) :
  row_ok cfg row ->
  Forall (row_ok cfg) rows -> Forall (row_ok cfg) (upsert_row row rows).
Proof.
  intros Hrow F. induction F as [|x rows Hx F IH]; simpl.
  - constructor; [exact Hrow | constructor].
  - destruct (jira_key x =? jira_key row)%string.
    + constructor; [exact Hrow | exact F].
    + now constructor.
Qed.

(** X8: deliveries only add links. The keys of [links] after any list of
    deliveries are the keys before, in the same order, followed by at most one
    new key per delivery: no link is deleted or moved. *)
Theorem links_never_deleted (reqs : list request) (w : world) :
  let w' := snd (deliver cfg E reqs w) in
  exists added,
    map jira_key (links (db w')) = map jira_key (links (db w)) ++ added
    /\ (length added <= length reqs)%nat.
Proof.
  revert w. induction reqs as [|req reqs IH]; intros w; simpl.
  - exists []. now rewrite app_nil_r.
  - pose proof (delivery_links req w) as D. cbv zeta in D.
    destruct (jira_webhook cfg E req w) as [r w1]. cbn [snd] in D.
    specialize (IH w1). cbv zeta in IH.
    destruct (deliver cfg E reqs w1) as [rs w2]. cbn [snd] in *.
    destruct IH as (added2 & K2 & L2).
    destruct D as [Same|(row & Up & _)].
    + exists added2. rewrite K2, Same. split; [reflexivity | lia].
    + destruct (upsert_keys row (links (db w))) as (added1 & K1 & L1).
      exists (added1 ++ added2). rewrite K2, Up, K1, <- app_assoc.
      split; [reflexivity|]. rewrite length_app. lia.
Qed.

(** X9: the rows of [links] stay well formed under deliveries: when every
    row holds one of the two states [in-scope] and [out-of-scope], an issue id
    in the range of an SQLite integer and the configured project id, the same
    is true after any list of deliveries. *)
Theorem links_stay_well_formed (reqs : list request) (w : world) :
  Forall (row_ok cfg) (links (db w)) ->
  Forall (row_ok cfg) (links (db (snd (deliver cfg E reqs w)))).
Proof.
  revert w. induction reqs as [|req reqs IH]; intros w F; simpl; [exact F|].
  pose proof (delivery_links req w) as D. cbv zeta in D.
  destruct (jira_webhook cfg E req w) as [r w1]. cbn [snd] in D.
  specialize (IH w1).
  destruct (deliver cfg E reqs w1) as [rs w2]. cbn [snd] in *.
  apply IH. destruct D as [Same|(row & Up & Rok & _)].
  - now rewrite Same.
  - rewrite Up. now apply upsert_rows_ok.
Qed.

(** X10: a delivery leaves alone the link of every key but its own: for a
    key that is not the key of the request, [links] holds after the delivery
    the row it held before. *)
Theorem other_links_untouched (req : request) (w : world) (k : string) :
  request_key_text E req <> Some k ->
  select_link k (db (snd (jira_webhook cfg E req w))) = select_link k (db w).
Proof.
  intros N. pose proof (delivery_links req w) as D. cbv zeta in D.
  unfold select_link. destruct D as [Same|(row & Up & _ & Kt & _)].
  - now rewrite Same.
  - rewrite Up. apply find_upsert_other. intros e. apply N. now rewrite Kt, e.
Qed.

Lemma insert_or_ignore_appends (r : processed_row) (rows : list processed_row) :
  exists added,
    insert_or_ignore r rows = rows ++ added
    /\ (length added <= 1)%nat
    /\ (NoDup (map event_fingerprint rows) ->
        NoDup (map event_fingerprint (rows ++ added))).
Proof.
  unfold insert_or_ignore.
  destruct (existsb _ rows) eqn:Ex.
  - exists []. rewrite app_nil_r. simpl. auto.
  - exists [r]. split; [reflexivity|]. split; [simpl; lia|].
    intros U. rewrite map_app. simpl. apply NoDup_snoc; [exact U|].
    intros Hin. apply in_map_iff in Hin. destruct Hin as (x & e & Hx).
    assert (T : existsb (fun x => (event_fingerprint x =? event_fingerprint r)%string) rows
                = true).
    { apply existsb_exists. exists x. split; [exact Hx|]. rewrite e. apply String.eqb_refl. }
    congruence.
Qed.

Lemma delivery_processed (req : request) (w : world) :
  let w' := snd (jira_webhook cfg E req w) in
  exists added,
    processed (db w') = processed (db w) ++ added
    /\ (length added <= 1)%nat
    /\ (processed_unique (db w) -> processed_unique (db w')).
Proof.
  cbv zeta. unfold processed_unique.
  pose proof (jira_webhook_outcome cfg E req w) as O.
  destruct (jira_webhook cfg E req w) as [r w']. cbn [fst snd] in *.
  assert (Id : exists added,
             processed (db w) = processed (db w) ++ added
             /\ (length added <= 1)%nat
             /\ (NoDup (map event_fingerprint (processed (db w))) ->
                 NoDup (map event_fingerprint (processed (db w)))))
    by (exists []; rewrite app_nil_r; simpl; auto).
  destruct O; cbn [db marked linked sent processed]; try exact Id;
    match goal with
    | |- context [insert_or_ignore ?r ?rows] =>
        destruct (insert_or_ignore_appends r rows) as (added & A & Ln & U);
        exists added; rewrite A; auto
    end.
Qed.

(** X11: deliveries only append to [processed]. After any list of
    deliveries the table is the table before followed by at most one new row
    per delivery, and if no two rows held the same fingerprint before, none do
    after. *)
Theorem processed_append_only (reqs : list request) (w : world) :
  let w' := snd (deliver cfg E reqs w) in
  exists added,
    processed (db w') = processed (db w) ++ added
    /\ (length added <= length reqs)%nat
    /\ (processed_unique (db w) -> processed_unique (db w')).
Proof.
  revert w. induction reqs as [|req reqs IH]; intros w; simpl.
  - exists []. rewrite app_nil_r. simpl. auto.
  - pose proof (delivery_processed req w) as D. cbv zeta in D.
    destruct (jira_webhook cfg E req w) as [r w1]. cbn [snd] in D.
    specialize (IH w1). cbv zeta in IH.
    destruct (deliver cfg E reqs w1) as [rs w2]. cbn [snd] in *.
    destruct D as (a1 & P1 & L1 & U1). destruct IH as (a2 & P2 & L2 & U2).
    exists (a1 ++ a2). rewrite P2, P1, <- app_assoc.
    split; [reflexivity|]. split; [rewrite length_app; lia | auto].
Qed.

End Tables.

(** ** What a delivery does, and what it never does *)

Section Conduct.

Variable cfg : config.
Variable E : env.

(** X12: the effects of one delivery have one of four shapes: nothing; the
    mark alone; one request to GitLab alone; or one request, then the link
    write, then the mark, and this only when GitLab answered the request with
    a success status. So a delivery sends at most one request, writes a link
    only after GitLab accepted the request, and never writes a link without
    marking the fingerprint. *)
Theorem delivery_effects (req : request) (w : world) :
  let w' := snd (jira_webhook cfg E req w) in
  exists es,
    trace w' = trace w ++ es
    /\ (es = []
        \/ (exists r, es = [ProcessedInsert r]
                      /\ request_fingerprint E req = Some (event_fingerprint r))
        \/ (exists call, is_http call = true /\ es = [call])
        \/ (exists call row r code x,
              is_http call = true
              /\ es = [call; LinkUpsert row; ProcessedInsert r]
              /\ gitlab_api E (trace w ++ [call]) = Response code x
              /\ code < 300
              /\ request_key_text E req = Some (jira_key row)
              /\ request_fingerprint E req = Some (event_fingerprint r))).
Proof.
  cbv zeta. pose proof (jira_webhook_outcome cfg E req w) as O.
  destruct (jira_webhook cfg E req w) as [res w']. cbn [fst snd] in *.
  destruct O as [e | fp F P A C | fp F P | L R PC | L call e R PC He
                 | L call row act code x R PC G Hc Hk Hp Hm Ht].
  - exists []. rewrite app_nil_r. auto.
  - exists []. rewrite app_nil_r. auto.
  - eexists. split; [reflexivity|]. right. left. eexists. split; [reflexivity | exact F].
  - eexists. split; [reflexivity|]. right. left. eexists. split; [reflexivity|].
    apply (reaches_fingerprint cfg E req w L R).
  - exists [call]. split; [reflexivity|]. right. right. left. exists call.
    split; [|reflexivity]. now destruct (planned_call_http cfg E L w call PC).
  - exists [call; LinkUpsert row;
            ProcessedInsert {| event_fingerprint := l_fp L;
                               created_at := utc_now E (trace (linked row (sent call w))) |}].
    split; [simpl; now rewrite <- !app_assoc|].
    right. right. right. exists call, row. eexists. exists code, x.
    split; [now destruct (planned_call_http cfg E L w call PC)|].
    split; [reflexivity|]. split; [exact G|]. split; [exact Hc|].
    split; [rewrite Hk; apply (reaches_key_text cfg E req w L R)|].
    apply (reaches_fingerprint cfg E req w L R).
Qed.

(** X13: the endpoint tests the token, then the GitLab settings, then the
    body, in this order, and a request it turns away at one of them changes
    nothing: no token gives 401 even when the settings are missing, missing
    settings give 500 before the body is read, a body that is not JSON raises.
    Whenever a delivery changes the world, the request passed the token test,
    the settings were complete, and the fingerprint was new. *)
Theorem turned_away_changes_nothing (req : request) (w : world) :
  (authorised cfg req = false ->
   jira_webhook cfg E req w = (Raise (HTTPException 401), w))
  /\ (authorised cfg req = true -> configured cfg = false ->
      jira_webhook cfg E req w = (Raise (HTTPException 500), w))
  /\ (authorised cfg req = true -> configured cfg = true -> json_body req = None ->
      jira_webhook cfg E req w = (Raise JSONDecodeError, w))
  /\ (snd (jira_webhook cfg E req w) <> w ->
      authorised cfg req = true /\ configured cfg = true
      /\ exists fp, request_fingerprint E req = Some fp
                    /\ has_fingerprint fp (db w) = false).
Proof.
  split; [|split; [|split]].
  - intros A. now rewrite jira_webhook_unfold, A.
  - intros A C. now rewrite jira_webhook_unfold, A, C.
  - intros A C B. now rewrite jira_webhook_unfold, A, C, B.
  - intros N.
    destruct (jira_webhook_cases cfg E req w)
      as [[e H]|[(fp & _ & _ & _ & _ & H)|[(fp & F & P & H)|(L & R & H)]]].
    + rewrite H in N. now elim N.
    + rewrite H in N. now elim N.
    + rewrite jira_webhook_unfold in H.
      destruct (authorised cfg req); cbn [negb] in H; [|discriminate H].
      destruct (configured cfg); cbn [negb] in H; [|discriminate H].
      repeat split; auto. now exists fp.
    + pose proof (reaches_fingerprint cfg E req w L R) as F.
      destruct R as (A & C & _ & _ & P & _). repeat split; auto. now exists (l_fp L).
Qed.

(** X14: a payload that is a JSON object without an issue (the member is
    missing, null or empty) is acknowledged with [skip_no_key]: nothing is sent
    to GitLab, no link is written, and the fingerprint, which is the event type
    followed by two bars, is marked (or the answer is [dedup] when it was
    marked already). A payload that is not a JSON object raises
    [AttributeError] and changes nothing. *)
Theorem missing_issue_is_skipped (req : request) (w : world) :
  authorised cfg req = true ->
  configured cfg = true ->
  (forall top : list (string * pyval),
     json_body req = Some (PDict top) ->
     truthy (match lookup "issue" top with Some v => v | None => PNone end) = false ->
     let event_type :=
       py_or (match lookup "webhookEvent" top with Some v => v | None => PNone end)
         (py_or (match lookup "issue_event_type_name" top with Some v => v | None => PNone end)
            (PStr "")) in
     let fp := (py_str E event_type ++ "||")%string in
     jira_webhook cfg E req w
     = if has_fingerprint fp (db w) then (Ok dedup_response, w)
       else (Ok skip_no_key_response, marked E fp w))
  /\ (forall payload : pyval,
        json_body req = Some payload -> is_dict payload = false ->
        jira_webhook cfg E req w = (Raise AttributeError, w)).
Proof.
  intros A C. split.
  - intros top B T event_type fp.
    rewrite jira_webhook_unfold, A, C, B. cbn [negb].
    assert (I : py_or (match lookup "issue" top with Some v => v | None => PNone end)
                  (PDict []) = PDict [])
      by (unfold py_or; now rewrite T).
    assert (F : _fingerprint E (PDict top) = Ok fp).
    { unfold _fingerprint. cbn [py_get rbind]. rewrite !I.
      cbn [py_get rbind lookup]. unfold fp, event_type, py_or.
      destruct (truthy match lookup "webhookEvent" top with Some v => v | None => PNone end);
        reflexivity. }
    rewrite F. destruct (has_fingerprint fp (db w)); [reflexivity|].
    unfold _jira_extract. cbn [py_get rbind]. rewrite !I.
    reflexivity.
  - intros payload B D. rewrite jira_webhook_unfold, A, C, B. cbn [negb].
    destruct payload; try discriminate; reflexivity.
Qed.

(** X15: an acknowledgment says [ok], names one of the five actions, and
    carries an issue id exactly for [created] and [updated] and a key for all
    but [dedup] and [skip_no_key]. When it carries an issue id, [links] holds,
    after the delivery, a row for the key of the request with that issue id. *)
Theorem acknowledgment_shape (req : request) (w : world) (r : WebhookResponse) :
  fst (jira_webhook cfg E req w) = Ok r ->
  ok r = true
  /\ In (action r) actions
  /\ (gitlab_iid r <> None <-> action r = "created"%string \/ action r = "updated"%string)
  /\ (resp_jira_key r = None <-> action r = "dedup"%string \/ action r = "skip_no_key"%string)
  /\ (forall iid, gitlab_iid r = Some iid ->
        exists k row,
          request_key_text E req = Some k
          /\ select_link k (db (snd (jira_webhook cfg E req w))) = Some row
          /\ gitlab_issue_iid row = iid).
Proof.
  intros S. pose proof (jira_webhook_outcome cfg E req w) as O.
  destruct (jira_webhook cfg E req w) as [res w']. cbn [fst snd] in *. subst res.
  assert (Ack : forall act k i, ack E act k i = Ok r ->
                  exists s, r = {| ok := true; action := act;
                                   resp_jira_key := Some s; gitlab_iid := i |}).
  { intros act k i H. unfold ack in H. destruct (validate_str E k) as [s|]; inversion H.
    now exists s. }
  inversion O as [e | fp F P A C | fp F P | L R PC | L call e R PC He
                  | L call row act code x R PC G Hc Hk Hp Hm Ht]; subst.
  - cbn. split; [reflexivity|]. split; [unfold actions; simpl; tauto|].
    split; [split; [intros N; now elim N | intros [N|N]; discriminate]|].
    split; [split; [now left | reflexivity]|]. discriminate.
  - cbn. split; [reflexivity|]. split; [unfold actions; simpl; tauto|].
    split; [split; [intros N; now elim N | intros [N|N]; discriminate]|].
    split; [split; [now right | reflexivity]|]. discriminate.
  - match goal with H : ack _ _ _ _ = Ok r |- _ => destruct (Ack _ _ _ H) as [s ->] end.
    cbn. split; [reflexivity|]. split; [unfold actions; simpl; tauto|].
    split; [split; [intros N; now elim N | intros [N|N]; discriminate]|].
    split; [split; [discriminate | intros [N|N]; discriminate]|]. discriminate.
  - match goal with H : ack _ _ _ _ = Ok r |- _ => destruct (Ack _ _ _ H) as [s ->] end.
    assert (Hact : act = "created"%string \/ act = "updated"%string)
      by (destruct (select_link (l_key_text L) (db w)); destruct Hm as [-> _]; auto).
    cbn. split; [reflexivity|].
    split; [unfold actions; simpl; destruct Hact as [->| ->]; tauto|].
    split; [split; [intros _; exact Hact | discriminate]|].
    split; [split; [discriminate | intros [N|N]; rewrite N in Hact;
                                   destruct Hact; discriminate]|].
    intros iid Hiid. inversion Hiid; subst iid.
    exists (l_key_text L), row. split; [apply (reaches_key_text cfg E req w L R)|].
    split; [|reflexivity]. unfold select_link. cbn. now apply find_upsert_key.
Qed.

End Conduct.

(** ** The requests to GitLab *)

Section Requests.

Variable cfg : config.
Variable E : env.

(** X16: the URL of an issue is the URL of the issue collection, a slash and
    the decimal issue id, and two issue ids give the same URL only when they
    are the same id: an update cannot reach another issue than the one whose
    id it was given. *)
Theorem issue_url_injective (i j : Z) :
  (_gitlab_issue_url cfg i = _gitlab_issue_url cfg j <-> i = j)
  /\ _gitlab_issue_url cfg i = (_gitlab_create_url cfg ++ "/" ++ str_of_int i)%string.
Proof.
  unfold _gitlab_issue_url, _gitlab_create_url. split; [split|].
  - intros H.
    apply append_cancel_l in H. apply (append_cancel_l "/api/v4/projects/") in H.
    apply append_cancel_l in H. apply (append_cancel_l "/issues/") in H.
    now apply str_of_int_inj.
  - now intros ->.
  - rewrite !append_assoc. reflexivity.
Qed.

(** X17: the two calls to GitLab only send: each adds its one request to the
    trace and leaves the database alone, whatever GitLab answers. The create
    call returns an issue id exactly when the answer has a status below 300
    and an [iid] that can be read, the update call returns exactly when the
    status is below 300, and each raises [HTTPException(502)] exactly when the
    status is 300 or more. *)
Theorem gitlab_calls_only_send (iid : Z) (title description : pyval) (labels : list string)
    (assignee_ids : list Z) (state_event : option string) (w : world) :
  let post := HttpPost (_gitlab_create_url cfg)
                (create_data title description labels assignee_ids state_event) in
  let put := HttpPut (_gitlab_issue_url cfg iid)
               (update_data title description labels assignee_ids state_event) in
  let c := _gitlab_create_issue cfg E title description labels assignee_ids state_event w in
  let u := _gitlab_update_issue cfg E iid title description labels assignee_ids
             state_event w in
  snd c = sent post w
  /\ (forall n, fst c = Ok n
                <-> exists code, gitlab_api E (trace w ++ [post]) = Response code (Some n)
                                 /\ code < 300)
  /\ (fst c = Raise (HTTPException 502)
      <-> exists code x, gitlab_api E (trace w ++ [post]) = Response code x /\ 300 <= code)
  /\ snd u = sent put w
  /\ (fst u = Ok tt
      <-> exists code x, gitlab_api E (trace w ++ [put]) = Response code x /\ code < 300)
  /\ (fst u = Raise (HTTPException 502)
      <-> exists code x, gitlab_api E (trace w ++ [put]) = Response code x /\ 300 <= code).
Proof.
  cbv zeta.
  unfold _gitlab_create_issue, _gitlab_update_issue, send, bind, ret, raise, sent.
  cbn [trace db].
  set (post := HttpPost _ _). set (put := HttpPut _ _).
  split.
  { destruct (gitlab_api E (trace w ++ [post])) as [|code x]; [reflexivity|].
    destruct (code >=? 300); [reflexivity|]. now destruct x. }
  split.
  { intros n. destruct (gitlab_api E (trace w ++ [post])) as [|code x]; cbn [fst].
    - split; [discriminate | intros (c & H & _); discriminate].
    - destruct (code >=? 300) eqn:G; cbn [fst].
      + split; [discriminate|]. intros (c & H & Hc). inversion H; subst. lia.
      + destruct x as [m|]; cbn [fst].
        * split.
          -- intros H. inversion H; subst. exists code. split; [reflexivity | lia].
          -- intros (c & H & _). inversion H; subst. reflexivity.
        * split; [discriminate | intros (c & H & _); discriminate]. }
  split.
  { destruct (gitlab_api E (trace w ++ [post])) as [|code x]; cbn [fst].
    - split; [discriminate | intros (c & y & H & _); discriminate].
    - destruct (code >=? 300) eqn:G; cbn [fst].
      + split; [intros _; exists code, x; split; [reflexivity | lia] | reflexivity].
      + split.
        * destruct x; discriminate.
        * intros (c & y & H & Hc). inversion H; subst. lia. }
  split.
  { destruct (gitlab_api E (trace w ++ [put])) as [|code x]; [reflexivity|].
    now destruct (code >=? 300). }
  split.
  { destruct (gitlab_api E (trace w ++ [put])) as [|code x]; cbn [fst].
    - split; [discriminate | intros (c & y & H & _); discriminate].
    - destruct (code >=? 300) eqn:G; cbn [fst].
      + split; [discriminate|]. intros (c & y & H & Hc). inversion H; subst. lia.
      + split; [intros _; exists code, x; split; [reflexivity | lia] | reflexivity]. }
  destruct (gitlab_api E (trace w ++ [put])) as [|code x]; cbn [fst].
  - split; [discriminate | intros (c & y & H & _); discriminate].
  - destruct (code >=? 300) eqn:G; cbn [fst].
    + split; [intros _; exists code, x; split; [reflexivity | lia] | reflexivity].
    + split; [discriminate|]. intros (c & y & H & Hc). inversion H; subst. lia.
Qed.



(** X19: an update passes the lifecycle token as computed, unlike a
    creation: the form of the update request of a delivery holds [state_event]
    [close] when the status is a name of the done set, [reopen] when it is any
    other non-empty status, and no [state_event] when the status is empty; and
    it always holds [assignee_ids], the ids or the empty string. *)
Theorem update_passes_transition (req : request) (w : world) (L : locals) (old : link_row) :
  reaches_decision cfg E req w L ->
  select_link (l_key_text L) (db w) = Some old ->
  exists data rest,
    trace (snd (jira_webhook cfg E req w))
    = trace w ++ HttpPut (_gitlab_issue_url cfg (gitlab_issue_iid old)) data :: rest
    /\ lookup "state_event" data
       = (if status_done cfg (data_status (l_data L)) then Some (PStr "close")
          else if truthy (data_status (l_data L)) then Some (PStr "reopen")
               else None)
    /\ lookup "assignee_ids" data
       = Some (if negb (is_nil (l_assignee_ids L))
               then PList (map PInt (l_assignee_ids L)) else PStr "").
Proof.
  intros R Sel.
  assert (PC : planned_call cfg E L w
               = Some (HttpPut (_gitlab_issue_url cfg (gitlab_issue_iid old))
                         (update_data (l_title L) (l_description L) (l_labels cfg E L)
                            (l_assignee_ids L) (l_state_event L))))
    by (unfold planned_call; now rewrite Sel).
  destruct (planned_call_leaves cfg E req w L _ R PC) as [rest T].
  pose proof R as (_ & _ & _ & _ & _ & _ & _ & _ & _ & St & _).
  destruct (form_fields false (l_title L) (l_description L) (l_labels cfg E L)
              (l_assignee_ids L) (l_state_event L)) as (_ & _ & _ & Fa & Fs).
  cbv zeta in *.
  eexists. exists rest. split; [exact T|]. split.
  - rewrite Fs. clear - St.
    unfold _state_event_from_status, status_done in *.
    destruct (data_status (l_data L)) as [| b | n | x | s | items | entries];
      cbn [truthy] in *.
    + inversion St. reflexivity.
    + destruct b; inversion St; reflexivity.
    + destruct (n =? 0); inversion St; reflexivity.
    + destruct (PrimFloat.eqb x PrimFloat.zero); inversion St; reflexivity.
    + destruct (s =? "")%string; cbn [negb andb] in *; [inversion St; reflexivity|].
      destruct (mem s (DONE_STATUSES cfg)); inversion St; reflexivity.
    + destruct items; inversion St; reflexivity.
    + destruct entries; inversion St; reflexivity.
  - rewrite Fa. now destruct (negb (is_nil (l_assignee_ids L))).
Qed.

End Requests.

(** ** Shapes the normaliser accepts *)

Lemma py_get_field (obj : pyval) (k : string) :
  is_dict obj = true -> py_get obj k = Ok (field obj k).
Proof. destruct obj; try discriminate. reflexivity. Qed.

Lemma py_get_raise (obj : pyval) (k : string) :
  is_dict obj = false -> py_get obj k = Raise AttributeError.
Proof. destruct obj; try discriminate; reflexivity. Qed.

Lemma dict_or_falsy_or (v : pyval) :
  is_dict (py_or v (PDict [])) = dict_or_falsy v.
Proof.
  unfold py_or, dict_or_falsy. destruct (truthy v) eqn:T; cbn [negb orb is_dict]; reflexivity.
Qed.

Section Normaliser.

Variable E : env.

(** X20: the event normaliser accepts exactly the payloads that are objects
    whose issue, fields, status and assignee are objects where present, and
    raises [AttributeError], nothing else, on the others. The fingerprint
    succeeds on every payload the normaliser accepts and raises nothing but
    [AttributeError]. On an accepted payload the extracted key is the [key] of
    the issue, and the fingerprint is the event name, that same key and the
    [updated] field, each replaced by the empty string when falsy, joined by
    bars. *)
Theorem normaliser_shapes (payload : pyval) :
  let issue := py_or (field payload "issue") (PDict []) in
  let fields := py_or (field issue "fields") (PDict []) in
  let event := py_or (field payload "webhookEvent")
                 (py_or (field payload "issue_event_type_name") (PStr "")) in
  (well_shaped payload = true ->
   exists d,
     _jira_extract payload = Ok d
     /\ data_key d = field issue "key"
     /\ data_summary d = py_or (field fields "summary") (PStr "")
     /\ _fingerprint E payload
        = Ok (py_str E event ++ "|" ++ py_str E (py_or (data_key d) (PStr "")) ++ "|"
              ++ py_str E (py_or (field fields "updated") (PStr "")))%string)
  /\ (well_shaped payload = false -> _jira_extract payload = Raise AttributeError)
  /\ (forall e, _fingerprint E payload = Raise e ->
                 e = AttributeError /\ well_shaped payload = false).
Proof.
  cbv zeta. unfold well_shaped.
  set (issue := py_or (field payload "issue") (PDict [])).
  set (fields := py_or (field issue "fields") (PDict [])).
  rewrite <- !dict_or_falsy_or. fold issue. fold fields.
  unfold _jira_extract, _fingerprint.
  destruct (is_dict payload) eqn:P; cbn [andb].
  2:{ rewrite !(py_get_raise payload) by exact P. cbn [rbind].
      split; [discriminate|]. split; [reflexivity|].
      intros e H. inversion H. split; reflexivity. }
  rewrite !(py_get_field payload) by exact P. cbn [rbind]. fold issue.
  destruct (is_dict issue) eqn:I; cbn [andb].
  2:{ rewrite !(py_get_raise issue) by exact I. cbn [rbind].
      split; [discriminate|]. split; [reflexivity|].
      intros e H. inversion H. split; reflexivity. }
  rewrite !(py_get_field issue) by exact I. cbn [rbind]. fold fields.
  destruct (is_dict fields) eqn:F; cbn [andb].
  2:{ rewrite !(py_get_raise fields) by exact F. cbn [rbind].
      split; [discriminate|]. split; [reflexivity|].
      intros e H. inversion H. split; reflexivity. }
  rewrite !(py_get_field fields) by exact F. cbn [rbind].
  assert (FP : (event_type <-? (if truthy (field payload "webhookEvent")
                                then Ok (field payload "webhookEvent")
                                else Ok (py_or (field payload "issue_event_type_name")
                                           (PStr ""))) ;;
                Ok (py_str E event_type ++ "|"
                    ++ py_str E (py_or (field issue "key") (PStr "")) ++ "|"
                    ++ py_str E (py_or (field fields "updated") (PStr "")))%string)
               = Ok (py_str E (py_or (field payload "webhookEvent")
                                 (py_or (field payload "issue_event_type_name") (PStr "")))
                     ++ "|" ++ py_str E (py_or (field issue "key") (PStr "")) ++ "|"
                     ++ py_str E (py_or (field fields "updated") (PStr "")))%string).
  { replace (py_or (field payload "webhookEvent")
                (py_or (field payload "issue_event_type_name") (PStr "")))
      with (if truthy (field payload "webhookEvent") then field payload "webhookEvent"
            else py_or (field payload "issue_event_type_name") (PStr ""))
      by reflexivity.
    destruct (truthy (field payload "webhookEvent")); reflexivity. }
  rewrite FP. clear FP.
  destruct (is_dict (py_or (field fields "status") (PDict []))) eqn:S; cbn [andb].
  2:{ rewrite py_get_raise by exact S. cbn [rbind].
      split; [discriminate|]. split; [reflexivity|]. discriminate. }
  rewrite py_get_field by exact S. cbn [rbind].
  destruct (truthy (field fields "assignee")) eqn:A.
  - replace (py_or (field fields "assignee") (PDict [])) with (field fields "assignee")
      by (unfold py_or; now rewrite A).
    destruct (is_dict (field fields "assignee")) eqn:D.
    + rewrite !(py_get_field (field fields "assignee")) by exact D. cbn [rbind].
      split; [|split; discriminate]. intros _.
      destruct (truthy (field (field fields "assignee") "name"));
        [|destruct (truthy (field (field fields "assignee") "key"))];
        cbn [rbind]; eexists; (split; [reflexivity|]); cbn [data_key data_summary];
        repeat split; reflexivity.
    + rewrite !(py_get_raise (field fields "assignee")) by exact D. cbn [rbind].
      split; [discriminate|]. split; [reflexivity|]. discriminate.
  - replace (py_or (field fields "assignee") (PDict [])) with (PDict [])
      by (unfold py_or; now rewrite A).
    cbn [rbind is_dict]. split; [|split; discriminate]. intros _.
    eexists. split; [reflexivity|]. cbn [data_key data_summary]. repeat split; reflexivity.
Qed.

End Normaliser.

(** ** The formatter *)

Lemma substring_length (n : nat) (s : string) :
  (n <= String.length s)%nat -> String.length (substring 0 n s) = n.
Proof.
  revert n. induction s as [|c s IH]; intros [|n] H; simpl in *; try reflexivity; try lia.
  rewrite IH; [reflexivity | lia].
Qed.

Lemma substring_prefix (n : nat) (s : string) : String.prefix (substring 0 n s) s = true.
Proof.
  revert n. induction s as [|c s IH]; intros [|n]; simpl; try reflexivity.
  destruct (ascii_dec c c) as [_|N]; [apply IH | now elim N].
Qed.

Lemma substring_clean (n : nat) (s : string) :
  starts_clean s = true -> starts_clean (substring 0 n s) = true.
Proof. destruct s, n; simpl; auto. Qed.

Lemma append_length (a b : string) :
  String.length (a ++ b) = (String.length a + String.length b)%nat.
Proof. induction a as [|c a IH]; simpl; [reflexivity | now rewrite IH]. Qed.

Lemma rstrip_dots (x : string) : rstrip (x ++ "...") = (x ++ "...")%string.
Proof.
  induction x as [|c x IH]; [reflexivity|].
  simpl. rewrite IH. destruct x; reflexivity.
Qed.

Lemma strip_dots (x : string) :
  starts_clean x = true -> strip (x ++ "...") = (x ++ "...")%string.
Proof.
  intros C. unfold strip. rewrite lstrip_of_clean; [apply rstrip_dots|].
  destruct x; [reflexivity | exact C].
Qed.

Lemma pick_none (path : list string) (default : pyval) : Formatter.pick PNone path default = default.
Proof. destruct path; reflexivity. Qed.

(** X21: a shortened text fits: for a limit of 3 or more, whatever
    [Formatter.short] returns has at most [limit] characters, is trimmed, and
    is left as it is by shortening again; it is the trimmed text itself when
    that fits, and otherwise a prefix of the trimmed text followed by three
    dots, of exactly [limit] characters. [Formatter.short_desc] returns the
    same. *)
Theorem short_fits (text : pyval) (limit : Z) (s : string) :
  3 <= limit ->
  Formatter.short text limit = Ok s ->
  Z.of_nat (String.length s) <= limit
  /\ strip s = s
  /\ Formatter.short (PStr s) limit = Ok s
  /\ Formatter.short_desc text limit = Ok s
  /\ exists t,
       py_strip (py_or text (PStr "")) = Ok t
       /\ (if Z.of_nat (String.length t) <=? limit then s = t
           else Z.of_nat (String.length s) = limit
                /\ exists x, s = (x ++ "...")%string /\ String.prefix x t = true).
Proof.
  intros L H. unfold Formatter.short, Formatter.short_desc in *.
  destruct (py_strip (py_or text (PStr ""))) as [t|e] eqn:T; [|discriminate].
  cbn [rbind] in *.
  assert (St : strip t = t).
  { unfold py_strip in T. destruct (py_or text (PStr "")); try discriminate.
    inversion T. apply strip_idem. }
  assert (Again : forall u, strip u = u -> Z.of_nat (String.length u) <= limit ->
                            (x <-? py_strip (py_or (PStr u) (PStr "")) ;;
                             Ok (if Z.of_nat (String.length x) <=? limit then x
                                 else (Formatter.slice_to (limit - 3) x ++ "...")%string)) = Ok u).
  { intros u Su Lu.
    assert (P : py_strip (py_or (PStr u) (PStr "")) = Ok u).
    { unfold py_or. cbn [truthy]. destruct (u =? "")%string eqn:U; cbn [negb py_strip].
      - apply String.eqb_eq in U. now subst u.
      - now rewrite Su. }
    rewrite P. cbn [rbind]. destruct (Z.leb_spec (Z.of_nat (String.length u)) limit);
      [reflexivity | lia]. }
  destruct (Z.leb_spec (Z.of_nat (String.length t)) limit) as [Le|Gt].
  - inversion H; subst s.
    split; [exact Le|]. split; [exact St|]. split; [now apply Again|].
    split; [reflexivity|].
    exists t. split; [reflexivity|].
    destruct (Z.leb_spec (Z.of_nat (String.length t)) limit); [reflexivity | lia].
  - inversion H as [Hs]. clear H Hs.
    set (x := substring 0 (Z.to_nat (limit - 3)) t).
    assert (Sl : Formatter.slice_to (limit - 3) t = x).
    { unfold Formatter.slice_to. destruct (Z.ltb_spec (limit - 3) 0) as [|_]; [lia|].
      now rewrite Z.min_l by lia. }
    rewrite !Sl.
    assert (Lx : String.length x = Z.to_nat (limit - 3))
      by (apply substring_length; lia).
    assert (Ls : Z.of_nat (String.length (x ++ "...")) = limit)
      by (rewrite append_length, Lx; simpl; lia).
    assert (Ss : strip (x ++ "...") = (x ++ "...")%string).
    { apply strip_dots, substring_clean, strip_fixed_clean, St. }
    split; [lia|]. split; [exact Ss|]. split; [apply Again; [exact Ss | lia]|].
    split; [reflexivity|].
    exists t. split; [reflexivity|].
    destruct (Z.leb_spec (Z.of_nat (String.length t)) limit); [lia|].
    split; [exact Ls|]. exists x. split; [reflexivity | apply substring_prefix].
Qed.

(** X22: [Formatter.pick] along a path is [pick] along its first part, with
    default [None], followed by [pick] along the rest; it gives the default
    as soon as a step meets something that is not an object, and it returns
    [None] only when the default is [None]. *)
Theorem pick_composes (d : pyval) (p q : list string) (default : pyval) :
  Formatter.pick d (p ++ q) default = Formatter.pick (Formatter.pick d p PNone) q default
  /\ (is_dict d = false -> p <> [] -> Formatter.pick d p default = default)
  /\ (Formatter.pick d p default = PNone -> default = PNone).
Proof.
  split; [|split].
  - revert d. induction p as [|k p IH]; intros d; simpl.
    + destruct d; reflexivity.
    + destruct d; try (now rewrite pick_none). apply IH.
  - intros D N. destruct p; [contradiction|]. destruct d; try reflexivity. discriminate.
  - revert d. induction p as [|k p IH]; intros d; simpl.
    + destruct d; auto; discriminate.
    + destruct d; auto. apply IH.
Qed.


(** ** More scenarios, run *)

Lemma load_config_base_url_witness :
  load_config scenario_json_loads scenario_environ = Ok scenario_loaded
  /\ ends_with "/" (GITLAB_BASE_URL scenario_loaded) = false
  /\ configured scenario_loaded = true.
Proof.
  assert (L : load_config scenario_json_loads scenario_environ = Ok scenario_loaded)
    by reflexivity.
  split; [exact L|].
  destruct (load_config_base_url scenario_json_loads scenario_environ scenario_loaded L)
    as (A & _ & C).
  split; [exact A | rewrite C; reflexivity].
Defined.

Lemma load_config_names_witness :
  load_config scenario_json_loads scenario_environ = Ok scenario_loaded
  /\ _state_event_from_status scenario_loaded (PStr "Closed") = Ok (Some "close"%string)
  /\ DONE_STATUSES scenario_loaded = ["Done"; "Closed"; "Resolved"]%string.
Proof.
  assert (L : load_config scenario_json_loads scenario_environ = Ok scenario_loaded)
    by reflexivity.
  split; [exact L|].
  destruct (load_config_names scenario_json_loads scenario_environ scenario_loaded L)
    as (D & U & _).
  split; [|exact (U eq_refl)].
  apply (proj2 (D "Closed"%string)). right; left; reflexivity.
Defined.

Lemma upsert_then_get_witness :
  _get_link gitlab_up (PStr "PROJ-1")
    (snd (_upsert_link scenario_config gitlab_up (PStr "PROJ-1") 7 "in-scope" empty_world))
  = (Ok (Some ("42"%string, 7, "in-scope"%string)),
     snd (_upsert_link scenario_config gitlab_up (PStr "PROJ-1") 7 "in-scope" empty_world)).
Proof.
  exact (proj1 (proj2 (upsert_then_get scenario_config gitlab_up (PStr "PROJ-1") "PROJ-1" 7
                         "in-scope" empty_world eq_refl eq_refl))).
Defined.

Lemma links_stay_well_formed_witness :
  Forall (row_ok scenario_config) (links (db scenario_world))
  /\ Forall (row_ok scenario_config)
       (links (db (snd (deliver scenario_config gitlab_up [scenario_unassigned; scenario_bob]
                         scenario_world)))).
Proof.
  assert (H : Forall (row_ok scenario_config) (links (db scenario_world))).
  { constructor; [|constructor]. split; [left; reflexivity | split; reflexivity]. }
  split; [exact H|].
  exact (links_stay_well_formed scenario_config gitlab_up [scenario_unassigned; scenario_bob]
           scenario_world H).
Defined.

Lemma other_links_untouched_witness :
  select_link "PROJ-1"
    (db (snd (jira_webhook scenario_config gitlab_up scenario_bob scenario_world)))
  = Some scenario_link.
Proof.
  apply (other_links_untouched scenario_config gitlab_up scenario_bob scenario_world
           "PROJ-1"%string).
  intros H. cbv in H. congruence.
Defined.

Lemma missing_issue_is_skipped_witness :
  jira_webhook scenario_config gitlab_up scenario_no_issue empty_world
  = (Ok skip_no_key_response, marked gitlab_up "jira:issue_deleted||" empty_world).
Proof.
  destruct (missing_issue_is_skipped scenario_config gitlab_up scenario_no_issue empty_world
              eq_refl eq_refl) as [A _].
  exact (A _ eq_refl eq_refl).
Defined.

Lemma acknowledgment_shape_witness :
  fst (jira_webhook scenario_config gitlab_up scenario_request empty_world)
  = Ok scenario_created
  /\ In (action scenario_created) actions
  /\ exists k row,
       request_key_text gitlab_up scenario_request = Some k
       /\ select_link k
            (db (snd (jira_webhook scenario_config gitlab_up scenario_request empty_world)))
          = Some row
       /\ gitlab_issue_iid row = 7.
Proof.
  assert (H : fst (jira_webhook scenario_config gitlab_up scenario_request empty_world)
              = Ok scenario_created) by reflexivity.
  split; [exact H|].
  destruct (acknowledgment_shape scenario_config gitlab_up scenario_request empty_world
              scenario_created H) as (_ & A & _ & _ & L).
  split; [exact A | exact (L 7 eq_refl)].
Defined.


Lemma update_passes_transition_witness :
  reaches_decision scenario_config gitlab_up scenario_unassigned scenario_world
    scenario_unassigned_locals
  /\ exists data rest,
       trace (snd (jira_webhook scenario_config gitlab_up scenario_unassigned scenario_world))
       = trace scenario_world
         ++ HttpPut "https://gitlab.example/api/v4/projects/42/issues/7" data :: rest
       /\ lookup "state_event" data = Some (PStr "reopen")
       /\ lookup "assignee_ids" data = Some (PStr "").
Proof.
  assert (R : reaches_decision scenario_config gitlab_up scenario_unassigned scenario_world
                scenario_unassigned_locals)
    by (unfold reaches_decision; repeat split; reflexivity).
  split; [exact R|].
  destruct (update_passes_transition scenario_config gitlab_up scenario_unassigned
              scenario_world scenario_unassigned_locals scenario_link R eq_refl)
    as (data & rest & T & S & A).
  exists data, rest. split; [exact T|]. split; [exact S | exact A].
Defined.

Lemma short_fits_witness :
  Formatter.short (PStr "  hello world  ") 8 = Ok "hello..."%string
  /\ Formatter.short (PStr "hello...") 8 = Ok "hello..."%string
  /\ Formatter.short_desc (PStr "  hello world  ") 8 = Ok "hello..."%string.
Proof.
  assert (H : Formatter.short (PStr "  hello world  ") 8 = Ok "hello..."%string)
    by reflexivity.
  split; [exact H|].
  destruct (short_fits (PStr "  hello world  ") 8 "hello..." ltac:(lia) H)
    as (_ & _ & A & D & _).
  split; [exact A | exact D].
Defined.
